(** * packfleet/datetime: a shallow embedding and its properties

    The library wraps the Temporal polyfill.  The embedding follows the
    source files: [parsing], [conversion], [now], [calculations],
    [comparison] and [formatting].  The Temporal value types and the host
    facilities ([Intl], the clock, the time-zone database) are collaborators
    of the library; they are modelled in the modules [JS], [Temporal] and
    [Intl] below, the clock and the zone database as fields of a [Host]
    record that is threaded through every function that reads them. *)

From Stdlib Require Import ZArith List String Ascii Bool Lia QArith Qround.
Import ListNotations.
Local Open Scope Z_scope.

(** ** JavaScript values the library handles *)
Module JS.

(** What a [throw] carries. *)
Inductive Error : Type :=
| RangeError
| TypeError
| PlainError (message : string).

(** The outcome of a call: a value or a thrown error. *)
Inductive Result (A : Type) : Type :=
| Ok (value : A)
| Throw (e : Error).
Arguments Ok {A} value.
Arguments Throw {A} e.

Definition bind {A B : Type} (r : Result A) (k : A -> Result B) : Result B :=
  match r with
  | Ok a => k a
  | Throw e => Throw e
  end.

Definition map {A B : Type} (f : A -> B) (r : Result A) : Result B :=
  bind r (fun a => Ok (f a)).

(** A parameter of type [T | null | undefined]. *)
Inductive Nullable (A : Type) : Type :=
| Null
| Undefined
| Val (value : A).
Arguments Null {A}.
Arguments Undefined {A}.
Arguments Val {A} value.

(** [!s] for [s : string | null | undefined]: true for [null], [undefined]
    and the empty string. *)
Definition notString (s : Nullable string) : bool :=
  match s with
  | Null | Undefined => true
  | Val EmptyString => true
  | Val (String _ _) => false
  end.

(** [Math.trunc] on a rational: the integer part, rounding toward zero. *)
Definition Math_trunc (q : Q) : Z := Z.quot (Qnum q) (Zpos (Qden q)).

(** [Math.floor], for comparison with [Math_trunc]. *)
Definition Math_floor (q : Q) : Z := Qfloor q.

(** A legacy [Date]: its time value, milliseconds since the epoch. *)
Record Date : Type := mkDate { getTime : Z }.

End JS.

Notation "x <- r ;; k" := (JS.bind r (fun x => k))
  (at level 61, r at next level, right associativity).

(** An [option] is bound the same way inside the parsers. *)
Notation "x <-? r ;; k" := (match r with Some x => k | None => None end)
  (at level 61, r at next level, right associativity).
Notation "' p <-? r ;; k" := (match r with Some p => k | None => None end)
  (at level 61, p pattern, r at next level, right associativity).

(** ** Decimal text *)
Module Text.

Definition isDigit (c : ascii) : bool :=
  (48 <=? nat_of_ascii c)%nat && (nat_of_ascii c <=? 57)%nat.

Definition digitValue (c : ascii) : Z := Z.of_nat (nat_of_ascii c) - 48.

Definition digitChar (v : Z) : ascii := ascii_of_nat (Z.to_nat (v + 48)).

(** Reads exactly [n] digits, most significant first, onto [acc]. *)
Fixpoint readDigits (n : nat) (acc : Z) (s : string) : option (Z * string) :=
  match n with
  | O => Some (acc, s)
  | S n' =>
      match s with
      | String c rest =>
          if isDigit c then readDigits n' (10 * acc + digitValue c) rest else None
      | EmptyString => None
      end
  end.

(** The [n] low decimal digits of [v], zero padded. *)
Fixpoint padDigits (n : nat) (v : Z) : string :=
  match n with
  | O => EmptyString
  | S n' => String (digitChar (v / 10 ^ Z.of_nat n' mod 10)) (padDigits n' v)
  end.

(** Reads up to [k] digits of a decimal fraction, scaled to [k] places. *)
Fixpoint readFraction (k : nat) (s : string) : Z * string :=
  match k with
  | O => (0, s)
  | S k' =>
      match s with
      | String c rest =>
          if isDigit c
          then let '(v, r) := readFraction k' rest in
               (digitValue c * 10 ^ Z.of_nat k' + v, r)
          else (0, s)
      | EmptyString => (0, s)
      end
  end.

(** A fraction of [k] places without its trailing zeros. *)
Fixpoint formatFraction (k : nat) (v : Z) : string :=
  match k with
  | O => EmptyString
  | S k' =>
      if v =? 0 then EmptyString
      else String (digitChar (v / 10 ^ Z.of_nat k'))
                  (formatFraction k' (v mod 10 ^ Z.of_nat k'))
  end.

(** The next character has to be [c]. *)
Definition expect (c : ascii) (s : string) : option string :=
  match s with
  | String c' rest => if Ascii.eqb c c' then Some rest else None
  | EmptyString => None
  end.

Definition startsWithDigit (s : string) : bool :=
  match s with
  | String c _ => isDigit c
  | EmptyString => false
  end.

(** The decimal digits of a natural number, without padding. *)
Fixpoint decimalDigits (fuel : nat) (v : Z) (acc : string) : string :=
  match fuel with
  | O => acc
  | S fuel' =>
      let acc' := String (digitChar (v mod 10)) acc in
      if v / 10 =? 0 then acc' else decimalDigits fuel' (v / 10) acc'
  end.

(** [String(n)] for an integer [n]. *)
Definition ofZ (n : Z) : string :=
  let digits := decimalDigits (S (Z.to_nat (Z.log2 (Z.abs n)))) (Z.abs n) EmptyString in
  if n <? 0 then String "-" digits else digits.

(** The value of the leading run of digits, or [None] when there is none. *)
Fixpoint leadingDigits (s : string) (acc : option Z) : option Z :=
  match s with
  | String c rest =>
      if isDigit c
      then leadingDigits rest
             (Some (10 * match acc with Some a => a | None => 0 end + digitValue c))
      else acc
  | EmptyString => acc
  end.

End Text.

(** ** The ISO calendar and the Temporal value types

    The Temporal library is a dependency of the repository, not part of its
    sources.  This module writes out its documented behaviour on the ISO
    calendar for the operations the repository calls: the value types, day
    arithmetic, comparison, zones, ISO 8601 text and [Duration.total]. *)
Module Temporal.

(** [Temporal.PlainDate]: the ISO fields. *)
Record PlainDate : Type := mkPlainDate { year : Z; month : Z; day : Z }.

Definition isLeapYear (y : Z) : bool :=
  (y mod 4 =? 0) && (negb (y mod 100 =? 0) || (y mod 400 =? 0)).

Definition ISODaysInMonth (y m : Z) : Z :=
  if (m =? 2) then (if isLeapYear y then 29 else 28)
  else if (m =? 4) || (m =? 6) || (m =? 9) || (m =? 11) then 30
  else 31.

Definition isValidISODate (d : PlainDate) : bool :=
  (1 <=? month d) && (month d <=? 12) &&
  (1 <=? day d) && (day d <=? ISODaysInMonth (year d) (month d)).

(** Days since 1970-01-01 of a calendar date (proleptic Gregorian). *)
Definition isoDateToEpochDays (d : PlainDate) : Z :=
  let y := if month d <=? 2 then year d - 1 else year d in
  let era := y / 400 in
  let yoe := y mod 400 in
  let mp := if 2 <? month d then month d - 3 else month d + 9 in
  let doy := (153 * mp + 2) / 5 + day d - 1 in
  let doe := yoe * 365 + yoe / 4 - yoe / 100 + doy in
  era * 146097 + doe - 719468.

(** The calendar date of a day number. *)
Definition epochDaysToIsoDate (z : Z) : PlainDate :=
  let z' := z + 719468 in
  let era := z' / 146097 in
  let doe := z' mod 146097 in
  let yoe := (doe - doe / 1460 + doe / 36524 - doe / 146096) / 365 in
  let doy := doe - (365 * yoe + yoe / 4 - yoe / 100) in
  let mp := (5 * doy + 2) / 153 in
  let d := doy - (153 * mp + 2) / 5 + 1 in
  let m := if mp <? 10 then mp + 3 else mp - 9 in
  let y := yoe + era * 400 in
  mkPlainDate (if m <=? 2 then y + 1 else y) m d.

(** [date.dayOfWeek]: Monday is 1, Sunday is 7. *)
Definition dayOfWeek (d : PlainDate) : Z := (isoDateToEpochDays d + 3) mod 7 + 1.

(** The day arithmetic of [date.add({ days: n })], on the unbounded
    proleptic Gregorian calendar: the date [n] days on.  The library checks
    the result against its range of dates; [PlainDate_add] below is the
    operation with that check. *)
Definition addDays (d : PlainDate) (n : Z) : PlainDate :=
  epochDaysToIsoDate (isoDateToEpochDays d + n).

(** The day arithmetic of [date.subtract({ days: n })], on the unbounded
    calendar like [addDays]; with the range check it is [PlainDate_add] of
    [- n]. *)
Definition subtractDays (d : PlainDate) (n : Z) : PlainDate := addDays d (- n).

(** [Temporal.PlainDate.compare]: -1, 0 or 1, by year, then month, then day. *)
Definition comparePlainDate (a b : PlainDate) : Z :=
  if year a <? year b then -1 else if year b <? year a then 1
  else if month a <? month b then -1 else if month b <? month a then 1
  else if day a <? day b then -1 else if day b <? day a then 1
  else 0.

(** [date.equals(other)]. *)
Definition equalsPlainDate (a b : PlainDate) : bool :=
  (year a =? year b) && (month a =? month b) && (day a =? day b).

(** The library's range of dates: -271821-04-19 to +275760-09-13. *)
Definition isoDateWithinLimits (d : PlainDate) : bool :=
  (-100000001 <=? isoDateToEpochDays d) && (isoDateToEpochDays d <=? 100000000).

(** [date.add({ days: n })] as the library runs it: the date [n] days on, and
    a RangeError when that date lies outside the library's range. *)
Definition PlainDate_add (d : PlainDate) (n : Z) : JS.Result PlainDate :=
  let r := addDays d n in
  if isoDateWithinLimits r then JS.Ok r else JS.Throw JS.RangeError.

(** [Temporal.PlainTime]: a wall-clock time; [subsecond] is in nanoseconds. *)
Record PlainTime : Type :=
  mkPlainTime { hour : Z; minute : Z; second : Z; subsecond : Z }.

Definition isValidTime (t : PlainTime) : bool :=
  (0 <=? hour t) && (hour t <=? 23) && (0 <=? minute t) && (minute t <=? 59) &&
  (0 <=? second t) && (second t <=? 59) &&
  (0 <=? subsecond t) && (subsecond t <? 1000000000).

(** [Temporal.PlainDateTime]. *)
Record PlainDateTime : Type := mkPlainDateTime { date : PlainDate; time : PlainTime }.

(** [Temporal.Instant]: nanoseconds since the epoch. *)
Record Instant : Type := mkInstant { epochNanoseconds : Z }.

Definition nsPerSecond : Z := 1000000000.
Definition nsPerDay : Z := 86400 * nsPerSecond.
Definition nsMaxInstant : Z := 100000000 * nsPerDay.

Definition isValidEpochNanoseconds (ns : Z) : bool :=
  (- nsMaxInstant <=? ns) && (ns <=? nsMaxInstant).

(** [instant.epochMilliseconds]: the epoch offset in whole milliseconds,
    rounded down. *)
Definition epochMilliseconds (i : Instant) : Z := epochNanoseconds i / 1000000.

(** [Temporal.Instant.fromEpochMilliseconds], also [toTemporalInstant]. *)
Definition fromEpochMilliseconds (ms : Z) : Instant := mkInstant (ms * 1000000).

(** [Temporal.Instant.compare]. *)
Definition compareInstant (a b : Instant) : Z :=
  if epochNanoseconds a <? epochNanoseconds b then -1
  else if epochNanoseconds b <? epochNanoseconds a then 1
  else 0.

Definition equalsInstant (a b : Instant) : bool :=
  epochNanoseconds a =? epochNanoseconds b.

(** Nanoseconds since local midnight. *)
Definition timeToNanoseconds (t : PlainTime) : Z :=
  ((hour t * 60 + minute t) * 60 + second t) * nsPerSecond + subsecond t.

Definition nanosecondsToTime (ns : Z) : PlainTime :=
  let secs := ns / nsPerSecond in
  mkPlainTime (secs / 3600) (secs / 60 mod 60) (secs mod 60) (ns mod nsPerSecond).

(** A date-time as nanoseconds since 1970-01-01T00:00 on its own clock. *)
Definition dateTimeToNanoseconds (dt : PlainDateTime) : Z :=
  isoDateToEpochDays (date dt) * nsPerDay + timeToNanoseconds (time dt).

Definition nanosecondsToDateTime (ns : Z) : PlainDateTime :=
  mkPlainDateTime (epochDaysToIsoDate (ns / nsPerDay))
                  (nanosecondsToTime (ns mod nsPerDay)).

(** The library's range of date-times: from one nanosecond after
    -271821-04-19T00:00 to the last nanosecond of +275760-09-13.  Midnight of
    the first date of the range is a date but not a date-time. *)
Definition isoDateTimeWithinLimits (dt : PlainDateTime) : bool :=
  (- nsMaxInstant - nsPerDay <? dateTimeToNanoseconds dt)
  && (dateTimeToNanoseconds dt <? nsMaxInstant + nsPerDay).

(** The rules of one time zone: the offset in force at an instant, and the
    instant a wall-clock reading denotes (with the library's default
    disambiguation). *)
Record ZoneRules : Type := mkZoneRules {
  offsetNanosecondsFor : Z -> Z;
  epochNanosecondsFor : Z -> Z
}.

Definition utcRules : ZoneRules := mkZoneRules (fun _ => 0) (fun localNs => localNs).

(** The time-zone database of the host; [None] for an identifier it does not
    know.  [UTC] is always known. *)
Definition TimeZoneDatabase : Type := string -> option ZoneRules.

Definition resolveTimeZone (db : TimeZoneDatabase) (timeZone : string)
  : JS.Result ZoneRules :=
  if String.eqb timeZone "UTC" then JS.Ok utcRules
  else match db timeZone with
       | Some rules => JS.Ok rules
       | None => JS.Throw JS.RangeError
       end.

(** [Temporal.ZonedDateTime]: an instant and the zone it is read in.  The
    offset is not stored: the zone's rules give it at that instant. *)
Record ZonedDateTime : Type := mkZonedDateTime {
  zonedInstant : Instant;
  timeZoneId : string;
  zoneRules : ZoneRules
}.

Definition zonedOffset (z : ZonedDateTime) : Z :=
  offsetNanosecondsFor (zoneRules z) (epochNanoseconds (zonedInstant z)).

(** [instant.toZonedDateTimeISO(timeZone)]. *)
Definition toZonedDateTimeISO (db : TimeZoneDatabase) (i : Instant) (timeZone : string)
  : JS.Result ZonedDateTime :=
  rules <- resolveTimeZone db timeZone ;;
  JS.Ok (mkZonedDateTime i timeZone rules).

(** [zdt.toPlainDateTime()], [zdt.toPlainDate()], [zdt.toPlainTime()]. *)
Definition zonedToPlainDateTime (z : ZonedDateTime) : PlainDateTime :=
  nanosecondsToDateTime (epochNanoseconds (zonedInstant z) + zonedOffset z).

Definition zonedToPlainDate (z : ZonedDateTime) : PlainDate := date (zonedToPlainDateTime z).

Definition zonedToPlainTime (z : ZonedDateTime) : PlainTime := time (zonedToPlainDateTime z).

(** [plainDateTime.toZonedDateTime(timeZone)]. *)
Definition dateTimeToZoned (db : TimeZoneDatabase) (dt : PlainDateTime) (timeZone : string)
  : JS.Result ZonedDateTime :=
  rules <- resolveTimeZone db timeZone ;;
  JS.Ok (mkZonedDateTime
           (mkInstant (epochNanosecondsFor rules (dateTimeToNanoseconds dt)))
           timeZone rules).

Definition midnight : PlainTime := mkPlainTime 0 0 0 0.

(** [plainDate.toZonedDateTime({ timeZone })]: the start of the day. *)
Definition dateToZoned (db : TimeZoneDatabase) (d : PlainDate) (timeZone : string)
  : JS.Result ZonedDateTime :=
  dateTimeToZoned db (mkPlainDateTime d midnight) timeZone.

(** *** ISO 8601 text *)

(** A year: four digits, or a sign and six digits outside 0..9999. *)
Definition formatYear (y : Z) : string :=
  if (0 <=? y) && (y <=? 9999) then Text.padDigits 4 y
  else String (if y <? 0 then "-"%char else "+"%char) (Text.padDigits 6 (Z.abs y)).

Definition parseYear (s : string) : option (Z * string) :=
  match s with
  | String c rest =>
      if Ascii.eqb c "+" then Text.readDigits 6 0 rest
      else if Ascii.eqb c "-" then
        '(y, rest') <-? Text.readDigits 6 0 rest ;;
        if y =? 0 then None else Some (- y, rest')
      else Text.readDigits 4 0 s
  | EmptyString => None
  end.

(** [YYYY-MM-DD]. *)
Definition formatDateFields (d : PlainDate) : string :=
  (formatYear (year d) ++ "-" ++ Text.padDigits 2 (month d) ++ "-"
   ++ Text.padDigits 2 (day d))%string.

Definition parseDateFields (s : string) : option (PlainDate * string) :=
  '(y, s1) <-? parseYear s ;;
  s2 <-? Text.expect "-" s1 ;;
  '(m, s3) <-? Text.readDigits 2 0 s2 ;;
  s4 <-? Text.expect "-" s3 ;;
  '(d, s5) <-? Text.readDigits 2 0 s4 ;;
  let r := mkPlainDate y m d in
  if isValidISODate r then Some (r, s5) else None.

(** The seconds of a time, after [HH:MM]: [:SS] and an optional fraction of
    one to nine digits.  A leap second reads as second 59. *)
Definition parseSeconds (s : string) : option (Z * Z * string) :=
  match s with
  | String ":"%char s1 =>
      '(sec, s2) <-? Text.readDigits 2 0 s1 ;;
      if 60 <? sec then None else
      let sec' := if sec =? 60 then 59 else sec in
      match s2 with
      | String "."%char s3 =>
          if Text.startsWithDigit s3
          then let '(f, s4) := Text.readFraction 9 s3 in Some (sec', f, s4)
          else None
      | _ => Some (sec', 0, s2)
      end
  | _ => Some (0, 0, s)
  end.

(** [HH:MM], [HH:MM:SS] or [HH:MM:SS.fraction]. *)
Definition parseTimeFields (s : string) : option (PlainTime * string) :=
  '(h, s1) <-? Text.readDigits 2 0 s ;;
  s2 <-? Text.expect ":" s1 ;;
  '(m, s3) <-? Text.readDigits 2 0 s2 ;;
  '(sec, f, s4) <-? parseSeconds s3 ;;
  if (h <=? 23) && (m <=? 59) then Some (mkPlainTime h m sec f, s4) else None.

(** [HH:MM]: a time to the minute. *)
Definition formatTimeToMinute (t : PlainTime) : string :=
  (Text.padDigits 2 (hour t) ++ ":" ++ Text.padDigits 2 (minute t))%string.

(** [HH:MM:SS] and the fraction when it is not zero. *)
Definition formatTimeFull (t : PlainTime) : string :=
  (formatTimeToMinute t ++ ":" ++ Text.padDigits 2 (second t)
   ++ (if (subsecond t =? 0)%Z then EmptyString
       else String "."%char (Text.formatFraction 9 (subsecond t))))%string.

(** A UTC offset: [Z] or a sign, [HH:MM]; in nanoseconds. *)
Definition parseOffset (s : string) : option (Z * string) :=
  match s with
  | String "Z"%char rest => Some (0, rest)
  | String c rest =>
      if Ascii.eqb c "+" || Ascii.eqb c "-" then
        '(h, s1) <-? Text.readDigits 2 0 rest ;;
        s2 <-? Text.expect ":" s1 ;;
        '(m, s3) <-? Text.readDigits 2 0 s2 ;;
        if (h <=? 23) && (m <=? 59)
        then Some ((if Ascii.eqb c "-" then -1 else 1) * ((h * 60 + m) * 60 * nsPerSecond), s3)
        else None
      else None
  | EmptyString => None
  end.

(** [Temporal.PlainDate.from(string)]: the date of a date string, or of a
    date-time string, whose time is read and dropped.  The text read here is
    the extended ISO 8601 spelling ([YYYY-MM-DD], a signed six-digit year, a
    time [HH:MM[:SS[.fraction]]] after [T]); the library reads further
    spellings of the same values (the basic format without separators, an
    offset or annotations after the time), which are not part of this model:
    it answers them with the RangeError of a malformed string. *)
Definition PlainDate_from (s : string) : JS.Result PlainDate :=
  match parseDateFields s with
  | Some (d, rest) =>
      if isoDateWithinLimits d then
        match rest with
        | EmptyString => JS.Ok d
        | String "T"%char rest' =>
            match parseTimeFields rest' with
            | Some (_, EmptyString) => JS.Ok d
            | _ => JS.Throw JS.RangeError
            end
        | _ => JS.Throw JS.RangeError
        end
      else JS.Throw JS.RangeError
  | None => JS.Throw JS.RangeError
  end.

(** [plainDate.toString()]. *)
Definition PlainDate_toString (d : PlainDate) : string := formatDateFields d.

(** [Temporal.PlainTime.from(string)]. *)
Definition PlainTime_from (s : string) : JS.Result PlainTime :=
  match parseTimeFields s with
  | Some (t, EmptyString) => JS.Ok t
  | _ => JS.Throw JS.RangeError
  end.

(** [plainTime.toString({ smallestUnit: "minute" })]. *)
Definition PlainTime_toString_minute (t : PlainTime) : string := formatTimeToMinute t.

(** The range check of a date-time the library builds. *)
Definition rejectDateTimeRange (dt : PlainDateTime) : JS.Result PlainDateTime :=
  if isoDateTimeWithinLimits dt then JS.Ok dt else JS.Throw JS.RangeError.

(** [Temporal.PlainDateTime.from(string)]: a date, and a time after [T]
    (midnight when there is none); the date-time has to lie in the library's
    range of date-times, which leaves out midnight of its first date. *)
Definition PlainDateTime_from (s : string) : JS.Result PlainDateTime :=
  match parseDateFields s with
  | Some (d, rest) =>
      if isoDateWithinLimits d then
        match rest with
        | EmptyString => rejectDateTimeRange (mkPlainDateTime d midnight)
        | String "T"%char rest' =>
            match parseTimeFields rest' with
            | Some (t, EmptyString) => rejectDateTimeRange (mkPlainDateTime d t)
            | _ => JS.Throw JS.RangeError
            end
        | _ => JS.Throw JS.RangeError
        end
      else JS.Throw JS.RangeError
  | None => JS.Throw JS.RangeError
  end.

(** [plainDateTime.toString({ smallestUnit: "minute" })]. *)
Definition PlainDateTime_toString_minute (dt : PlainDateTime) : string :=
  (formatDateFields (date dt) ++ "T" ++ formatTimeToMinute (time dt))%string.

(** [Temporal.Instant.from(string)]: a date, [T], a time and a UTC offset. *)
Definition Instant_from (s : string) : JS.Result Instant :=
  match parseDateFields s with
  | Some (d, String "T"%char s1) =>
      match parseTimeFields s1 with
      | Some (t, s2) =>
          match parseOffset s2 with
          | Some (offset, EmptyString) =>
              let ns := dateTimeToNanoseconds (mkPlainDateTime d t) - offset in
              if isValidEpochNanoseconds ns then JS.Ok (mkInstant ns)
              else JS.Throw JS.RangeError
          | _ => JS.Throw JS.RangeError
          end
      | None => JS.Throw JS.RangeError
      end
  | _ => JS.Throw JS.RangeError
  end.

(** [instant.toString()]: the UTC reading, seconds and fraction, then [Z]. *)
Definition Instant_toString (i : Instant) : string :=
  let dt := nanosecondsToDateTime (epochNanoseconds i) in
  (formatDateFields (date dt) ++ "T" ++ formatTimeFull (time dt) ++ "Z")%string.

(** The zone annotation [[id]] that ends a zoned date-time. *)
Fixpoint parseZoneAnnotation (s : string) : option string :=
  match s with
  | String "]"%char EmptyString => Some EmptyString
  | String c rest =>
      if Ascii.eqb c "]" || Ascii.eqb c "[" then None
      else id <-? parseZoneAnnotation rest ;; Some (String c id)
  | EmptyString => None
  end.

(** The range check of the instant of a zoned date-time the library builds. *)
Definition rejectInstantRange (z : ZonedDateTime) : JS.Result ZonedDateTime :=
  if isValidEpochNanoseconds (epochNanoseconds (zonedInstant z))
  then JS.Ok z else JS.Throw JS.RangeError.

(** [Temporal.ZonedDateTime.from(string)]: a date-time, an optional offset,
    and the zone in brackets.  Without an offset the date-time is a
    wall-clock reading in the zone; with [Z] it is the UTC reading of the
    instant, whatever the zone's offset; a numeric offset has to agree with
    the zone. *)
Definition ZonedDateTime_from (db : TimeZoneDatabase) (s : string)
  : JS.Result ZonedDateTime :=
  match parseDateFields s with
  | Some (d, String "T"%char s1) =>
      match parseTimeFields s1 with
      | Some (t, String "["%char s2) =>
          match parseZoneAnnotation s2 with
          | Some EmptyString | None => JS.Throw JS.RangeError
          | Some id =>
              z <- dateTimeToZoned db (mkPlainDateTime d t) id ;;
              rejectInstantRange z
          end
      | Some (t, String "Z"%char (String "["%char s3)) =>
          match parseZoneAnnotation s3 with
          | Some EmptyString | None => JS.Throw JS.RangeError
          | Some id =>
              rules <- resolveTimeZone db id ;;
              let ns := dateTimeToNanoseconds (mkPlainDateTime d t) in
              rejectInstantRange (mkZonedDateTime (mkInstant ns) id rules)
          end
      | Some (t, s2) =>
          match parseOffset s2 with
          | Some (offset, String "["%char s3) =>
              match parseZoneAnnotation s3 with
              | Some EmptyString | None => JS.Throw JS.RangeError
              | Some id =>
                  rules <- resolveTimeZone db id ;;
                  let ns := dateTimeToNanoseconds (mkPlainDateTime d t) - offset in
                  if offsetNanosecondsFor rules ns =? offset
                  then rejectInstantRange (mkZonedDateTime (mkInstant ns) id rules)
                  else JS.Throw JS.RangeError
              end
          | _ => JS.Throw JS.RangeError
          end
      | None => JS.Throw JS.RangeError
      end
  | _ => JS.Throw JS.RangeError
  end.

(** *** Durations *)

(** The unit names the library passes to [Duration.total] and to
    [Intl.RelativeTimeFormat.format]. *)
Inductive Unit : Type := years | months | weeks | days | hours | minutes | seconds.

(** [Temporal.Duration]. *)
Record Duration : Type := mkDuration {
  durationYears : Z; durationMonths : Z; durationWeeks : Z; durationDays : Z;
  durationHours : Z; durationMinutes : Z; durationSeconds : Z;
  durationMilliseconds : Z; durationMicroseconds : Z; durationNanoseconds : Z
}.

(** [instant.since(other)]: the elapsed time from [other] to [instant], in
    seconds and smaller units (the default largest unit), all of one sign. *)
Definition since (i other : Instant) : Duration :=
  let diff := epochNanoseconds i - epochNanoseconds other in
  let r := Z.rem diff nsPerSecond in
  mkDuration 0 0 0 0 0 0 (Z.quot diff nsPerSecond)
             (Z.quot r 1000000) (Z.quot (Z.rem r 1000000) 1000)
             (Z.rem (Z.rem r 1000000) 1000).

(** The clock part of a duration, in nanoseconds. *)
Definition timeDurationNanoseconds (d : Duration) : Z :=
  ((durationHours d * 60 + durationMinutes d) * 60 + durationSeconds d) * nsPerSecond
  + durationMilliseconds d * 1000000 + durationMicroseconds d * 1000
  + durationNanoseconds d.

Definition balanceISOYearMonth (y m : Z) : Z * Z := (y + (m - 1) / 12, (m - 1) mod 12 + 1).

(** Calendar addition of years and months; the day is clipped to the month. *)
Definition addYearsMonths (d : PlainDate) (ys ms : Z) : PlainDate :=
  let '(y, m) := balanceISOYearMonth (year d + ys) (month d + ms) in
  mkPlainDate y m (Z.min (day d) (ISODaysInMonth y m)).

(** The wall-clock reading of an instant under a zone's rules. *)
Definition localDateTime (rules : ZoneRules) (ns : Z) : PlainDateTime :=
  nanosecondsToDateTime (ns + offsetNanosecondsFor rules ns).

(** Adding a duration to an instant read in a zone: the calendar part on the
    wall clock, the clock part on the time line. *)
Definition addDurationZoned (rules : ZoneRules) (ns : Z) (d : Duration) : Z :=
  let dated :=
    negb ((durationYears d =? 0) && (durationMonths d =? 0) &&
          (durationWeeks d =? 0) && (durationDays d =? 0)) in
  let base :=
    if dated then
      let local := localDateTime rules ns in
      let date' := addDays (addYearsMonths (date local) (durationYears d) (durationMonths d))
                           (7 * durationWeeks d + durationDays d) in
      epochNanosecondsFor rules (dateTimeToNanoseconds (mkPlainDateTime date' (time local)))
    else ns in
  base + timeDurationNanoseconds d.

(** The instant [k] calendar units after the wall-clock reading [local]. *)
Definition shiftByUnit (rules : ZoneRules) (local : PlainDateTime) (u : Unit) (k : Z) : Z :=
  let date' :=
    match u with
    | years => addYearsMonths (date local) k 0
    | months => addYearsMonths (date local) 0 k
    | weeks => addDays (date local) (7 * k)
    | days => addDays (date local) k
    | _ => date local
    end in
  epochNanosecondsFor rules (dateTimeToNanoseconds (mkPlainDateTime date' (time local))).

(** The difference of two dates in whole units, before the time of day is
    taken into account. *)
Definition unitsBetweenDates (u : Unit) (a b : PlainDate) : Z :=
  match u with
  | years => year b - year a
  | months => 12 * (year b - year a) + (month b - month a)
  | weeks => Z.quot (isoDateToEpochDays b - isoDateToEpochDays a) 7
  | _ => isoDateToEpochDays b - isoDateToEpochDays a
  end.

(** A model of [duration.total({ unit, relativeTo })] for a zoned
    [relativeTo]: the duration is added to [relativeTo]; a clock unit divides
    the elapsed nanoseconds; a calendar unit counts the whole units that fit
    between the two wall-clock readings and adds the fraction of the next
    one.  Truncated toward zero it is what the library returns for the clock
    units, and for the calendar units of a duration of less than 28 days;
    for longer durations the library counts months and years by its own date
    arithmetic and rounds in floating point, and it throws a RangeError when
    that arithmetic leaves its range.  What is proved of
    [formatRelativeInstant] for every instant therefore takes
    [duration.total] as an argument ([formatRelativeInstantWith] below). *)
Definition total (d : Duration) (u : Unit) (relativeTo : ZonedDateTime) : Q :=
  let rules := zoneRules relativeTo in
  let origin := epochNanoseconds (zonedInstant relativeTo) in
  let target := addDurationZoned rules origin d in
  let diff := target - origin in
  match u with
  | hours => Qmake diff (Z.to_pos (3600 * nsPerSecond))
  | minutes => Qmake diff (Z.to_pos (60 * nsPerSecond))
  | seconds => Qmake diff (Z.to_pos nsPerSecond)
  | _ =>
      if diff =? 0 then 0%Q else
      let sign := Z.sgn diff in
      let local := localDateTime rules origin in
      let k0 := unitsBetweenDates u (date local) (date (localDateTime rules target)) in
      let whole :=
        if 0 <=? sign * (target - shiftByUnit rules local u k0) then k0 else k0 - sign in
      let start := shiftByUnit rules local u whole in
      let stop := shiftByUnit rules local u (whole + sign) in
      (inject_Z whole
       + inject_Z sign * Qmake (Z.abs (target - start)) (Z.to_pos (Z.abs (stop - start))))%Q
  end.

End Temporal.

(** ** Intl: relative-time and date formatting of the host

    Only the types: what a formatter prints depends on the host and its
    locale, so the formatters themselves are fields of [Host]. *)
Module Intl.

(** The [numeric] option of [Intl.RelativeTimeFormat]. *)
Inductive Numeric : Type := always | auto.

(** [rtf.format(value, unit)]. *)
Definition RelativeTimeFormat : Type := Z -> Temporal.Unit -> string.

(** The [month] option of [Intl.DateTimeFormat]. *)
Inductive MonthFormat : Type := short | long.

(** The [year] and [day] options, when given, are ["numeric"]. *)
Inductive Numbered : Type := numeric.

(** The options the range formatter builds. *)
Record DateTimeFormatOptions : Type := mkDateTimeFormatOptions {
  month : option MonthFormat;
  day : option Numbered;
  year : option Numbered
}.

Inductive PartType : Type := dayPart | monthPart | yearPart | literalPart.

(** One element of [formatter.formatToParts(date)]. *)
Record DateTimeFormatPart : Type := mkPart { type : PartType; value : string }.

(** [formatter.formatToParts]. *)
Definition DateTimeFormat : Type := JS.Date -> list DateTimeFormatPart.




End Intl.

(** ** The host: clock, time zones and Intl *)

(** [clock t] is the [t]-th reading of [Temporal.Now.instant()]; a test that
    mocks the clock makes it constant.  The two Intl constructors are absent
    on hosts that do not provide them; each takes the locale ([None] for the
    host's own) and its options. *)
Record Host : Type := mkHost {
  clock : nat -> Temporal.Instant;
  timeZones : Temporal.TimeZoneDatabase;
  Intl_RelativeTimeFormat : option (option string -> Intl.Numeric -> Intl.RelativeTimeFormat);
  Intl_DateTimeFormat :
    option (option string -> Intl.DateTimeFormatOptions -> Intl.DateTimeFormat)
}.

(** ** timezone *)

(** Modelled from the spec: the timezone module (the enumeration of zone name
    constants) is not among the sources; [TZ_UTC] is its constant for UTC. *)
Definition TZ_UTC : string := "UTC".

(** ** now *)

(** [now()], at the [t]-th reading of the clock. *)
Definition now (h : Host) (t : nat) : Temporal.Instant := clock h t.

(** [nowLocal(timezone)]. *)
Definition nowLocal (h : Host) (t : nat) (timezone : string)
  : JS.Result Temporal.ZonedDateTime :=
  Temporal.toZonedDateTimeISO (timeZones h) (now h t) timezone.

(** [todayLocal(timezone)]. *)
Definition todayLocal (h : Host) (t : nat) (timezone : string)
  : JS.Result Temporal.PlainDate :=
  JS.map Temporal.zonedToPlainDate (nowLocal h t timezone).

(** ** parsing *)

Definition parsePlainDate (iso8601DateStr : string) : JS.Result Temporal.PlainDate :=
  Temporal.PlainDate_from iso8601DateStr.

Definition parsePlainDateTime (iso8601DateTimeStr : string)
  : JS.Result Temporal.PlainDateTime :=
  Temporal.PlainDateTime_from iso8601DateTimeStr.

Definition parseZonedDateTime (h : Host) (iso8601DateTimeStr : string)
  : JS.Result Temporal.ZonedDateTime :=
  Temporal.ZonedDateTime_from (timeZones h) iso8601DateTimeStr.

Definition parseInstant (iso8601DateTimeStr : string) : JS.Result Temporal.Instant :=
  Temporal.Instant_from iso8601DateTimeStr.

Definition parsePlainTime (timeStr : string) : JS.Result Temporal.PlainTime :=
  Temporal.PlainTime_from timeStr.

Definition parseInstantFromEpochMilliseconds (epochMilliseconds : Z) : Temporal.Instant :=
  Temporal.fromEpochMilliseconds epochMilliseconds.

(** The body shared by the optional parsers:
    [if (!str) return undefined; return parse(str);]. *)
Definition parseOptional {A : Type} (parse : string -> JS.Result A)
    (str : JS.Nullable string) : JS.Result (option A) :=
  if JS.notString str then JS.Ok None
  else match str with
       | JS.Val s => JS.map Some (parse s)
       | _ => JS.Ok None
       end.

Definition parseOptionalPlainDate (iso8601DateStr : JS.Nullable string)
  : JS.Result (option Temporal.PlainDate) :=
  parseOptional parsePlainDate iso8601DateStr.

Definition parseOptionalPlainDateTime (iso8601DateTimeStr : JS.Nullable string)
  : JS.Result (option Temporal.PlainDateTime) :=
  parseOptional parsePlainDateTime iso8601DateTimeStr.

Definition parseOptionalZonedDateTime (h : Host) (iso8601DateStr : JS.Nullable string)
  : JS.Result (option Temporal.ZonedDateTime) :=
  parseOptional (parseZonedDateTime h) iso8601DateStr.

Definition parseOptionalInstant (iso8601DateStr : JS.Nullable string)
  : JS.Result (option Temporal.Instant) :=
  parseOptional parseInstant iso8601DateStr.

Definition parseOptionalPlainTime (timeStr : JS.Nullable string)
  : JS.Result (option Temporal.PlainTime) :=
  parseOptional parsePlainTime timeStr.

(** ** conversion *)

(** [dt.epochMilliseconds] for [dt : Temporal.ZonedDateTime | Temporal.Instant]. *)
Definition epochMillisecondsOf (dt : Temporal.ZonedDateTime + Temporal.Instant) : Z :=
  match dt with
  | inl zoned => Temporal.epochMilliseconds (Temporal.zonedInstant zoned)
  | inr instant => Temporal.epochMilliseconds instant
  end.

(** [toJSDateUTC(dt)]: [new Date(dt.epochMilliseconds)]. *)
Definition toJSDateUTC (dt : Temporal.ZonedDateTime + Temporal.Instant) : JS.Date :=
  JS.mkDate (epochMillisecondsOf dt).

(** [toInstant(date)]: [toTemporalInstant.call(date)]. *)
Definition toInstant (date : JS.Date) : Temporal.Instant :=
  Temporal.fromEpochMilliseconds (JS.getTime date).

(** [plainDateToJSDate(date, timezone)]. *)
Definition plainDateToJSDate (h : Host) (date : Temporal.PlainDate) (timezone : string)
  : JS.Result JS.Date :=
  zoned <- Temporal.dateToZoned (timeZones h) date timezone ;;
  JS.Ok (toJSDateUTC (inl zoned)).

(** [plainDateTimeToJSDate(date, timezone)]: the zone passed to
    [toZonedDateTime] is the literal ["UTC"]; [timezone] is not read. *)
Definition plainDateTimeToJSDate (h : Host) (date : Temporal.PlainDateTime)
    (timezone : string) : JS.Result JS.Date :=
  zoned <- Temporal.dateTimeToZoned (timeZones h) date "UTC" ;;
  JS.Ok (toJSDateUTC (inl zoned)).

(** ** comparison *)

(** [isToday(date, timezone)]. *)
Definition isToday (h : Host) (t : nat) (date : Temporal.PlainDate) (timezone : string)
  : JS.Result bool :=
  today <- todayLocal h t timezone ;;
  JS.Ok (Temporal.comparePlainDate date today =? 0).

(** [isTomorrow(date, timezone)]. *)
Definition isTomorrow (h : Host) (t : nat) (date : Temporal.PlainDate) (timezone : string)
  : JS.Result bool :=
  isToday h t (Temporal.subtractDays date 1) timezone.

(** [isYesterday(date, timezone)]. *)
Definition isYesterday (h : Host) (t : nat) (date : Temporal.PlainDate) (timezone : string)
  : JS.Result bool :=
  isToday h t (Temporal.addDays date 1) timezone.

(** [isDateEqual], [isDateAfter], [isDateBefore]. *)
Definition isDateEqual (date comparedWith : Temporal.PlainDate) : bool :=
  Temporal.equalsPlainDate date comparedWith.

Definition isDateAfter (date comparedWith : Temporal.PlainDate) : bool :=
  Temporal.comparePlainDate date comparedWith =? 1.

Definition isDateBefore (date comparedWith : Temporal.PlainDate) : bool :=
  Temporal.comparePlainDate date comparedWith =? -1.

(** [x == null]: true for [null] and for [undefined]. *)
Definition looselyNull {A : Type} (x : JS.Nullable A) : bool :=
  match x with
  | JS.Val _ => false
  | _ => true
  end.

(** [isOptionalDateEqual(date, comparedWith)]. *)
Definition isOptionalDateEqual (date comparedWith : JS.Nullable Temporal.PlainDate) : bool :=
  if looselyNull date && looselyNull comparedWith then true
  else if looselyNull date then false
  else if looselyNull comparedWith then false
  else match date, comparedWith with
       | JS.Val d, JS.Val c => isDateEqual d c
       | _, _ => false
       end.

(** [isInstantEqual], [isInstantAfter]. *)
Definition isInstantEqual (instant comparedWith : Temporal.Instant) : bool :=
  Temporal.equalsInstant instant comparedWith.

Definition isInstantAfter (instant comparedWith : Temporal.Instant) : bool :=
  Temporal.compareInstant instant comparedWith =? 1.

(** [isOptionalInstantEqual(instant, comparedWith)]. *)
Definition isOptionalInstantEqual (instant comparedWith : JS.Nullable Temporal.Instant)
  : bool :=
  if looselyNull instant && looselyNull comparedWith then true
  else if looselyNull instant then false
  else if looselyNull comparedWith then false
  else match instant, comparedWith with
       | JS.Val i, JS.Val c => Temporal.equalsInstant i c
       | _, _ => false
       end.

(** [isInstantBefore(instant, comparedWith)]. *)
Definition isInstantBefore (instant comparedWith : Temporal.Instant) : bool :=
  Temporal.compareInstant instant comparedWith =? -1.

(** An interval [{ start, end }] of instants. *)
Record Interval : Type := mkInterval { start : Temporal.Instant; end_ : Temporal.Instant }.

(** [areIntervalsOverlapping(interval1, interval2)]. *)
Definition areIntervalsOverlapping (interval1 interval2 : Interval) : bool :=
  isInstantBefore (start interval1) (end_ interval2) &&
  isInstantBefore (start interval2) (end_ interval1).

(** ** calculations *)

(** [startOfWeek(date)]: [date.subtract({ days: date.dayOfWeek - 1 })]. *)
Definition startOfWeek (date : Temporal.PlainDate) : Temporal.PlainDate :=
  Temporal.subtractDays date (Temporal.dayOfWeek date - 1).

(** [endOfWeek(date)]: [date.add({ days: 7 - date.dayOfWeek })]. *)
Definition endOfWeek (date : Temporal.PlainDate) : Temporal.PlainDate :=
  Temporal.addDays date (7 - Temporal.dayOfWeek date).

(** The default [isBusinessDay]: Monday to Friday. *)
Definition defaultIsBusinessDay (d : Temporal.PlainDate) : bool :=
  (Temporal.dayOfWeek d >=? 1) && (Temporal.dayOfWeek d <=? 5).

(** The inner loop of [addBusinessDays]:
    [while (!isBusinessDay(next)) next = next.add({ days: 1 })], on the
    unbounded calendar.  [None] when the fuel runs out before the loop
    exits. *)
Fixpoint skipNonBusinessDays (fuel : nat) (isBusinessDay : Temporal.PlainDate -> bool)
    (next : Temporal.PlainDate) : option Temporal.PlainDate :=
  match fuel with
  | O => None
  | S fuel' =>
      if negb (isBusinessDay next)
      then skipNonBusinessDays fuel' isBusinessDay (Temporal.addDays next 1)
      else Some next
  end.

(** The outer loop: [for (let i = 1; i <= n; i += 1) { ... }], from the
    state [(i, next)]. *)
Fixpoint addBusinessDaysFrom (fuel : nat) (isBusinessDay : Temporal.PlainDate -> bool)
    (n i : Z) (next : Temporal.PlainDate) : option Temporal.PlainDate :=
  match fuel with
  | O => None
  | S fuel' =>
      if i <=? n then
        match skipNonBusinessDays fuel' isBusinessDay (Temporal.addDays next 1) with
        | Some next' => addBusinessDaysFrom fuel' isBusinessDay n (i + 1) next'
        | None => None
        end
      else Some next
  end.

(** [addBusinessDays(date, n, isBusinessDay)] on the unbounded calendar: the
    date the loops reach when no step leaves the library's range of dates. *)
Definition addBusinessDays (fuel : nat) (date : Temporal.PlainDate) (n : Z)
    (isBusinessDay : Temporal.PlainDate -> bool) : option Temporal.PlainDate :=
  addBusinessDaysFrom fuel isBusinessDay n 1 date.

(** The same loops as the code runs them, every [next.add({ days: 1 })] with
    the library's range check.  A run has three outcomes: [Some (JS.Ok d)]
    when it returns [d], [Some (JS.Throw e)] when an [add] throws, and [None]
    when the fuel runs out first. *)
Fixpoint skipNonBusinessDaysInRange (fuel : nat)
    (isBusinessDay : Temporal.PlainDate -> bool) (next : Temporal.PlainDate)
  : option (JS.Result Temporal.PlainDate) :=
  match fuel with
  | O => None
  | S fuel' =>
      if negb (isBusinessDay next) then
        match Temporal.PlainDate_add next 1 with
        | JS.Ok next' => skipNonBusinessDaysInRange fuel' isBusinessDay next'
        | JS.Throw e => Some (JS.Throw e)
        end
      else Some (JS.Ok next)
  end.

Fixpoint addBusinessDaysFromInRange (fuel : nat)
    (isBusinessDay : Temporal.PlainDate -> bool) (n i : Z) (next : Temporal.PlainDate)
  : option (JS.Result Temporal.PlainDate) :=
  match fuel with
  | O => None
  | S fuel' =>
      if i <=? n then
        match Temporal.PlainDate_add next 1 with
        | JS.Ok next1 =>
            match skipNonBusinessDaysInRange fuel' isBusinessDay next1 with
            | Some (JS.Ok next') =>
                addBusinessDaysFromInRange fuel' isBusinessDay n (i + 1) next'
            | Some (JS.Throw e) => Some (JS.Throw e)
            | None => None
            end
        | JS.Throw e => Some (JS.Throw e)
        end
      else Some (JS.Ok next)
  end.

(** [addBusinessDays(date, n, isBusinessDay)], as the code runs it. *)
Definition addBusinessDaysInRange (fuel : nat) (date : Temporal.PlainDate) (n : Z)
    (isBusinessDay : Temporal.PlainDate -> bool) : option (JS.Result Temporal.PlainDate) :=
  addBusinessDaysFromInRange fuel isBusinessDay n 1 date.

(** The number of days among [date + 1 .. date + k] that [isBusinessDay] accepts. *)
Fixpoint countBusinessDays (isBusinessDay : Temporal.PlainDate -> bool)
    (date : Temporal.PlainDate) (k : nat) : Z :=
  match k with
  | O => 0
  | S k' =>
      countBusinessDays isBusinessDay date k'
      + (if isBusinessDay (Temporal.addDays date (Z.of_nat k)) then 1 else 0)
  end.

(** [date + k] is the [n]-th accepted day after [date]. *)
Definition isNthBusinessDayAfter (isBusinessDay : Temporal.PlainDate -> bool)
    (date : Temporal.PlainDate) (n : Z) (k : nat) : Prop :=
  (1 <= k)%nat /\
  isBusinessDay (Temporal.addDays date (Z.of_nat k)) = true /\
  countBusinessDays isBusinessDay date k = n.

(** The predicate accepts a day in every run of seven consecutive days. *)
Definition acceptsOneDayInSeven (isBusinessDay : Temporal.PlainDate -> bool) : Prop :=
  forall d : Temporal.PlainDate,
    exists j : Z, 0 <= j < 7 /\ isBusinessDay (Temporal.addDays d j) = true.

(** ** formatting *)

(** [formatPlainDateTime(date)]: [date.toString({ smallestUnit: "minute" })]. *)
Definition formatPlainDateTime (date : Temporal.PlainDateTime) : string :=
  Temporal.PlainDateTime_toString_minute date.

(** [formatPlainDate(date)]: [date.toString()]. *)
Definition formatPlainDate (date : Temporal.PlainDate) : string :=
  Temporal.PlainDate_toString date.

(** [formatPlainTime(date)]: [date.toString({ smallestUnit: "minute" })]. *)
Definition formatPlainTime (date : Temporal.PlainTime) : string :=
  Temporal.PlainTime_toString_minute date.

(** [formatInstant(instant)]: [instant.toString()]. *)
Definition formatInstant (instant : Temporal.Instant) : string :=
  Temporal.Instant_toString instant.

(** The module constants [rtf] and [rtfNumeric]: the formatter when the host
    has [Intl.RelativeTimeFormat], [null] otherwise. *)
Definition rtf (h : Host) : option Intl.RelativeTimeFormat :=
  option_map (fun make => make None Intl.always) (Intl_RelativeTimeFormat h).

Definition rtfNumeric (h : Host) : option Intl.RelativeTimeFormat :=
  option_map (fun make => make None Intl.auto) (Intl_RelativeTimeFormat h).

(** The [units] array of [formatRelativeInstant]. *)
Definition units : list Temporal.Unit :=
  [Temporal.years; Temporal.months; Temporal.weeks; Temporal.days;
   Temporal.hours; Temporal.minutes; Temporal.seconds].

(** The loop [for (const unit of units) { ... }] and the return after it.
    Each pass reads the clock once, for [nowLocal("UTC")]. *)
Fixpoint formatRelativeUnits (h : Host) (format formatNumeric : Intl.RelativeTimeFormat)
    (duration : Temporal.Duration) (t : nat) (us : list Temporal.Unit)
  : JS.Result string :=
  match us with
  | [] => JS.Ok (formatNumeric 0 Temporal.seconds)
  | unit :: rest =>
      relativeTo <- nowLocal h t "UTC" ;;
      let num := Temporal.total duration unit relativeTo in
      let d := JS.Math_trunc num in
      if negb (d =? 0) then JS.Ok (format d unit)
      else formatRelativeUnits h format formatNumeric duration (S t) rest
  end.

(** [formatRelativeInstant(instant)]. *)
Definition formatRelativeInstant (h : Host) (t : nat) (instant : Temporal.Instant)
  : JS.Result string :=
  match rtf h, rtfNumeric h with
  | Some format, Some formatNumeric =>
      let duration := Temporal.since instant (now h t) in
      formatRelativeUnits h format formatNumeric duration (S t) units
  | _, _ =>
      JS.Throw (JS.PlainError "Intl.RelativeTimeFormat is not supported in this environment")
  end.

(** [duration.total({ unit, relativeTo })] as an argument: a function of the
    library that returns a number or throws. *)
Definition DurationTotal : Type :=
  Temporal.Duration -> Temporal.Unit -> Temporal.ZonedDateTime -> JS.Result Q.

(** The loop of [formatRelativeInstant] over a given [duration.total]. *)
Fixpoint formatRelativeUnitsWith (total : DurationTotal) (h : Host)
    (format formatNumeric : Intl.RelativeTimeFormat)
    (duration : Temporal.Duration) (t : nat) (us : list Temporal.Unit)
  : JS.Result string :=
  match us with
  | [] => JS.Ok (formatNumeric 0 Temporal.seconds)
  | unit :: rest =>
      relativeTo <- nowLocal h t "UTC" ;;
      num <- total duration unit relativeTo ;;
      let d := JS.Math_trunc num in
      if negb (d =? 0) then JS.Ok (format d unit)
      else formatRelativeUnitsWith total h format formatNumeric duration (S t) rest
  end.

(** [formatRelativeInstant(instant)] over a given [duration.total]. *)
Definition formatRelativeInstantWith (total : DurationTotal) (h : Host) (t : nat)
    (instant : Temporal.Instant) : JS.Result string :=
  match rtf h, rtfNumeric h with
  | Some format, Some formatNumeric =>
      let duration := Temporal.since instant (now h t) in
      formatRelativeUnitsWith total h format formatNumeric duration (S t) units
  | _, _ =>
      JS.Throw (JS.PlainError "Intl.RelativeTimeFormat is not supported in this environment")
  end.

(** [formatRelativeIso8601DateTimeStr(datetime)]. *)
Definition formatRelativeIso8601DateTimeStr (h : Host) (t : nat) (datetime : string)
  : JS.Result string :=
  instant <- parseInstant datetime ;;
  formatRelativeInstant h t instant.

(** The [ordinal] package (a dependency): the number and its English suffix. *)
Definition indicator (i : Z) : string :=
  let cent := i mod 100 in
  if (10 <=? cent) && (cent <=? 20) then "th"
  else if i mod 10 =? 1 then "st"
  else if i mod 10 =? 2 then "nd"
  else if i mod 10 =? 3 then "rd"
  else "th".

Definition ordinal (i : Z) : string := (Text.ofZ i ++ indicator i)%string.

(** [Number.parseInt] on the text of a part: the leading digits, [None] for
    [NaN]. *)
Definition Number_parseInt (s : string) : option Z := Text.leadingDigits s None.

(** [ordinalFormatForDay(parts)]: the day part becomes its ordinal, every
    other part keeps its text. *)
Definition ordinalFormatForDay (parts : list Intl.DateTimeFormatPart) : string :=
  String.concat ""
    (List.map
       (fun part =>
          match Intl.type part with
          | Intl.dayPart =>
              match Number_parseInt (Intl.value part) with
              | Some n => ordinal n
              | None => "NaN"%string
              end
          | _ => Intl.value part
          end)
       parts).









(** ** A host for the examples: the test environment *)
Module TestHost.

(** Europe/London: summer time from 01:00 UTC on the last Sunday of March to
    01:00 UTC on the last Sunday of October (the rule in force since 1996). *)
Definition lastSundayEpochDays (y m : Z) : Z :=
  let last := Temporal.mkPlainDate y m 31 in
  Temporal.isoDateToEpochDays last - Temporal.dayOfWeek last mod 7.

Definition oneHour : Z := 3600 * Temporal.nsPerSecond.

Definition londonOffset (ns : Z) : Z :=
  let y := Temporal.year (Temporal.epochDaysToIsoDate (ns / Temporal.nsPerDay)) in
  let from := lastSundayEpochDays y 3 * Temporal.nsPerDay + oneHour in
  let till := lastSundayEpochDays y 10 * Temporal.nsPerDay + oneHour in
  if (from <=? ns) && (ns <? till) then oneHour else 0.

Definition londonRules : Temporal.ZoneRules :=
  Temporal.mkZoneRules londonOffset
    (fun localNs =>
       if londonOffset (localNs - oneHour) =? oneHour then localNs - oneHour
       else localNs).

Definition timeZones : Temporal.TimeZoneDatabase :=
  fun id => if String.eqb id "Europe/London" then Some londonRules else None.

Definition unitName (u : Temporal.Unit) : string :=
  match u with
  | Temporal.years => "year"
  | Temporal.months => "month"
  | Temporal.weeks => "week"
  | Temporal.days => "day"
  | Temporal.hours => "hour"
  | Temporal.minutes => "minute"
  | Temporal.seconds => "second"
  end.

(** The digits of a number in groups of three, counted from the right and
    separated by commas: "1,000". *)
Fixpoint groupReversed (k : nat) (reversed : list ascii) : list ascii :=
  match reversed with
  | [] => []
  | c :: rest =>
      match k with
      | 3%nat => ","%char :: c :: groupReversed 1 rest
      | _ => c :: groupReversed (S k) rest
      end
  end.

Definition grouped (digits : string) : string :=
  string_of_list_ascii (rev (groupReversed 0 (rev (list_ascii_of_string digits)))).

(** English relative time: "in 9 seconds", "2 days ago", "1,000 years ago";
    with [numeric: "auto"] zero has its own phrase. *)
Definition relativeTimeFormat (_ : option string) (numeric : Intl.Numeric)
  : Intl.RelativeTimeFormat :=
  fun value unit =>
    let counted :=
      (grouped (Text.ofZ (Z.abs value)) ++ " " ++ unitName unit
       ++ (if (Z.abs value =? 1)%Z then "" else "s"))%string in
    match numeric, value =? 0 with
    | Intl.auto, true =>
        match unit with
        | Temporal.seconds => "now"%string
        | Temporal.days => "today"%string
        | u => ("this " ++ unitName u)%string
        end
    | _, _ =>
        if value <? 0 then (counted ++ " ago")%string else ("in " ++ counted)%string
    end.

Definition monthName (format : Intl.MonthFormat) (m : Z) : string :=
  let long :=
    nth (Z.to_nat (m - 1))
        ["January"; "February"; "March"; "April"; "May"; "June"; "July"; "August";
         "September"; "October"; "November"; "December"]%string ""%string in
  match format with
  | Intl.long => long
  | Intl.short => if m =? 9 then "Sept"%string else String.substring 0 3 long
  end.

Definition space : Intl.DateTimeFormatPart := Intl.mkPart Intl.literalPart " ".

(** en-GB dates: day, month, year, in that order, separated by spaces.  A
    day and a year without a month have no pattern of their own: the year
    comes first and the day follows in brackets, "2024 (day: 12)". *)
Definition dateFieldParts (options : Intl.DateTimeFormatOptions) (local : Temporal.PlainDate)
  : list Intl.DateTimeFormatPart :=
  match Intl.day options, Intl.month options, Intl.year options with
  | Some _, None, Some _ =>
      [Intl.mkPart Intl.yearPart (Text.ofZ (Temporal.year local));
       Intl.mkPart Intl.literalPart " (day: ";
       Intl.mkPart Intl.dayPart (Text.ofZ (Temporal.day local));
       Intl.mkPart Intl.literalPart ")"]
  | _, _, _ =>
      let fields :=
        (match Intl.day options with
         | Some _ => [Intl.mkPart Intl.dayPart (Text.ofZ (Temporal.day local))]
         | None => []
         end)
        ++ (match Intl.month options with
            | Some f => [Intl.mkPart Intl.monthPart (monthName f (Temporal.month local))]
            | None => []
            end)
        ++ (match Intl.year options with
            | Some _ => [Intl.mkPart Intl.yearPart (Text.ofZ (Temporal.year local))]
            | None => []
            end) in
      match fields with
      | [] => []
      | first :: others => first :: flat_map (fun p => [space; p]) others
      end
  end.

(** The formatter of the test host: the fields are read off the clock of
    Europe/London. *)
Definition dateTimeFormat (_ : option string) (options : Intl.DateTimeFormatOptions)
  : Intl.DateTimeFormat :=
  fun date =>
    dateFieldParts options
      (Temporal.date (Temporal.localDateTime londonRules (JS.getTime date * 1000000))).

(** The host of the test suite, with the clock mocked at [instant]. *)
Definition mocked (instant : Temporal.Instant) : Host :=
  mkHost (fun _ => instant) timeZones (Some relativeTimeFormat) (Some dateTimeFormat).

(** A host without [Intl.RelativeTimeFormat] (Hermes). *)
Definition withoutRelativeTimeFormat (instant : Temporal.Instant) : Host :=
  mkHost (fun _ => instant) timeZones None (Some dateTimeFormat).

(** 2022-05-05T10:12:13Z. *)
Definition now_2022_05_05 : Temporal.Instant := Temporal.mkInstant 1651745533000000000.

End TestHost.

(** ** More of the library: the functions beside the ones above *)

(** [!o] for [o : object | null | undefined]: every object is truthy. *)
Definition notObject {A : Type} (o : JS.Nullable A) : bool :=
  match o with
  | JS.Val _ => false
  | _ => true
  end.

(** The body shared by the optional variants that take an object:
    [if (!x) return undefined; return f(x);]. *)
Definition optionally {A B : Type} (f : A -> JS.Result B) (x : JS.Nullable A)
  : JS.Result (option B) :=
  if notObject x then JS.Ok None
  else match x with
       | JS.Val a => JS.map Some (f a)
       | _ => JS.Ok None
       end.

(** *** Temporal: what these functions use beyond the above *)

(** [date.daysInMonth]. *)
Definition daysInMonth (d : Temporal.PlainDate) : Z :=
  Temporal.ISODaysInMonth (Temporal.year d) (Temporal.month d).

(** [time.subtract({ nanoseconds: n })]: time arithmetic wraps at midnight. *)
Definition PlainTime_subtractNanoseconds (t : Temporal.PlainTime) (n : Z)
  : Temporal.PlainTime :=
  Temporal.nanosecondsToTime ((Temporal.timeToNanoseconds t - n) mod Temporal.nsPerDay).

(** [date.toZonedDateTime({ timeZone, plainTime })]. *)
Definition PlainDate_toZonedDateTime (db : Temporal.TimeZoneDatabase)
    (d : Temporal.PlainDate) (timeZone : string) (plainTime : Temporal.PlainTime)
  : JS.Result Temporal.ZonedDateTime :=
  Temporal.dateTimeToZoned db (Temporal.mkPlainDateTime d plainTime) timeZone.

(** [Temporal.PlainTime.compare]: by hour, minute, second, then the fraction. *)
Definition comparePlainTime (a b : Temporal.PlainTime) : Z :=
  if Temporal.hour a <? Temporal.hour b then -1
  else if Temporal.hour b <? Temporal.hour a then 1
  else if Temporal.minute a <? Temporal.minute b then -1
  else if Temporal.minute b <? Temporal.minute a then 1
  else if Temporal.second a <? Temporal.second b then -1
  else if Temporal.second b <? Temporal.second a then 1
  else if Temporal.subsecond a <? Temporal.subsecond b then -1
  else if Temporal.subsecond b <? Temporal.subsecond a then 1
  else 0.

(** [time.equals(other)]. *)
Definition equalsPlainTime (a b : Temporal.PlainTime) : bool :=
  (Temporal.hour a =? Temporal.hour b) && (Temporal.minute a =? Temporal.minute b) &&
  (Temporal.second a =? Temporal.second b) && (Temporal.subsecond a =? Temporal.subsecond b).

(** A duration has a calendar unit: years, months or weeks. *)
Definition hasCalendarUnits (d : Temporal.Duration) : bool :=
  negb ((Temporal.durationYears d =? 0) && (Temporal.durationMonths d =? 0) &&
        (Temporal.durationWeeks d =? 0)).

(** The length of a duration without calendar units, days counting 24 hours. *)
Definition elapsedNanoseconds (d : Temporal.Duration) : Z :=
  Temporal.durationDays d * Temporal.nsPerDay + Temporal.timeDurationNanoseconds d.

(** [Temporal.Duration.compare(one, two)] without [relativeTo], as in the
    0.4 line of the polyfill that the package depends on: a calendar unit on
    either side needs a starting point and throws; otherwise the elapsed
    lengths are compared. *)
Definition compareDuration (one two : Temporal.Duration) : JS.Result Z :=
  if hasCalendarUnits one || hasCalendarUnits two then JS.Throw JS.RangeError
  else JS.Ok (Z.sgn (elapsedNanoseconds one - elapsedNanoseconds two)).

(** *** calculations *)

(** [startOfDay(date, timezone)]. *)
Definition startOfDay (h : Host) (date : Temporal.PlainDate) (timezone : string)
  : JS.Result Temporal.ZonedDateTime :=
  PlainDate_toZonedDateTime (timeZones h) date timezone Temporal.midnight.

(** [endOfDay(date, timezone)]: the plain time is
    [new Temporal.PlainTime().subtract({ nanoseconds: 1 })]. *)
Definition endOfDay (h : Host) (date : Temporal.PlainDate) (timezone : string)
  : JS.Result Temporal.ZonedDateTime :=
  PlainDate_toZonedDateTime (timeZones h) date timezone
    (PlainTime_subtractNanoseconds Temporal.midnight 1).

(** [startOfMonth(date)]: [date.subtract({ days: date.day - 1 })]. *)
Definition startOfMonth (date : Temporal.PlainDate) : Temporal.PlainDate :=
  Temporal.subtractDays date (Temporal.day date - 1).

(** [endOfMonth(date)]: [date.add({ days: date.daysInMonth - date.day })]. *)
Definition endOfMonth (date : Temporal.PlainDate) : Temporal.PlainDate :=
  Temporal.addDays date (daysInMonth date - Temporal.day date).

(** *** conversion *)

(** [toOptionalJSDateUTC(dt)]. *)
Definition toOptionalJSDateUTC
    (dt : JS.Nullable (Temporal.ZonedDateTime + Temporal.Instant)) : JS.Result (option JS.Date) :=
  optionally (fun x => JS.Ok (toJSDateUTC x)) dt.

(** [toPlainDate(date, timezone)]. *)
Definition toPlainDate (h : Host) (date : JS.Date) (timezone : string)
  : JS.Result Temporal.PlainDate :=
  zoned <- Temporal.toZonedDateTimeISO (timeZones h) (toInstant date) timezone ;;
  JS.Ok (Temporal.zonedToPlainDate zoned).

(** [toOptionalPlainDate(date, timezone)]. *)
Definition toOptionalPlainDate (h : Host) (date : JS.Nullable JS.Date) (timezone : string)
  : JS.Result (option Temporal.PlainDate) :=
  optionally (fun d => toPlainDate h d timezone) date.

(** [toOptionalInstant(date)]. *)
Definition toOptionalInstant (date : JS.Nullable JS.Date)
  : JS.Result (option Temporal.Instant) :=
  optionally (fun d => JS.Ok (toInstant d)) date.

(** [toZonedDateTimeUTC(date)]. *)
Definition toZonedDateTimeUTC (h : Host) (date : JS.Date)
  : JS.Result Temporal.ZonedDateTime :=
  Temporal.toZonedDateTimeISO (timeZones h) (toInstant date) TZ_UTC.

(** [toOptionalZonedDateTimeUTC(date)]. *)
Definition toOptionalZonedDateTimeUTC (h : Host) (date : JS.Nullable JS.Date)
  : JS.Result (option Temporal.ZonedDateTime) :=
  optionally (toZonedDateTimeUTC h) date.

(** [plainDateToOptionalJSDate(date, timezone)]. *)
Definition plainDateToOptionalJSDate (h : Host) (date : JS.Nullable Temporal.PlainDate)
    (timezone : string) : JS.Result (option JS.Date) :=
  optionally (fun d => plainDateToJSDate h d timezone) date.

(** [plainDateTimeToOptionalJSDate(date, timezone)]. *)
Definition plainDateTimeToOptionalJSDate (h : Host)
    (date : JS.Nullable Temporal.PlainDateTime) (timezone : string)
  : JS.Result (option JS.Date) :=
  optionally (fun d => plainDateTimeToJSDate h d timezone) date.

(** [instantToPlainDate(date, timezone)]. *)
Definition instantToPlainDate (h : Host) (date : Temporal.Instant) (timezone : string)
  : JS.Result Temporal.PlainDate :=
  zoned <- Temporal.toZonedDateTimeISO (timeZones h) date timezone ;;
  JS.Ok (Temporal.zonedToPlainDate zoned).

(** [instantToOptionalPlainDate(date, timezone)]. *)
Definition instantToOptionalPlainDate (h : Host) (date : JS.Nullable Temporal.Instant)
    (timezone : string) : JS.Result (option Temporal.PlainDate) :=
  optionally (fun d => instantToPlainDate h d timezone) date.

(** [instantToPlainDateTime(date, timezone)]. *)
Definition instantToPlainDateTime (h : Host) (date : Temporal.Instant) (timezone : string)
  : JS.Result Temporal.PlainDateTime :=
  zoned <- Temporal.toZonedDateTimeISO (timeZones h) date timezone ;;
  JS.Ok (Temporal.zonedToPlainDateTime zoned).

(** [instantToPlainTime(date, timezone)]. *)
Definition instantToPlainTime (h : Host) (date : Temporal.Instant) (timezone : string)
  : JS.Result Temporal.PlainTime :=
  zoned <- Temporal.toZonedDateTimeISO (timeZones h) date timezone ;;
  JS.Ok (Temporal.zonedToPlainTime zoned).

(** *** now *)

(** [currentTime(timezone)]: [Temporal.Now.plainTimeISO(timezone)], the time
    of day in the zone.  The library reads the system clock for it, not
    [Temporal.Now.instant] (the function [mockNow] replaces), so the reading
    is an argument of its own and not the [clock] of the host. *)
Definition currentTime (h : Host) (systemTime : Temporal.Instant) (timezone : string)
  : JS.Result Temporal.PlainTime :=
  JS.map Temporal.zonedToPlainTime
    (Temporal.toZonedDateTimeISO (timeZones h) systemTime timezone).

(** *** comparison *)

(** [isTimeAfter], [isTimeEqual], [isTimeBefore]. *)
Definition isTimeAfter (time comparedWith : Temporal.PlainTime) : bool :=
  comparePlainTime time comparedWith =? 1.

Definition isTimeEqual (time comparedWith : Temporal.PlainTime) : bool :=
  equalsPlainTime time comparedWith.

Definition isTimeBefore (time comparedWith : Temporal.PlainTime) : bool :=
  comparePlainTime time comparedWith =? -1.

(** [isDurationGreater], [isDurationEqual], [isDurationLess]. *)
Definition isDurationGreater (duration comparedWith : Temporal.Duration) : JS.Result bool :=
  c <- compareDuration duration comparedWith ;; JS.Ok (c =? 1).

Definition isDurationEqual (duration comparedWith : Temporal.Duration) : JS.Result bool :=
  c <- compareDuration duration comparedWith ;; JS.Ok (c =? 0).

Definition isDurationLess (duration comparedWith : Temporal.Duration) : JS.Result bool :=
  c <- compareDuration duration comparedWith ;; JS.Ok (c =? -1).

(** *** formatting *)







(** [formatJSDate(date, timezone)]. *)
Definition formatJSDate (h : Host) (date : JS.Date) (timezone : string) : JS.Result string :=
  JS.map Temporal.PlainDate_toString (toPlainDate h date timezone).

(** [formatOptionalPlainDateTime], [formatOptionalPlainDate],
    [formatOptionalJSDate], [formatOptionalPlainTime]. *)
Definition formatOptionalPlainDateTime (date : JS.Nullable Temporal.PlainDateTime)
  : JS.Result (option string) :=
  optionally (fun d => JS.Ok (formatPlainDateTime d)) date.

Definition formatOptionalPlainDate (date : JS.Nullable Temporal.PlainDate)
  : JS.Result (option string) :=
  optionally (fun d => JS.Ok (formatPlainDate d)) date.

Definition formatOptionalJSDate (h : Host) (date : JS.Nullable JS.Date) (timezone : string)
  : JS.Result (option string) :=
  optionally (fun d => formatJSDate h d timezone) date.

Definition formatOptionalPlainTime (time : JS.Nullable Temporal.PlainTime)
  : JS.Result (option string) :=
  optionally (fun t => JS.Ok (formatPlainTime t)) time.

(** [formatOptionalRelativeIso8601DateTimeStr(datetime)]. *)
Definition formatOptionalRelativeIso8601DateTimeStr (h : Host) (t : nat)
    (datetime : JS.Nullable string) : JS.Result (option string) :=
  parseOptional (formatRelativeIso8601DateTimeStr h t) datetime.

(** The options the time formatters pass to [toLocaleString]. *)
Inductive HourCycle : Type := h23.

Inductive TimeField : Type := twoDigit | numericField.

Record LocaleTimeOptions : Type := mkLocaleTimeOptions {
  hourOption : option TimeField;
  minuteOption : option TimeField;
  secondOption : option TimeField;
  hourCycle : option HourCycle
}.

(** [zonedDateTime.toLocaleString([], options)] of the host. *)
Definition ToLocaleString : Type := Temporal.ZonedDateTime -> LocaleTimeOptions -> string.

(** [formatInstantTime(time, timezone)]. *)
Definition formatInstantTime (toLocaleString : ToLocaleString) (h : Host)
    (time : Temporal.Instant) (timezone : string) : JS.Result string :=
  zoned <- Temporal.toZonedDateTimeISO (timeZones h) time timezone ;;
  JS.Ok (toLocaleString zoned (mkLocaleTimeOptions (Some twoDigit) (Some twoDigit) None None)).

(** [formatInstantTimeRange(startTime, endTime, timezone)]. *)
Definition formatInstantTimeRange (toLocaleString : ToLocaleString) (h : Host)
    (startTime endTime : Temporal.Instant) (timezone : string) : JS.Result string :=
  from <- formatInstantTime toLocaleString h startTime timezone ;;
  till <- formatInstantTime toLocaleString h endTime timezone ;;
  JS.Ok (from ++ " - " ++ till)%string.

(** [formatInstantTimeWithSeconds(time, timezone)]. *)
Definition formatInstantTimeWithSeconds (toLocaleString : ToLocaleString) (h : Host)
    (time : Temporal.Instant) (timezone : string) : JS.Result string :=
  zoned <- Temporal.toZonedDateTimeISO (timeZones h) time timezone ;;
  JS.Ok (toLocaleString zoned
           (mkLocaleTimeOptions (Some twoDigit) (Some twoDigit) (Some twoDigit) None)).

(** [formatInstantTime24h(time, timezone)]. *)
Definition formatInstantTime24h (toLocaleString : ToLocaleString) (h : Host)
    (time : Temporal.Instant) (timezone : string) : JS.Result string :=
  zoned <- Temporal.toZonedDateTimeISO (timeZones h) time timezone ;;
  JS.Ok (toLocaleString zoned
           (mkLocaleTimeOptions (Some twoDigit) (Some twoDigit) None (Some h23))).

(** [formatZonedDateTimeTime(date)]. *)
Definition formatZonedDateTimeTime (toLocaleString : ToLocaleString)
    (date : Temporal.ZonedDateTime) : string :=
  toLocaleString date
    (mkLocaleTimeOptions (Some numericField) (Some numericField) None None).

(** [formatIso8601ToTime(time, timezone)]. *)
Definition formatIso8601ToTime (toLocaleString : ToLocaleString) (h : Host)
    (time : string) (timezone : string) : JS.Result string :=
  instant <- parseInstant time ;;
  formatInstantTime toLocaleString h instant timezone.

(** [formatOptionalIso8601ToTime(time, timezone)]: [null], not [undefined],
    for absent input. *)
Definition formatOptionalIso8601ToTime (toLocaleString : ToLocaleString) (h : Host)
    (time : JS.Nullable string) (timezone : string) : JS.Result (JS.Nullable string) :=
  if JS.notString time then JS.Ok JS.Null
  else match time with
       | JS.Val s =>
           instant <- parseInstant s ;;
           JS.map JS.Val (formatInstantTime toLocaleString h instant timezone)
       | _ => JS.Ok JS.Null
       end.

(** [formatOptionalIso8601ToTimeWithSeconds(time, timezone)]. *)
Definition formatOptionalIso8601ToTimeWithSeconds (toLocaleString : ToLocaleString)
    (h : Host) (time : JS.Nullable string) (timezone : string)
  : JS.Result (JS.Nullable string) :=
  if JS.notString time then JS.Ok JS.Null
  else match time with
       | JS.Val s =>
           instant <- parseInstant s ;;
           JS.map JS.Val (formatInstantTimeWithSeconds toLocaleString h instant timezone)
       | _ => JS.Ok JS.Null
       end.

(** [formatOptionalInstantTimeWithSeconds], [formatOptionalInstantTime24h],
    [formatOptionalInstant]. *)
Definition formatOptionalInstantTimeWithSeconds (toLocaleString : ToLocaleString)
    (h : Host) (time : JS.Nullable Temporal.Instant) (timezone : string)
  : JS.Result (option string) :=
  optionally (fun i => formatInstantTimeWithSeconds toLocaleString h i timezone) time.

Definition formatOptionalInstantTime24h (toLocaleString : ToLocaleString)
    (h : Host) (time : JS.Nullable Temporal.Instant) (timezone : string)
  : JS.Result (option string) :=
  optionally (fun i => formatInstantTime24h toLocaleString h i timezone) time.

Definition formatOptionalInstant (toLocaleString : ToLocaleString)
    (h : Host) (instant : JS.Nullable Temporal.Instant) (timezone : string)
  : JS.Result (option string) :=
  optionally (fun i => formatInstantTime toLocaleString h i timezone) instant.

(** [formatOptionalZonedDateTime] and [formatOptionalZonedDateTimeTime]. *)
Definition formatOptionalZonedDateTime (toLocaleString : ToLocaleString)
    (date : JS.Nullable Temporal.ZonedDateTime) : JS.Result (option string) :=
  optionally (fun z => JS.Ok (formatZonedDateTimeTime toLocaleString z)) date.

Definition formatOptionalZonedDateTimeTime (toLocaleString : ToLocaleString)
    (date : JS.Nullable Temporal.ZonedDateTime) : JS.Result (option string) :=
  optionally (fun z => JS.Ok (formatZonedDateTimeTime toLocaleString z)) date.

(** The friendly formatters build an [Intl.DateTimeFormat] with more options
    than the date-range formatter: weekday, hour, minute and the time zone. *)
Inductive WeekdayFormat : Type := weekdayShort | weekdayLong.

Record FriendlyFormatOptions : Type := mkFriendlyFormatOptions {
  hourField : option Intl.Numbered;
  minuteField : option Intl.Numbered;
  weekdayField : option WeekdayFormat;
  yearField : option Intl.Numbered;
  monthField : option Intl.MonthFormat;
  dayField : option Intl.Numbered;
  timeZoneField : option string
}.

(** [new Intl.DateTimeFormat(undefined, options)] of the host; it throws for a
    time zone it does not know. *)
Definition FriendlyDateTimeFormat : Type :=
  FriendlyFormatOptions -> JS.Result Intl.DateTimeFormat.

(** [formatFriendlyInstant(instant, timezone)]. *)
Definition formatFriendlyInstant (DateTimeFormat : FriendlyDateTimeFormat)
    (instant : Temporal.Instant) (timezone : string) : JS.Result string :=
  formatter <- DateTimeFormat
                 (mkFriendlyFormatOptions (Some Intl.numeric) (Some Intl.numeric)
                    (Some weekdayLong) (Some Intl.numeric) (Some Intl.long)
                    (Some Intl.numeric) (Some timezone)) ;;
  JS.Ok (ordinalFormatForDay (formatter (toJSDateUTC (inr instant)))).








(** [formatFriendlyDateTime(date)]: the formatter is given no time zone. *)
Definition formatFriendlyDateTime (DateTimeFormat : FriendlyDateTimeFormat)
    (date : Temporal.ZonedDateTime) : JS.Result string :=
  formatter <- DateTimeFormat
                 (mkFriendlyFormatOptions (Some Intl.numeric) (Some Intl.numeric)
                    (Some weekdayLong) (Some Intl.numeric) (Some Intl.long)
                    (Some Intl.numeric) None) ;;
  JS.Ok (ordinalFormatForDay (formatter (toJSDateUTC (inl date)))).

(** [formatInstantFriendlyDate(time, timezone)]. *)
Definition formatInstantFriendlyDate (DateTimeFormat : FriendlyDateTimeFormat) (h : Host)
    (time : Temporal.Instant) (timezone : string) : JS.Result string :=
  zoned <- Temporal.toZonedDateTimeISO (timeZones h) time timezone ;;
  formatFriendlyDateTime DateTimeFormat zoned.

(** ** Vocabulary of the statements below *)

(** The instant a literal of the test suite denotes (the epoch if it does not
    parse). *)
Definition instantOf (iso8601 : string) : Temporal.Instant :=
  match parseInstant iso8601 with
  | JS.Ok i => i
  | JS.Throw _ => Temporal.mkInstant 0
  end.

(** [optional] is the optional counterpart of the parser [base]: absent
    input gives [undefined]; any other input gives what [base] gives, its
    failure included. *)
Definition optionalCounterpart {A : Type}
    (optional : JS.Nullable string -> JS.Result (option A))
    (base : string -> JS.Result A) : Prop :=
  optional JS.Null = JS.Ok None /\
  optional JS.Undefined = JS.Ok None /\
  optional (JS.Val EmptyString) = JS.Ok None /\
  (forall s, s <> EmptyString -> optional (JS.Val s) = JS.map Some (base s)) /\
  (forall s v, s <> EmptyString -> base s = JS.Ok v -> optional (JS.Val s) = JS.Ok (Some v)) /\
  (forall s e, s <> EmptyString -> base s = JS.Throw e -> optional (JS.Val s) = JS.Throw e).

(** [Math.trunc(duration.total({ unit, relativeTo: nowLocal("UTC") }))] over
    a given [duration.total], with the clock read at [t]: the number, or the
    error [duration.total] throws. *)
Definition truncatedTotalWith (total : DurationTotal) (h : Host)
    (duration : Temporal.Duration) (t : nat) (unit : Temporal.Unit) : JS.Result Z :=
  JS.map JS.Math_trunc
    (total duration unit (Temporal.mkZonedDateTime (now h t) "UTC" Temporal.utcRules)).

(** A [duration.total] that throws the RangeError the library raises when its
    date arithmetic leaves the range of dates. *)
Definition failingTotal : DurationTotal := fun _ _ _ => JS.Throw JS.RangeError.

(** The model of [duration.total] in [Temporal], which never throws. *)
Definition modelTotal : DurationTotal :=
  fun duration unit relativeTo => JS.Ok (Temporal.total duration unit relativeTo).

(** [Math.trunc(duration.total({ unit, relativeTo: nowLocal("UTC") }))], with
    the clock read at [t]. *)
Definition truncatedTotal (h : Host) (duration : Temporal.Duration) (t : nat)
    (unit : Temporal.Unit) : Z :=
  JS.Math_trunc
    (Temporal.total duration unit
       (Temporal.mkZonedDateTime (now h t) "UTC" Temporal.utcRules)).



(** A date-time, or a time, with everything below the minute cleared: what
    the minute-precision text still tells. *)
Definition timeToMinute (t : Temporal.PlainTime) : Temporal.PlainTime :=
  Temporal.mkPlainTime (Temporal.hour t) (Temporal.minute t) 0 0.

Definition dateTimeToMinute (dt : Temporal.PlainDateTime) : Temporal.PlainDateTime :=
  Temporal.mkPlainDateTime (Temporal.date dt) (timeToMinute (Temporal.time dt)).



(** [optional] is the optional counterpart of [base] on objects: [null] and
    [undefined] give [undefined]; an object gives what [base] gives, its
    failure included. *)
Definition optionalOf {A B : Type}
    (optional : JS.Nullable A -> JS.Result (option B)) (base : A -> JS.Result B) : Prop :=
  optional JS.Null = JS.Ok None /\
  optional JS.Undefined = JS.Ok None /\
  (forall a, optional (JS.Val a) = JS.map Some (base a)).

(** The parts an en-GB formatter prints for a date, as the test host does:
    day, month, year, those the options name, separated by spaces (and a day
    with a year but no month as "2024 (day: 12)"). *)
Definition dateParts (options : Intl.DateTimeFormatOptions) (local : Temporal.PlainDate)
  : list Intl.DateTimeFormatPart :=
  TestHost.dateFieldParts options local.

(** An en-GB formatter as the one of the test host, reading the date on the
    clock of the zone with the given rules. *)
Definition dateTimeFormatIn (rules : Temporal.ZoneRules) (_ : option string)
    (options : Intl.DateTimeFormatOptions) : Intl.DateTimeFormat :=
  fun date =>
    dateParts options
      (Temporal.date (Temporal.localDateTime rules (JS.getTime date * 1000000))).

(** The unit and the count that a difference of [D] nanoseconds of less
    than four weeks is told in: the largest of weeks, days, hours, minutes
    and seconds of which a whole one fits; none below one second. *)
Definition relativeWithinFourWeeks (D : Z) : option (Z * Temporal.Unit) :=
  if negb (Z.quot D (7 * Temporal.nsPerDay) =? 0)
  then Some (Z.quot D (7 * Temporal.nsPerDay), Temporal.weeks)
  else if negb (Z.quot D Temporal.nsPerDay =? 0)
  then Some (Z.quot D Temporal.nsPerDay, Temporal.days)
  else if negb (Z.quot D (3600 * Temporal.nsPerSecond) =? 0)
  then Some (Z.quot D (3600 * Temporal.nsPerSecond), Temporal.hours)
  else if negb (Z.quot D (60 * Temporal.nsPerSecond) =? 0)
  then Some (Z.quot D (60 * Temporal.nsPerSecond), Temporal.minutes)
  else if negb (Z.quot D Temporal.nsPerSecond =? 0)
  then Some (Z.quot D Temporal.nsPerSecond, Temporal.seconds)
  else None.


(** ** Bounded checks, used to settle facts about one 400-year era *)

(** [P] holds at [lo], [lo + 1], ..., [lo + n - 1]. *)
Fixpoint forallRange (P : Z -> bool) (lo : Z) (n : nat) : bool :=
  match n with
  | O => true
  | S n' => if P lo then forallRange P (lo + 1) n' else false
  end.

(** The calendar fields of a day of the 400-year era: year of era, month, day. *)
Definition civilOfDayOfEra (doe : Z) : Z * Z * Z :=
  let yoe := (doe - doe / 1460 + doe / 36524 - doe / 146096) / 365 in
  let doy := doe - (365 * yoe + yoe / 4 - yoe / 100) in
  let mp := (5 * doy + 2) / 153 in
  let d := doy - (153 * mp + 2) / 5 + 1 in
  let m := if mp <? 10 then mp + 3 else mp - 9 in
  (yoe, m, d).

(** The day of the era of a year of era, month and day. *)
Definition dayOfEraOfCivil (yoe m d : Z) : Z :=
  let mp := if 2 <? m then m - 3 else m + 9 in
  let doy := (153 * mp + 2) / 5 + d - 1 in
  yoe * 365 + yoe / 4 - yoe / 100 + doy.

(** What one day of the era has to satisfy for the two conversions to agree. *)
Definition dayOfEraOk (doe : Z) : bool :=
  let '(yoe, m, d) := civilOfDayOfEra doe in
  (0 <=? yoe) && (yoe <? 400) && (1 <=? m) && (m <=? 12) && (1 <=? d) &&
  (d <=? Temporal.ISODaysInMonth (if m <=? 2 then yoe + 1 else yoe) m) &&
  (dayOfEraOfCivil yoe m d =? doe).

(** The year of the era a day of the era falls in. *)
Definition yearOfEra (doe : Z) : Z :=
  (doe - doe / 1460 + doe / 36524 - doe / 146096) / 365.

(** The first and the last day of a year of the era. *)
Definition firstDayOfYearOfEra (yoe : Z) : Z := 365 * yoe + yoe / 4 - yoe / 100.

Definition lastDayOfYearOfEra (yoe : Z) : Z :=
  if yoe =? 399 then 146096 else firstDayOfYearOfEra (yoe + 1) - 1.

(** Month and day of a day of the year that starts on 1 March. *)
Definition monthDayOfDayOfYear (doy : Z) : Z * Z :=
  let mp := (5 * doy + 2) / 153 in
  (if mp <? 10 then mp + 3 else mp - 9, doy - (153 * mp + 2) / 5 + 1).

(** What one year of the era has to satisfy: the formula for the year is
    right on its first and on its last day, and it has a 366th day exactly
    when the calendar year its February lies in is a leap year. *)
Definition yearOfEraOk (yoe : Z) : bool :=
  (yearOfEra (firstDayOfYearOfEra yoe) =? yoe) &&
  (yearOfEra (lastDayOfYearOfEra yoe) =? yoe) &&
  (lastDayOfYearOfEra yoe - firstDayOfYearOfEra yoe
   =? 364 + (if Temporal.isLeapYear (yoe + 1) then 1 else 0)).

(** What one day of the year has to satisfy. *)
Definition dayOfYearOk (doy : Z) : bool :=
  let '(m, d) := monthDayOfDayOfYear doy in
  (1 <=? m) && (m <=? 12) && (1 <=? d) &&
  (if m =? 2 then d <=? (if doy =? 365 then 29 else 28)
   else d <=? Temporal.ISODaysInMonth 1 m) &&
  ((153 * (if 2 <? m then m - 3 else m + 9) + 2) / 5 + d - 1 =? doy).

(** The day of the March-based year on which a month and day fall. *)
Definition dayOfYearOfMonthDay (m d : Z) : Z :=
  (153 * (if 2 <? m then m - 3 else m + 9) + 2) / 5 + d - 1.

(** What one month and day (numbered [31 * (m - 1) + (d - 1)]) has to
    satisfy when the day exists in some year. *)
Definition monthDayOk (i : Z) : bool :=
  let m := i / 31 + 1 in
  let d := i mod 31 + 1 in
  if d <=? Temporal.ISODaysInMonth 4 m then
    let doy := dayOfYearOfMonthDay m d in
    (0 <=? doy) && (doy <=? 365) &&
    ((doy <? 365) || ((m =? 2) && (d =? 29))) &&
    (let '(m', d') := monthDayOfDayOfYear doy in (m' =? m) && (d' =? d))
  else true.

(** * Properties *)

Lemma forallRange_spec (P : Z -> bool) (n : nat) :
  forall lo, forallRange P lo n = true ->
  forall z, lo <= z < lo + Z.of_nat n -> P z = true.
Proof.
  induction n as [|n IH]; intros lo H z Hz.
  - simpl in Hz. lia.
  - simpl in H. destruct (P lo) eqn:Hlo; [|discriminate].
    destruct (Z.eq_dec z lo) as [->|Hne]; [exact Hlo|].
    apply (IH (lo + 1) H). lia.
Qed.

Lemma yearOfEraOk_all : forallRange yearOfEraOk 0 400 = true.
Proof. vm_compute. reflexivity. Qed.

Lemma dayOfYearOk_all : forallRange dayOfYearOk 0 366 = true.
Proof. vm_compute. reflexivity. Qed.

Lemma yearOfEra_mono (a b : Z) :
  0 <= a <= b -> b <= 146096 -> yearOfEra a <= yearOfEra b.
Proof.
  intros H1 H2. unfold yearOfEra. apply Z.div_le_mono; [lia|].
  Z.div_mod_to_equations; lia.
Qed.

Lemma yearOfEraOk_holds (yoe : Z) :
  0 <= yoe < 400 ->
  yearOfEra (firstDayOfYearOfEra yoe) = yoe /\
  yearOfEra (lastDayOfYearOfEra yoe) = yoe /\
  lastDayOfYearOfEra yoe - firstDayOfYearOfEra yoe
  = 364 + (if Temporal.isLeapYear (yoe + 1) then 1 else 0).
Proof.
  intro H. pose proof (forallRange_spec yearOfEraOk _ 0 yearOfEraOk_all yoe ltac:(lia)) as Hok.
  unfold yearOfEraOk in Hok.
  apply andb_prop in Hok. destruct Hok as [Hok H3].
  apply andb_prop in Hok. destruct Hok as [H1 H2].
  apply Z.eqb_eq in H1, H2, H3. split; [exact H1|]. split; [exact H2|exact H3].
Qed.

Lemma firstDayOfYearOfEra_bounds (yoe : Z) :
  0 <= yoe < 400 -> 0 <= firstDayOfYearOfEra yoe <= 146096.
Proof. unfold firstDayOfYearOfEra. intro H. Z.div_mod_to_equations. lia. Qed.

(** Every day of the era lies within the year the formula gives. *)
Lemma yearOfEra_bracket (doe : Z) :
  0 <= doe < 146097 ->
  0 <= yearOfEra doe < 400 /\
  firstDayOfYearOfEra (yearOfEra doe) <= doe <= lastDayOfYearOfEra (yearOfEra doe).
Proof.
  intro Hdoe.
  assert (Hrange : 0 <= yearOfEra doe < 400).
  { pose proof (yearOfEra_mono 0 doe ltac:(lia) ltac:(lia)) as Hlo.
    pose proof (yearOfEra_mono doe 146096 ltac:(lia) ltac:(lia)) as Hhi.
    change (yearOfEra 0) with 0 in Hlo. change (yearOfEra 146096) with 399 in Hhi. lia. }
  split; [exact Hrange|]. set (y := yearOfEra doe) in *. split.
  - destruct (Z_le_gt_dec (firstDayOfYearOfEra y) doe) as [|Hgt]; [assumption|exfalso].
    destruct (Z.eq_dec y 0) as [Hy0|Hy0].
    + rewrite Hy0 in Hgt. change (firstDayOfYearOfEra 0) with 0 in Hgt. lia.
    + destruct (yearOfEraOk_holds (y - 1) ltac:(lia)) as (_ & Hlast & _).
      unfold lastDayOfYearOfEra in Hlast.
      destruct (Z.eqb_spec (y - 1) 399); [lia|].
      replace (y - 1 + 1) with y in Hlast by lia.
      pose proof (firstDayOfYearOfEra_bounds y Hrange).
      pose proof (yearOfEra_mono doe (firstDayOfYearOfEra y - 1) ltac:(lia) ltac:(lia)).
      fold y in H0. lia.
  - destruct (Z_le_gt_dec doe (lastDayOfYearOfEra y)) as [|Hgt]; [assumption|exfalso].
    unfold lastDayOfYearOfEra in Hgt. destruct (Z.eqb_spec y 399) as [|Hy]; [lia|].
    destruct (yearOfEraOk_holds (y + 1) ltac:(lia)) as (Hfirst & _ & _).
    pose proof (firstDayOfYearOfEra_bounds (y + 1) ltac:(lia)).
    pose proof (yearOfEra_mono (firstDayOfYearOfEra (y + 1)) doe ltac:(lia) ltac:(lia)).
    fold y in H0. lia.
Qed.

Lemma civilOfDayOfEra_unfold (doe : Z) :
  civilOfDayOfEra doe
  = (yearOfEra doe,
     fst (monthDayOfDayOfYear (doe - firstDayOfYearOfEra (yearOfEra doe))),
     snd (monthDayOfDayOfYear (doe - firstDayOfYearOfEra (yearOfEra doe)))).
Proof. reflexivity. Qed.

Lemma ISODaysInMonth_not_february (y y' m : Z) :
  m <> 2 -> Temporal.ISODaysInMonth y m = Temporal.ISODaysInMonth y' m.
Proof.
  intro Hm. unfold Temporal.ISODaysInMonth. destruct (Z.eqb_spec m 2); [contradiction|].
  reflexivity.
Qed.

(** Every day of the era passes the check. *)
Lemma dayOfEraOk_holds (doe : Z) : 0 <= doe < 146097 -> dayOfEraOk doe = true.
Proof.
  intro Hdoe. destruct (yearOfEra_bracket doe Hdoe) as (Hy & Hfirst & Hlast).
  destruct (yearOfEraOk_holds _ Hy) as (_ & _ & Hlen).
  unfold dayOfEraOk. rewrite civilOfDayOfEra_unfold.
  set (y := yearOfEra doe) in *. set (doy := doe - firstDayOfYearOfEra y) in *.
  assert (Hdoy : 0 <= doy <= 364 + (if Temporal.isLeapYear (y + 1) then 1 else 0))
    by (unfold doy; lia).
  assert (Hdoy' : 0 <= doy < 0 + Z.of_nat 366)
    by (destruct (Temporal.isLeapYear (y + 1)); lia).
  pose proof (forallRange_spec dayOfYearOk _ 0 dayOfYearOk_all doy Hdoy') as Hok.
  unfold dayOfYearOk in Hok.
  destruct (monthDayOfDayOfYear doy) as [m d]. cbn [fst snd].
  repeat (apply andb_prop in Hok; destruct Hok as [Hok ?]).
  repeat (apply andb_true_intro; split); try assumption.
  - apply Z.leb_le. lia.
  - apply Z.ltb_lt. lia.
  - destruct (Z.eqb_spec m 2) as [->|Hm].
    + change (2 <=? 2) with true. cbv iota. unfold Temporal.ISODaysInMonth.
      change (2 =? 2) with true. cbv iota.
      destruct (Z.eqb_spec doy 365) as [H365|H365].
      * destruct (Temporal.isLeapYear (y + 1)); [assumption|lia].
      * destruct (Temporal.isLeapYear (y + 1)); apply Z.leb_le; apply Z.leb_le in H0; lia.
    + rewrite (ISODaysInMonth_not_february _ 1 m Hm). assumption.
  - apply Z.eqb_eq. unfold dayOfEraOfCivil. apply Z.eqb_eq in H.
    unfold doy, firstDayOfYearOfEra in *. lia.
Qed.

Lemma isLeapYear_mod400 (y k : Z) :
  Temporal.isLeapYear (y + k * 400) = Temporal.isLeapYear y.
Proof.
  unfold Temporal.isLeapYear.
  replace (y + k * 400) with (y + (k * 100) * 4) at 1 by lia.
  replace (y + k * 400) with (y + (k * 4) * 100) at 1 by lia.
  rewrite !Z.mod_add by lia. reflexivity.
Qed.

Lemma ISODaysInMonth_mod400 (y k m : Z) :
  Temporal.ISODaysInMonth (y + k * 400) m = Temporal.ISODaysInMonth y m.
Proof. unfold Temporal.ISODaysInMonth. rewrite isLeapYear_mod400. reflexivity. Qed.

Lemma epochDaysToIsoDate_civil (z : Z) :
  let '(yoe, m, d) := civilOfDayOfEra ((z + 719468) mod 146097) in
  Temporal.epochDaysToIsoDate z
  = Temporal.mkPlainDate
      (if m <=? 2 then yoe + (z + 719468) / 146097 * 400 + 1
       else yoe + (z + 719468) / 146097 * 400) m d.
Proof. unfold civilOfDayOfEra, Temporal.epochDaysToIsoDate. cbv zeta. reflexivity. Qed.

(** Day numbers survive the trip through the calendar. *)
Lemma isoDateToEpochDays_epochDaysToIsoDate (z : Z) :
  Temporal.isoDateToEpochDays (Temporal.epochDaysToIsoDate z) = z.
Proof.
  pose proof (epochDaysToIsoDate_civil z) as E.
  pose proof (dayOfEraOk_holds ((z + 719468) mod 146097)
                (Z.mod_pos_bound _ 146097 eq_refl)) as Hok.
  unfold dayOfEraOk in Hok.
  destruct (civilOfDayOfEra ((z + 719468) mod 146097)) as [[yoe m] d].
  rewrite E. clear E.
  repeat (apply andb_prop in Hok; destruct Hok as [Hok ?]).
  unfold Temporal.isoDateToEpochDays, dayOfEraOfCivil in *. cbn [Temporal.year Temporal.month Temporal.day].
  set (era := (z + 719468) / 146097) in *.
  assert (Hy : (if m <=? 2 then (if m <=? 2 then yoe + era * 400 + 1 else yoe + era * 400) - 1
                else (if m <=? 2 then yoe + era * 400 + 1 else yoe + era * 400)) = yoe + era * 400).
  { destruct (m <=? 2); lia. }
  rewrite Hy. 
  assert (Hdiv : (yoe + era * 400) / 400 = era) by (rewrite Z.div_add by lia; rewrite Z.div_small; lia).
  assert (Hmod : (yoe + era * 400) mod 400 = yoe) by (rewrite Z.mod_add by lia; apply Z.mod_small; lia).
  rewrite Hdiv, Hmod.
  pose proof (Z.div_mod (z + 719468) 146097 ltac:(lia)) as Hdm. fold era in Hdm.
  lia.
Qed.

(** Every day number is a valid calendar date. *)
Lemma epochDaysToIsoDate_valid (z : Z) :
  Temporal.isValidISODate (Temporal.epochDaysToIsoDate z) = true.
Proof.
  pose proof (epochDaysToIsoDate_civil z) as E.
  pose proof (dayOfEraOk_holds ((z + 719468) mod 146097)
                (Z.mod_pos_bound _ 146097 eq_refl)) as Hok.
  unfold dayOfEraOk in Hok.
  destruct (civilOfDayOfEra ((z + 719468) mod 146097)) as [[yoe m] d].
  rewrite E. clear E.
  repeat (apply andb_prop in Hok; destruct Hok as [Hok ?]).
  unfold Temporal.isValidISODate. cbn [Temporal.year Temporal.month Temporal.day].
  set (era := (z + 719468) / 146097) in *.
  assert (Hd : Temporal.ISODaysInMonth
                 (if m <=? 2 then yoe + era * 400 + 1 else yoe + era * 400) m
               = Temporal.ISODaysInMonth (if m <=? 2 then yoe + 1 else yoe) m).
  { destruct (m <=? 2).
    - replace (yoe + era * 400 + 1) with (yoe + 1 + era * 400) by lia.
      apply ISODaysInMonth_mod400.
    - apply ISODaysInMonth_mod400. }
  rewrite Hd.
  repeat (apply andb_true_intro; split); assumption.
Qed.

(** ** Day arithmetic *)

Lemma addDays_addDays (d : Temporal.PlainDate) (a b : Z) :
  Temporal.addDays (Temporal.addDays d a) b = Temporal.addDays d (a + b).
Proof.
  unfold Temporal.addDays. rewrite isoDateToEpochDays_epochDaysToIsoDate.
  rewrite Z.add_assoc. reflexivity.
Qed.

Lemma dayOfWeek_addDays (d : Temporal.PlainDate) (a : Z) :
  Temporal.dayOfWeek (Temporal.addDays d a)
  = (Temporal.isoDateToEpochDays d + a + 3) mod 7 + 1.
Proof.
  unfold Temporal.dayOfWeek, Temporal.addDays.
  rewrite isoDateToEpochDays_epochDaysToIsoDate. reflexivity.
Qed.

Lemma isoDateWithinLimits_days (d : Temporal.PlainDate) :
  Temporal.isoDateWithinLimits d = true
  <-> -100000001 <= Temporal.isoDateToEpochDays d <= 100000000.
Proof.
  unfold Temporal.isoDateWithinLimits. rewrite andb_true_iff, !Z.leb_le. reflexivity.
Qed.

Lemma isoDateWithinLimits_beyond (d : Temporal.PlainDate) :
  100000000 < Temporal.isoDateToEpochDays d -> Temporal.isoDateWithinLimits d = false.
Proof.
  intro H. apply not_true_iff_false. rewrite isoDateWithinLimits_days. lia.
Qed.

(** [date.add({ days: n })] returns the date [n] days on when it is in the
    range, and throws a RangeError when it is not. *)
Lemma PlainDate_add_cases (d : Temporal.PlainDate) (n : Z) :
  (Temporal.isoDateWithinLimits (Temporal.addDays d n) = true /\
   Temporal.PlainDate_add d n = JS.Ok (Temporal.addDays d n))
  \/ (Temporal.isoDateWithinLimits (Temporal.addDays d n) = false /\
      Temporal.PlainDate_add d n = JS.Throw JS.RangeError).
Proof.
  unfold Temporal.PlainDate_add.
  destruct (Temporal.isoDateWithinLimits (Temporal.addDays d n)); [left|right]; split;
    reflexivity.
Qed.

(** ** The loops of addBusinessDays *)

Section BusinessDays.
Variable isBusinessDay : Temporal.PlainDate -> bool.

Lemma skipNonBusinessDays_S (fuel : nat) (d : Temporal.PlainDate) :
  skipNonBusinessDays (S fuel) isBusinessDay d
  = if negb (isBusinessDay d)
    then skipNonBusinessDays fuel isBusinessDay (Temporal.addDays d 1)
    else Some d.
Proof. reflexivity. Qed.

Lemma addBusinessDaysFrom_S (fuel : nat) (n i : Z) (d : Temporal.PlainDate) :
  addBusinessDaysFrom (S fuel) isBusinessDay n i d
  = if i <=? n then
      match skipNonBusinessDays fuel isBusinessDay (Temporal.addDays d 1) with
      | Some next' => addBusinessDaysFrom fuel isBusinessDay n (i + 1) next'
      | None => None
      end
    else Some d.
Proof. reflexivity. Qed.

Lemma skipNonBusinessDays_mono (fuel fuel' : nat) (d r : Temporal.PlainDate) :
  skipNonBusinessDays fuel isBusinessDay d = Some r -> (fuel <= fuel')%nat ->
  skipNonBusinessDays fuel' isBusinessDay d = Some r.
Proof.
  revert fuel' d. induction fuel as [|fuel IH]; intros fuel' d H Hle; [discriminate|].
  destruct fuel' as [|fuel']; [lia|]. simpl in *.
  destruct (negb (isBusinessDay d)); [|exact H].
  apply IH; [exact H|lia].
Qed.

Lemma addBusinessDaysFrom_mono (n : Z) (fuel fuel' : nat) :
  forall i d r,
  addBusinessDaysFrom fuel isBusinessDay n i d = Some r -> (fuel <= fuel')%nat ->
  addBusinessDaysFrom fuel' isBusinessDay n i d = Some r.
Proof.
  revert fuel'. induction fuel as [|fuel IH]; intros fuel' i d r H Hle; [discriminate|].
  destruct fuel' as [|fuel']; [lia|]. simpl in *.
  destruct (i <=? n); [|exact H].
  destruct (skipNonBusinessDays fuel isBusinessDay (Temporal.addDays d 1)) as [d'|] eqn:Hs;
    [|discriminate].
  rewrite (skipNonBusinessDays_mono fuel fuel' _ _ Hs) by lia.
  apply IH; [exact H|lia].
Qed.

(** The skip loop stops at the first accepted day, and only there. *)
Lemma skipNonBusinessDays_sound (fuel : nat) :
  forall (date : Temporal.PlainDate) (a : Z) (r : Temporal.PlainDate),
  skipNonBusinessDays fuel isBusinessDay (Temporal.addDays date a) = Some r ->
  exists j : nat,
    r = Temporal.addDays date (a + Z.of_nat j) /\ isBusinessDay r = true /\
    forall j' : nat, (j' < j)%nat ->
      isBusinessDay (Temporal.addDays date (a + Z.of_nat j')) = false.
Proof.
  induction fuel as [|fuel IH]; intros date a r H; [discriminate|].
  rewrite skipNonBusinessDays_S in H.
  destruct (isBusinessDay (Temporal.addDays date a)) eqn:Hb; cbn [negb] in H.
  - injection H as <-. exists 0%nat. rewrite Z.add_0_r.
    split; [reflexivity|]. split; [exact Hb|]. intros j' Hj'. lia.
  - rewrite addDays_addDays in H. destruct (IH _ _ _ H) as (j & -> & Hr & Hbefore).
    exists (S j). split; [f_equal; lia|]. split; [exact Hr|].
    intros [|j'] Hj'.
    + rewrite Z.add_0_r. exact Hb.
    + replace (a + Z.of_nat (S j')) with (a + 1 + Z.of_nat j') by lia.
      apply Hbefore. lia.
Qed.

Lemma skipNonBusinessDays_complete (j : nat) :
  forall (date : Temporal.PlainDate) (a : Z),
  isBusinessDay (Temporal.addDays date (a + Z.of_nat j)) = true ->
  (forall j' : nat, (j' < j)%nat ->
     isBusinessDay (Temporal.addDays date (a + Z.of_nat j')) = false) ->
  skipNonBusinessDays (S j) isBusinessDay (Temporal.addDays date a)
  = Some (Temporal.addDays date (a + Z.of_nat j)).
Proof.
  induction j as [|j IH]; intros date a Hj Hbefore.
  - rewrite skipNonBusinessDays_S. rewrite Z.add_0_r in *. rewrite Hj. reflexivity.
  - rewrite skipNonBusinessDays_S.
    pose proof (Hbefore 0%nat ltac:(lia)) as H0. rewrite Z.add_0_r in H0.
    rewrite H0. cbn [negb]. rewrite addDays_addDays.
    replace (a + Z.of_nat (S j)) with (a + 1 + Z.of_nat j) in * by lia.
    apply IH; [exact Hj|].
    intros j' Hj'. replace (a + 1 + Z.of_nat j') with (a + Z.of_nat (S j')) by lia.
    apply Hbefore. lia.
Qed.

Lemma countBusinessDays_split (date : Temporal.PlainDate) (a b : nat) :
  countBusinessDays isBusinessDay date (a + b)
  = countBusinessDays isBusinessDay date a
    + countBusinessDays isBusinessDay (Temporal.addDays date (Z.of_nat a)) b.
Proof.
  induction b as [|b IH].
  - rewrite Nat.add_0_r. simpl. lia.
  - rewrite Nat.add_succ_r. cbn [countBusinessDays]. rewrite IH.
    rewrite addDays_addDays.
    replace (Z.of_nat a + Z.of_nat (S b)) with (Z.of_nat (S (a + b))) by lia. lia.
Qed.

Lemma countBusinessDays_bounds (date : Temporal.PlainDate) (k : nat) :
  0 <= countBusinessDays isBusinessDay date k <= Z.of_nat k.
Proof.
  induction k as [|k IH]; [simpl; lia|].
  cbn [countBusinessDays].
  destruct (isBusinessDay (Temporal.addDays date (Z.of_nat (S k)))); lia.
Qed.

Lemma countBusinessDays_none (date : Temporal.PlainDate) (k : nat) :
  (forall j : nat, (1 <= j <= k)%nat ->
     isBusinessDay (Temporal.addDays date (Z.of_nat j)) = false) ->
  countBusinessDays isBusinessDay date k = 0.
Proof.
  induction k as [|k IH]; intro H; [reflexivity|].
  cbn [countBusinessDays]. rewrite (H (S k)) by lia.
  rewrite IH; [lia|]. intros j Hj. apply H. lia.
Qed.

(** A positive count has a first accepted day. *)
Lemma countBusinessDays_first (date : Temporal.PlainDate) (k : nat) :
  1 <= countBusinessDays isBusinessDay date k ->
  exists j : nat, (1 <= j <= k)%nat /\
    isBusinessDay (Temporal.addDays date (Z.of_nat j)) = true /\
    forall j' : nat, (1 <= j' < j)%nat ->
      isBusinessDay (Temporal.addDays date (Z.of_nat j')) = false.
Proof.
  induction k as [|k IH]; intro H; [simpl in H; lia|].
  cbn [countBusinessDays] in H.
  destruct (Z_le_gt_dec 1 (countBusinessDays isBusinessDay date k)) as [Hk|Hk].
  - destruct (IH Hk) as (j & Hj & Hb & Hbefore).
    exists j. split; [lia|]. split; assumption.
  - pose proof (countBusinessDays_bounds date k) as Hbd.
    assert (H0 : countBusinessDays isBusinessDay date k = 0) by lia.
    destruct (isBusinessDay (Temporal.addDays date (Z.of_nat (S k)))) eqn:Hb; [|lia].
    exists (S k). split; [lia|]. split; [exact Hb|].
    intros j' Hj'.
    destruct (isBusinessDay (Temporal.addDays date (Z.of_nat j'))) eqn:Hb'; [|reflexivity].
    exfalso.
    replace k with (j' + (k - j'))%nat in H0 by lia.
    rewrite countBusinessDays_split in H0.
    pose proof (countBusinessDays_bounds (Temporal.addDays date (Z.of_nat j')) (k - j')).
    destruct j' as [|j']; [lia|].
    cbn [countBusinessDays] in H0. rewrite Hb' in H0.
    pose proof (countBusinessDays_bounds date j'). lia.
Qed.

(** One accepted day, reached after [j] rejected ones, counts as one. *)
Lemma countBusinessDays_one (date : Temporal.PlainDate) (j : nat) :
  isBusinessDay (Temporal.addDays date (Z.of_nat (S j))) = true ->
  (forall j' : nat, (1 <= j' < S j)%nat ->
     isBusinessDay (Temporal.addDays date (Z.of_nat j')) = false) ->
  countBusinessDays isBusinessDay date (S j) = 1.
Proof.
  intros Hb Hbefore. cbn [countBusinessDays]. rewrite Hb.
  rewrite countBusinessDays_none; [lia|].
  intros j' Hj'. apply Hbefore. lia.
Qed.

(** What the outer loop returns is the accepted day that completes the count. *)
Lemma addBusinessDaysFrom_sound (n : Z) (fuel : nat) :
  forall (i : Z) (next r : Temporal.PlainDate),
  addBusinessDaysFrom fuel isBusinessDay n i next = Some r -> i <= n ->
  exists k : nat,
    isNthBusinessDayAfter isBusinessDay next (n - i + 1) k /\
    r = Temporal.addDays next (Z.of_nat k).
Proof.
  induction fuel as [|fuel IH]; intros i next r H Hi; [discriminate|].
  rewrite addBusinessDaysFrom_S in H. destruct (Z.leb_spec i n) as [_|]; [|lia].
  destruct (skipNonBusinessDays fuel isBusinessDay (Temporal.addDays next 1))
    as [next'|] eqn:Hs; [|discriminate].
  destruct (skipNonBusinessDays_sound _ _ _ _ Hs) as (j & Hnext' & Hb & Hbefore).
  assert (Hone : countBusinessDays isBusinessDay next (S j) = 1).
  { apply countBusinessDays_one.
    - replace (Z.of_nat (S j)) with (1 + Z.of_nat j) by lia. rewrite <- Hnext'. exact Hb.
    - intros [|j'] Hj'; [lia|].
      replace (Z.of_nat (S j')) with (1 + Z.of_nat j') by lia. apply Hbefore. lia. }
  assert (Hnext'' : next' = Temporal.addDays next (Z.of_nat (S j))).
  { rewrite Hnext'. f_equal. lia. }
  destruct (Z_lt_le_dec i n) as [Hlt|Hge].
  - destruct (IH _ _ _ H ltac:(lia)) as (k & (Hk1 & Hkb & Hkc) & ->).
    exists (S j + k)%nat. split.
    + split; [lia|]. split.
      * rewrite Hnext'' in Hkb. rewrite addDays_addDays in Hkb.
        replace (Z.of_nat (S j + k)) with (Z.of_nat (S j) + Z.of_nat k) by lia.
        exact Hkb.
      * rewrite countBusinessDays_split, Hone, <- Hnext'', Hkc. lia.
    + rewrite Hnext'', addDays_addDays. f_equal. lia.
  - assert (i = n) by lia. subst i.
    destruct fuel as [|fuel]; [discriminate|]. rewrite addBusinessDaysFrom_S in H.
    destruct (Z.leb_spec (n + 1) n) as [|_]; [lia|]. injection H as <-.
    exists (S j). split; [|exact Hnext''].
    split; [lia|]. split; [rewrite <- Hnext''; exact Hb|].
    rewrite Hone. lia.
Qed.

(** Whenever the [m]-th accepted day exists, the loop reaches it. *)
Lemma addBusinessDaysFrom_complete (n : Z) (m : nat) :
  forall (i : Z) (next : Temporal.PlainDate) (k : nat),
  Z.of_nat (S m) = n - i + 1 ->
  isNthBusinessDayAfter isBusinessDay next (Z.of_nat (S m)) k ->
  exists fuel : nat,
    addBusinessDaysFrom fuel isBusinessDay n i next
    = Some (Temporal.addDays next (Z.of_nat k)).
Proof.
  induction m as [|m IH]; intros i next k Hm (Hk1 & Hkb & Hkc).
  - destruct (countBusinessDays_first next k ltac:(lia)) as (j & Hj & Hb & Hbefore).
    destruct j as [|j]; [lia|].
    assert (Hjk : S j = k).
    { destruct (Nat.eq_dec (S j) k) as [|Hne]; [assumption|exfalso].
      replace k with (S j + (k - S j))%nat in Hkc, Hkb by lia.
      rewrite countBusinessDays_split in Hkc.
      rewrite (countBusinessDays_one next j Hb Hbefore) in Hkc.
      destruct (k - S j)%nat as [|t] eqn:Ht; [lia|].
      cbn [countBusinessDays] in Hkc. rewrite addDays_addDays in Hkc.
      replace (Z.of_nat (S j) + Z.of_nat (S t)) with (Z.of_nat (S j + S t)) in Hkc by lia.
      rewrite Hkb in Hkc.
      pose proof (countBusinessDays_bounds (Temporal.addDays next (Z.of_nat (S j))) t).
      lia. }
    subst k. exists (S (S (S j))).
    rewrite addBusinessDaysFrom_S. destruct (Z.leb_spec i n) as [_|]; [|lia].
    pose proof (skipNonBusinessDays_complete j next 1) as Hs.
    replace (1 + Z.of_nat j) with (Z.of_nat (S j)) in Hs by lia.
    rewrite (skipNonBusinessDays_mono (S j) (S (S j)) _ _ (Hs Hb ltac:(
      intros j' Hj'; replace (1 + Z.of_nat j') with (Z.of_nat (S j')) by lia;
      apply Hbefore; lia))) by lia.
    rewrite addBusinessDaysFrom_S.
    destruct (Z.leb_spec (i + 1) n) as [|_]; [lia|]. reflexivity.
  - destruct (countBusinessDays_first next k ltac:(lia)) as (j & Hj & Hb & Hbefore).
    destruct j as [|j]; [lia|].
    pose proof (countBusinessDays_one next j Hb Hbefore) as Hone.
    assert (Hlt : (S j < k)%nat).
    { destruct (Nat.eq_dec (S j) k) as [<-|Hne]; [lia|lia]. }
    set (next' := Temporal.addDays next (Z.of_nat (S j))).
    assert (Hnth : isNthBusinessDayAfter isBusinessDay next' (Z.of_nat (S m)) (k - S j)).
    { split; [lia|]. split.
      - unfold next'. rewrite addDays_addDays.
        replace (Z.of_nat (S j) + Z.of_nat (k - S j)) with (Z.of_nat k) by lia. exact Hkb.
      - replace k with (S j + (k - S j))%nat in Hkc by lia.
        rewrite countBusinessDays_split, Hone in Hkc. fold next' in Hkc. lia. }
    destruct (IH (i + 1) next' (k - S j)%nat ltac:(lia) Hnth) as (fuel & Hfuel).
    exists (S (Nat.max fuel (S j))).
    rewrite addBusinessDaysFrom_S. destruct (Z.leb_spec i n) as [_|]; [|lia].
    pose proof (skipNonBusinessDays_complete j next 1) as Hs.
    replace (1 + Z.of_nat j) with (Z.of_nat (S j)) in Hs by lia.
    rewrite (skipNonBusinessDays_mono (S j) (Nat.max fuel (S j)) _ _ (Hs Hb ltac:(
      intros j' Hj'; replace (1 + Z.of_nat j') with (Z.of_nat (S j')) by lia;
      apply Hbefore; lia))) by lia.
    fold next'.
    rewrite (addBusinessDaysFrom_mono n fuel (Nat.max fuel (S j)) _ _ _ Hfuel) by lia.
    unfold next'. rewrite addDays_addDays. f_equal. f_equal. lia.
Qed.

(** With an accepted day in every week the skip loop needs at most seven steps. *)
Lemma skipNonBusinessDays_terminates (date : Temporal.PlainDate) (a : Z) :
  acceptsOneDayInSeven isBusinessDay ->
  exists r, skipNonBusinessDays 7 isBusinessDay (Temporal.addDays date a) = Some r.
Proof.
  intro Hweek. destruct (Hweek (Temporal.addDays date a)) as (j & Hj & Hb).
  rewrite addDays_addDays in Hb.
  assert (Hex : exists j : nat, (j < 7)%nat /\
            isBusinessDay (Temporal.addDays date (a + Z.of_nat j)) = true).
  { exists (Z.to_nat j). split; [lia|]. rewrite Z2Nat.id by lia. exact Hb. }
  clear j Hj Hb.
  assert (Hgen : forall (fuel : nat) (b : Z),
            (exists j : nat, (j < fuel)%nat /\
               isBusinessDay (Temporal.addDays date (b + Z.of_nat j)) = true) ->
            exists r, skipNonBusinessDays fuel isBusinessDay (Temporal.addDays date b) = Some r).
  { induction fuel as [|fuel IH]; intros b (j & Hj & Hb); [lia|].
    rewrite skipNonBusinessDays_S.
    destruct (isBusinessDay (Temporal.addDays date b)) eqn:Hb0; cbn [negb].
    - eexists. reflexivity.
    - rewrite addDays_addDays. apply IH.
      destruct j as [|j]; [rewrite Z.add_0_r in Hb; congruence|].
      exists j. split; [lia|].
      replace (b + 1 + Z.of_nat j) with (b + Z.of_nat (S j)) by lia. exact Hb. }
  apply Hgen. exact Hex.
Qed.

Lemma addBusinessDaysFrom_terminates (n : Z) (m : nat) :
  acceptsOneDayInSeven isBusinessDay ->
  forall (i : Z) (next : Temporal.PlainDate),
  n - i + 1 <= Z.of_nat m ->
  exists r, addBusinessDaysFrom (m + 8) isBusinessDay n i next = Some r.
Proof.
  intro Hweek. induction m as [|m IH]; intros i next Hm.
  - change (0 + 8)%nat with 8%nat. rewrite addBusinessDaysFrom_S.
    destruct (Z.leb_spec i n) as [|_]; [lia|]. eexists. reflexivity.
  - change (S m + 8)%nat with (S (m + 8)). rewrite addBusinessDaysFrom_S.
    destruct (Z.leb_spec i n) as [Hi|_].
    + destruct (skipNonBusinessDays_terminates next 1 Hweek) as (next' & Hs).
      rewrite (skipNonBusinessDays_mono 7 (m + 8) _ _ Hs) by lia.
      apply IH. lia.
    + eexists. reflexivity.
Qed.

(** The [n]-th accepted day after a date is unique. *)
Lemma isNthBusinessDayAfter_later (date : Temporal.PlainDate) (n : Z) (k k' : nat) :
  isNthBusinessDayAfter isBusinessDay date n k ->
  isNthBusinessDayAfter isBusinessDay date n k' -> (k' <= k)%nat.
Proof.
  intros (_ & _ & Hc) (_ & Hb' & Hc').
  destruct (le_gt_dec k' k) as [|Hlt]; [assumption|exfalso].
  replace k' with (k + S (k' - S k))%nat in Hc', Hb' by lia.
  rewrite countBusinessDays_split in Hc'. cbn [countBusinessDays] in Hc'.
  rewrite addDays_addDays in Hc'.
  replace (Z.of_nat k + Z.of_nat (S (k' - S k))) with (Z.of_nat (k + S (k' - S k)))
    in Hc' by lia.
  rewrite Hb' in Hc'.
  pose proof (countBusinessDays_bounds (Temporal.addDays date (Z.of_nat k)) (k' - S k)).
  lia.
Qed.

Lemma isNthBusinessDayAfter_unique (date : Temporal.PlainDate) (n : Z) (k k' : nat) :
  isNthBusinessDayAfter isBusinessDay date n k ->
  isNthBusinessDayAfter isBusinessDay date n k' -> k = k'.
Proof.
  intros H H'. pose proof (isNthBusinessDayAfter_later date n k k' H H').
  pose proof (isNthBusinessDayAfter_later date n k' k H' H). lia.
Qed.

End BusinessDays.

(** A predicate that rejects every day keeps both loops running. *)
Lemma skipNonBusinessDays_rejecting (fuel : nat) :
  forall d, skipNonBusinessDays fuel (fun _ => false) d = None.
Proof. induction fuel as [|fuel IH]; intro d; [reflexivity|]. simpl. apply IH. Qed.

Lemma addBusinessDaysFrom_rejecting (fuel : nat) (n i : Z) (d : Temporal.PlainDate) :
  i <= n -> addBusinessDaysFrom fuel (fun _ => false) n i d = None.
Proof.
  intro Hi. destruct fuel as [|fuel]; [reflexivity|]. simpl.
  destruct (Z.leb_spec i n) as [_|]; [|lia].
  rewrite skipNonBusinessDays_rejecting. reflexivity.
Qed.

(** Monday to Friday accepts a day in every week. *)
Lemma defaultIsBusinessDay_weekly : acceptsOneDayInSeven defaultIsBusinessDay.
Proof.
  intro d. unfold defaultIsBusinessDay.
  set (e := Temporal.isoDateToEpochDays d).
  assert (Hcases : (e + 3) mod 7 <= 4 \/ (e + 3) mod 7 = 5 \/ (e + 3) mod 7 = 6).
  { pose proof (Z.mod_pos_bound (e + 3) 7 eq_refl). lia. }
  destruct Hcases as [H|[H|H]].
  - exists 0. split; [lia|]. rewrite dayOfWeek_addDays. fold e.
    replace (e + 0 + 3) with (e + 3) by lia.
    pose proof (Z.mod_pos_bound (e + 3) 7 eq_refl).
    apply andb_true_intro. split; [apply Z.geb_le|apply Z.leb_le]; lia.
  - exists 2. split; [lia|]. rewrite dayOfWeek_addDays. fold e.
    assert ((e + 2 + 3) mod 7 = 0) by (revert H; Z.div_mod_to_equations; lia).
    apply andb_true_intro. split; [apply Z.geb_le|apply Z.leb_le]; lia.
  - exists 1. split; [lia|]. rewrite dayOfWeek_addDays. fold e.
    assert ((e + 1 + 3) mod 7 = 0) by (revert H; Z.div_mod_to_equations; lia).
    apply andb_true_intro. split; [apply Z.geb_le|apply Z.leb_le]; lia.
Qed.

(** ** comparison *)

Lemma compareInstant_before (a b : Temporal.Instant) :
  isInstantBefore a b = true
  <-> Temporal.epochNanoseconds a < Temporal.epochNanoseconds b.
Proof.
  unfold isInstantBefore, Temporal.compareInstant.
  destruct (Z.ltb_spec (Temporal.epochNanoseconds a) (Temporal.epochNanoseconds b)) as [H|H].
  - split; [intros _; exact H|reflexivity].
  - destruct (Z.ltb_spec (Temporal.epochNanoseconds b) (Temporal.epochNanoseconds a));
      (split; [discriminate|lia]).
Qed.

(** C5.  [areIntervalsOverlapping(i1, i2)] is true exactly when [start1] is
    strictly before [end2] and [start2] strictly before [end1]; intervals
    that touch ([end1 = start2]) do not overlap.  The two examples of the
    suite are evaluated. *)
Theorem areIntervalsOverlapping_half_open :
  (forall interval1 interval2 : Interval,
     areIntervalsOverlapping interval1 interval2 = true
     <-> Temporal.epochNanoseconds (start interval1)
         < Temporal.epochNanoseconds (end_ interval2) /\
         Temporal.epochNanoseconds (start interval2)
         < Temporal.epochNanoseconds (end_ interval1))
  /\ (forall interval1 interval2 : Interval,
        end_ interval1 = start interval2 ->
        areIntervalsOverlapping interval1 interval2 = false)
  /\ areIntervalsOverlapping
       (mkInterval (instantOf "2022-07-09T20:00:00.000Z") (instantOf "2022-07-09T22:00:00.000Z"))
       (mkInterval (instantOf "2022-07-09T22:00:00.000Z") (instantOf "2022-07-10T01:00:00.000Z"))
     = false
  /\ areIntervalsOverlapping
       (mkInterval (instantOf "2022-07-09T20:00:00.000Z") (instantOf "2022-07-09T22:00:00.000Z"))
       (mkInterval (instantOf "2022-07-09T19:00:00.000Z") (instantOf "2022-07-09T20:10:00.000Z"))
     = true.
Proof.
  split; [|split; [|split]].
  - intros i1 i2. unfold areIntervalsOverlapping.
    rewrite andb_true_iff, !compareInstant_before. reflexivity.
  - intros i1 i2 Htouch. unfold areIntervalsOverlapping.
    apply andb_false_iff. right.
    destruct (isInstantBefore (start i2) (end_ i1)) eqn:Hb; [|reflexivity].
    apply compareInstant_before in Hb. rewrite Htouch in Hb. lia.
  - vm_compute. reflexivity.
  - vm_compute. reflexivity.
Qed.

Lemma comparePlainDate_eq (a b : Temporal.PlainDate) :
  Temporal.comparePlainDate a b = 0 <-> a = b.
Proof.
  unfold Temporal.comparePlainDate. destruct a as [ya ma da], b as [yb mb db].
  cbn [Temporal.year Temporal.month Temporal.day].
  destruct (Z.ltb_spec ya yb); [split; [discriminate|intros [= -> -> ->]; lia]|].
  destruct (Z.ltb_spec yb ya); [split; [discriminate|intros [= -> -> ->]; lia]|].
  destruct (Z.ltb_spec ma mb); [split; [discriminate|intros [= -> -> ->]; lia]|].
  destruct (Z.ltb_spec mb ma); [split; [discriminate|intros [= -> -> ->]; lia]|].
  destruct (Z.ltb_spec da db); [split; [discriminate|intros [= -> -> ->]; lia]|].
  destruct (Z.ltb_spec db da); [split; [discriminate|intros [= -> -> ->]; lia]|].
  split; [intros _; f_equal; lia|reflexivity].
Qed.

(** C6.  [isTomorrow(d, tz)] is [isToday(d - 1 day, tz)] and
    [isYesterday(d, tz)] is [isToday(d + 1 day, tz)], failures included;
    [isToday(d, tz)] compares [d] with [todayLocal(tz)] and holds exactly when
    the two are the same date.  With the clock mocked as in the suite,
    2022-07-10 is tomorrow at 02:00 UTC on 2022-07-09 (in UTC and in London)
    and 2022-07-09 is not; 2022-07-08 is yesterday at 20:00 UTC. *)
Theorem isTomorrow_isYesterday_shift_the_date :
  (forall (h : Host) (t : nat) (d : Temporal.PlainDate) (tz : string),
     isTomorrow h t d tz = isToday h t (Temporal.subtractDays d 1) tz /\
     isYesterday h t d tz = isToday h t (Temporal.addDays d 1) tz /\
     isToday h t d tz
     = JS.map (fun today => Temporal.comparePlainDate d today =? 0) (todayLocal h t tz) /\
     (forall today, todayLocal h t tz = JS.Ok today ->
        (isToday h t d tz = JS.Ok true <-> Temporal.comparePlainDate d today = 0) /\
        (isToday h t d tz = JS.Ok true <-> d = today)) /\
     (forall e, todayLocal h t tz = JS.Throw e -> isToday h t d tz = JS.Throw e))
  /\ isTomorrow (TestHost.mocked (instantOf "2022-07-09T02:00:00.000Z")) 0
       (Temporal.mkPlainDate 2022 7 10) "UTC" = JS.Ok true
  /\ isTomorrow (TestHost.mocked (instantOf "2022-07-09T02:00:00.000Z")) 0
       (Temporal.mkPlainDate 2022 7 10) "Europe/London" = JS.Ok true
  /\ isTomorrow (TestHost.mocked (instantOf "2022-07-09T02:00:00.000Z")) 0
       (Temporal.mkPlainDate 2022 7 9) "UTC" = JS.Ok false
  /\ isYesterday (TestHost.mocked (instantOf "2022-07-09T20:00:00.000Z")) 0
       (Temporal.mkPlainDate 2022 7 8) "Europe/London" = JS.Ok true.
Proof.
  split; [|split; [|split; [|split]]]; [|vm_compute; reflexivity..].
  intros h t d tz.
  split; [reflexivity|]. split; [reflexivity|]. split; [reflexivity|]. split.
  - intros today Htoday. unfold isToday. rewrite Htoday. cbn [JS.bind].
    assert (Hcmp : JS.Ok (Temporal.comparePlainDate d today =? 0) = JS.Ok true
                   <-> Temporal.comparePlainDate d today = 0).
    { split.
      - intros [= H]. apply Z.eqb_eq. exact H.
      - intro H. rewrite H. reflexivity. }
    split; [exact Hcmp|]. rewrite Hcmp. apply comparePlainDate_eq.
  - intros e He. unfold isToday. rewrite He. reflexivity.
Qed.

(** ** conversion *)

Lemma resolveTimeZone_UTC (db : Temporal.TimeZoneDatabase) :
  Temporal.resolveTimeZone db "UTC" = JS.Ok Temporal.utcRules.
Proof. reflexivity. Qed.


(** C4, as the code has it.  [toJSDateUTC] keeps the epoch offset in whole
    milliseconds, rounded down: [toInstant(toJSDateUTC(i))] is [i] with its
    sub-millisecond part removed, and is [i] exactly when [i] is a whole
    number of milliseconds.  The same holds for the instant of a zoned
    date-time.  In the other direction nothing is lost:
    [toJSDateUTC(toInstant(date))] is [date].  The instant
    2022-05-05T10:12:13Z becomes the [Date] 1651745533000. *)
Theorem toJSDateUTC_keeps_whole_milliseconds :
  (forall i : Temporal.Instant,
     Temporal.epochNanoseconds (toInstant (toJSDateUTC (inr i)))
     = Temporal.epochNanoseconds i - Temporal.epochNanoseconds i mod 1000000 /\
     (toInstant (toJSDateUTC (inr i)) = i
      <-> Temporal.epochNanoseconds i mod 1000000 = 0))
  /\ (forall z : Temporal.ZonedDateTime,
        toJSDateUTC (inl z) = toJSDateUTC (inr (Temporal.zonedInstant z)) /\
        JS.getTime (toJSDateUTC (inl z))
        = Temporal.epochNanoseconds (Temporal.zonedInstant z) / 1000000)
  /\ (forall date : JS.Date, toJSDateUTC (inr (toInstant date)) = date)
  /\ toJSDateUTC (inr (instantOf "2022-05-05T10:12:13Z")) = JS.mkDate 1651745533000.
Proof.
  split; [|split; [|split]]; [| | |vm_compute; reflexivity].
  - intro i. destruct i as [ns].
    unfold toInstant, toJSDateUTC, epochMillisecondsOf, Temporal.fromEpochMilliseconds,
      Temporal.epochMilliseconds. cbn [JS.getTime Temporal.epochNanoseconds].
    pose proof (Z.div_mod ns 1000000 ltac:(lia)) as Hdm.
    split; [lia|]. split.
    + intros [= H]. lia.
    + intro H. f_equal. lia.
  - intro z. split; reflexivity.
  - intros [ms]. unfold toInstant, toJSDateUTC, epochMillisecondsOf,
      Temporal.fromEpochMilliseconds, Temporal.epochMilliseconds.
    cbn [JS.getTime Temporal.epochNanoseconds]. f_equal. apply Z.div_mul. lia.
Qed.

(** C4 as stated fails: the instant one nanosecond after the epoch comes back
    as the epoch itself. *)
Lemma toJSDateUTC_loses_a_nanosecond :
  Temporal.isValidEpochNanoseconds 1 = true /\
  toInstant (toJSDateUTC (inr (Temporal.mkInstant 1))) = Temporal.mkInstant 0 /\
  Temporal.equalsInstant (toInstant (toJSDateUTC (inr (Temporal.mkInstant 1))))
                         (Temporal.mkInstant 1) = false.
Proof. repeat split. Qed.

(** ** parsing *)

Lemma parseOptional_counterpart (A : Type) (parse : string -> JS.Result A) :
  optionalCounterpart (parseOptional parse) parse.
Proof.
  unfold optionalCounterpart, parseOptional.
  repeat split; try reflexivity.
  - intros [|c s] Hs; [congruence|reflexivity].
  - intros [|c s] v Hs Hv; [congruence|]. cbn [JS.notString]. rewrite Hv. reflexivity.
  - intros [|c s] e Hs He; [congruence|]. cbn [JS.notString]. rewrite He. reflexivity.
Qed.

(** C8.  Each optional parser returns [undefined] for [null], [undefined]
    and the empty string, and for any other string exactly what its base
    parser returns: the parsed value, or the base parser's failure.  A
    malformed non-empty string fails through the optional parser too. *)
Theorem optional_parsers_recover_only_absence :
  optionalCounterpart parseOptionalPlainDate parsePlainDate /\
  optionalCounterpart parseOptionalPlainDateTime parsePlainDateTime /\
  (forall h, optionalCounterpart (parseOptionalZonedDateTime h) (parseZonedDateTime h)) /\
  optionalCounterpart parseOptionalInstant parseInstant /\
  optionalCounterpart parseOptionalPlainTime parsePlainTime /\
  parseOptionalPlainDate (JS.Val "invalid-date"%string) = JS.Throw JS.RangeError /\
  parseOptionalPlainDate (JS.Val "2024-03-20"%string)
  = JS.Ok (Some (Temporal.mkPlainDate 2024 3 20)) /\
  parseOptionalInstant (JS.Val "invalid-instant"%string) = JS.Throw JS.RangeError.
Proof.
  split; [apply parseOptional_counterpart|].
  split; [apply parseOptional_counterpart|].
  split; [intro h; apply parseOptional_counterpart|].
  split; [apply parseOptional_counterpart|].
  split; [apply parseOptional_counterpart|].
  split; [vm_compute; reflexivity|].
  split; vm_compute; reflexivity.
Qed.

(** ** formatting: relative time *)

Lemma nowLocal_UTC (h : Host) (t : nat) :
  nowLocal h t "UTC"
  = JS.Ok (Temporal.mkZonedDateTime (now h t) "UTC" Temporal.utcRules).
Proof. reflexivity. Qed.

(** [Math.trunc] rounds toward zero: down for a positive number, up for a
    negative one. *)
Lemma Math_trunc_toward_zero (q : Q) :
  ((0 <= q)%Q -> JS.Math_trunc q = Qfloor q) /\
  ((q <= 0)%Q -> JS.Math_trunc q = Qceiling q).
Proof.
  destruct q as [n d]. unfold JS.Math_trunc, Qceiling, Qfloor, Qle, Qopp.
  cbn [Qnum Qden]. split; intro H.
  - apply Z.quot_div_nonneg; lia.
  - rewrite <- (Z.opp_involutive n) at 1. rewrite Z.quot_opp_l by lia.
    f_equal. apply Z.quot_div_nonneg; lia.
Qed.

(** [instant.since(other)] is the elapsed time [instant - other]. *)
Lemma since_elapsed (i other : Temporal.Instant) :
  Temporal.timeDurationNanoseconds (Temporal.since i other)
  = Temporal.epochNanoseconds i - Temporal.epochNanoseconds other.
Proof.
  unfold Temporal.timeDurationNanoseconds, Temporal.since, Temporal.nsPerSecond.
  cbn [Temporal.durationHours Temporal.durationMinutes Temporal.durationSeconds
       Temporal.durationMilliseconds Temporal.durationMicroseconds
       Temporal.durationNanoseconds].
  set (diff := Temporal.epochNanoseconds i - Temporal.epochNanoseconds other).
  pose proof (Z.quot_rem' diff 1000000000) as H1.
  pose proof (Z.quot_rem' (Z.rem diff 1000000000) 1000000) as H2.
  pose proof (Z.quot_rem' (Z.rem (Z.rem diff 1000000000) 1000000) 1000) as H3.
  lia.
Qed.

Section RelativeUnitsWith.
Variable total : DurationTotal.
Variable h : Host.
Variables format formatNumeric : Intl.RelativeTimeFormat.
Variable duration : Temporal.Duration.

(** Over any [duration.total], the loop returns at the first unit whose
    truncated total is not zero, falls through to the zero-seconds phrase
    when there is none, and passes on the error of [duration.total] when it
    throws before that. *)
Lemma formatRelativeUnitsWith_cascade (us : list Temporal.Unit) :
  forall t : nat,
  (exists pre u post d,
      us = pre ++ u :: post /\
      (forall k v, nth_error pre k = Some v ->
         truncatedTotalWith total h duration (t + k) v = JS.Ok 0) /\
      truncatedTotalWith total h duration (t + List.length pre) u = JS.Ok d /\
      d <> 0 /\
      formatRelativeUnitsWith total h format formatNumeric duration t us
      = JS.Ok (format d u))
  \/ ((forall k v, nth_error us k = Some v ->
         truncatedTotalWith total h duration (t + k) v = JS.Ok 0) /\
      formatRelativeUnitsWith total h format formatNumeric duration t us
      = JS.Ok (formatNumeric 0 Temporal.seconds))
  \/ (exists pre u post e,
      us = pre ++ u :: post /\
      (forall k v, nth_error pre k = Some v ->
         truncatedTotalWith total h duration (t + k) v = JS.Ok 0) /\
      truncatedTotalWith total h duration (t + List.length pre) u = JS.Throw e /\
      formatRelativeUnitsWith total h format formatNumeric duration t us = JS.Throw e).
Proof.
  induction us as [|unit rest IH]; intro t.
  - right. left. split; [|reflexivity]. intros [|k] v Hk; discriminate.
  - cbn [formatRelativeUnitsWith]. rewrite nowLocal_UTC. cbn [JS.bind].
    assert (Hshift : forall pre : list Temporal.Unit,
              truncatedTotalWith total h duration t unit = JS.Ok 0 ->
              (forall k v, nth_error pre k = Some v ->
                 truncatedTotalWith total h duration (S t + k) v = JS.Ok 0) ->
              forall k v, nth_error (unit :: pre) k = Some v ->
                truncatedTotalWith total h duration (t + k) v = JS.Ok 0).
    { intros pre H0 Hpre [|k] v Hk.
      - injection Hk as <-. rewrite Nat.add_0_r. exact H0.
      - replace (t + S k)%nat with (S t + k)%nat by lia. apply Hpre. exact Hk. }
    destruct (total duration unit
                (Temporal.mkZonedDateTime (now h t) "UTC" Temporal.utcRules))
      as [num|e] eqn:Htotal.
    + cbn [JS.bind].
      assert (Hnum : truncatedTotalWith total h duration t unit
                     = JS.Ok (JS.Math_trunc num)).
      { unfold truncatedTotalWith. rewrite Htotal. reflexivity. }
      destruct (Z.eqb_spec (JS.Math_trunc num) 0) as [Hz|Hnz]; cbn [negb].
      * rewrite Hz in Hnum.
        destruct (IH (S t)) as [(pre & u & post & d & Hus & Hpre & Hu & Hd & Hres)
                               |[(Hall & Hres)
                                |(pre & u & post & e & Hus & Hpre & Hu & Hres)]].
        -- left. exists (unit :: pre), u, post, d.
           split; [rewrite Hus; reflexivity|].
           split; [apply (Hshift pre Hnum Hpre)|].
           cbn [List.length].
           replace (t + S (List.length pre))%nat with (S t + List.length pre)%nat by lia.
           split; [exact Hu|]. split; [exact Hd|exact Hres].
        -- right. left. split; [|exact Hres].
           apply (Hshift rest Hnum Hall).
        -- right. right. exists (unit :: pre), u, post, e.
           split; [rewrite Hus; reflexivity|].
           split; [apply (Hshift pre Hnum Hpre)|].
           cbn [List.length].
           replace (t + S (List.length pre))%nat with (S t + List.length pre)%nat by lia.
           split; [exact Hu|exact Hres].
      * left. exists [], unit, rest, (JS.Math_trunc num).
        split; [reflexivity|]. split; [intros [|k] v Hk; discriminate|].
        cbn [List.length]. rewrite Nat.add_0_r.
        split; [exact Hnum|]. split; [exact Hnz|reflexivity].
    + cbn [JS.bind]. right. right. exists [], unit, rest, e.
      split; [reflexivity|]. split; [intros [|k] v Hk; discriminate|].
      cbn [List.length]. rewrite Nat.add_0_r.
      split; [|reflexivity]. unfold truncatedTotalWith. rewrite Htotal. reflexivity.
Qed.

End RelativeUnitsWith.

(** With the model of [duration.total] the loop is the one of
    [formatRelativeInstant] above. *)
Lemma formatRelativeUnits_modelTotal (h : Host)
    (format formatNumeric : Intl.RelativeTimeFormat) (duration : Temporal.Duration)
    (us : list Temporal.Unit) :
  forall t : nat,
  formatRelativeUnits h format formatNumeric duration t us
  = formatRelativeUnitsWith modelTotal h format formatNumeric duration t us.
Proof.
  induction us as [|unit rest IH]; intro t; [reflexivity|].
  cbn [formatRelativeUnits formatRelativeUnitsWith]. rewrite nowLocal_UTC.
  unfold modelTotal at 1. cbn [JS.bind]. rewrite IH. reflexivity.
Qed.

Lemma formatRelativeInstant_modelTotal (h : Host) (t : nat) (i : Temporal.Instant) :
  formatRelativeInstant h t i = formatRelativeInstantWith modelTotal h t i.
Proof.
  unfold formatRelativeInstant, formatRelativeInstantWith.
  destruct (rtf h); [|reflexivity]. destruct (rtfNumeric h); [|reflexivity].
  apply formatRelativeUnits_modelTotal.
Qed.

(** C1, as the code has it.  On a host with [Intl.RelativeTimeFormat],
    [formatRelativeInstant(i)] takes [duration = i - now()], walks the units
    years, months, weeks, days, hours, minutes, seconds in that order,
    truncates [duration.total(unit)] toward zero ([Math.trunc], which
    differs from [Math.floor] on -0.3), and renders the first unit whose
    truncated total is not zero with the [numeric: "always"] formatter; when
    every unit truncates to zero it renders zero seconds with the
    [numeric: "auto"] formatter.  This holds
    over whatever [duration.total] returns; when it throws at a unit that the
    walk reaches, the error is passed on.  Without [Intl.RelativeTimeFormat]
    the function throws.  With the clock at 2022-05-05T10:12:13Z on the
    English test host, and the model of [duration.total], the three examples
    give "2 days ago", "in 9 seconds" and "now". *)
Theorem formatRelativeInstant_first_nonzero_unit :
  units = [Temporal.years; Temporal.months; Temporal.weeks; Temporal.days;
           Temporal.hours; Temporal.minutes; Temporal.seconds]
  /\ (forall q : Q,
        ((0 <= q)%Q -> JS.Math_trunc q = Qfloor q) /\
        ((q <= 0)%Q -> JS.Math_trunc q = Qceiling q))
  /\ (JS.Math_trunc (-3 # 10) = 0 /\ JS.Math_floor (-3 # 10) = -1)
  /\ (forall (total : DurationTotal) (h : Host) (t : nat) (i : Temporal.Instant) make,
        Intl_RelativeTimeFormat h = Some make ->
        Temporal.timeDurationNanoseconds (Temporal.since i (now h t))
        = Temporal.epochNanoseconds i - Temporal.epochNanoseconds (now h t) /\
        ((exists pre u post d,
            units = pre ++ u :: post /\
            (forall k v, nth_error pre k = Some v ->
               truncatedTotalWith total h (Temporal.since i (now h t)) (S t + k) v
               = JS.Ok 0) /\
            truncatedTotalWith total h (Temporal.since i (now h t))
              (S t + List.length pre) u = JS.Ok d /\
            d <> 0 /\
            formatRelativeInstantWith total h t i = JS.Ok (make None Intl.always d u))
         \/ ((forall k v, nth_error units k = Some v ->
                truncatedTotalWith total h (Temporal.since i (now h t)) (S t + k) v
                = JS.Ok 0) /\
             formatRelativeInstantWith total h t i
             = JS.Ok (make None Intl.auto 0 Temporal.seconds))
         \/ (exists pre u post e,
            units = pre ++ u :: post /\
            (forall k v, nth_error pre k = Some v ->
               truncatedTotalWith total h (Temporal.since i (now h t)) (S t + k) v
               = JS.Ok 0) /\
            truncatedTotalWith total h (Temporal.since i (now h t))
              (S t + List.length pre) u = JS.Throw e /\
            formatRelativeInstantWith total h t i = JS.Throw e)))
  /\ (forall (total : DurationTotal) (h : Host) (t : nat) (i : Temporal.Instant),
        Intl_RelativeTimeFormat h = None ->
        formatRelativeInstantWith total h t i
        = JS.Throw
            (JS.PlainError "Intl.RelativeTimeFormat is not supported in this environment"))
  /\ (forall (h : Host) (t : nat) (i : Temporal.Instant),
        formatRelativeInstant h t i = formatRelativeInstantWith modelTotal h t i)
  /\ formatRelativeIso8601DateTimeStr (TestHost.mocked TestHost.now_2022_05_05) 0
       "2022-05-03T10:12:13Z" = JS.Ok "2 days ago"%string
  /\ formatRelativeIso8601DateTimeStr (TestHost.mocked TestHost.now_2022_05_05) 0
       "2022-05-05T10:12:22Z" = JS.Ok "in 9 seconds"%string
  /\ formatRelativeIso8601DateTimeStr (TestHost.mocked TestHost.now_2022_05_05) 0
       "2022-05-05T10:12:13Z" = JS.Ok "now"%string.
Proof.
  split; [reflexivity|].
  split; [exact Math_trunc_toward_zero|].
  split; [split; reflexivity|].
  split; [|split; [|split; [|split; [|split]]]].
  - intros total h t i make Hmake. split; [apply since_elapsed|].
    unfold formatRelativeInstantWith, rtf, rtfNumeric. rewrite Hmake. cbn [option_map].
    apply formatRelativeUnitsWith_cascade.
  - intros total h t i Hnone. unfold formatRelativeInstantWith, rtf, rtfNumeric.
    rewrite Hnone. reflexivity.
  - exact formatRelativeInstant_modelTotal.
  - vm_compute. reflexivity.
  - vm_compute. reflexivity.
  - vm_compute. reflexivity.
Qed.

(** C1 as stated fails where the function throws instead of rendering: on a
    host without [Intl.RelativeTimeFormat], for the first instant of the
    claim's own examples; and with a [duration.total] that throws, as the
    library's does with a RangeError for the last instant of its range. *)
Lemma formatRelativeInstant_throws_instead_of_rendering :
  formatRelativeInstant (TestHost.withoutRelativeTimeFormat TestHost.now_2022_05_05) 0
    (instantOf "2022-05-03T10:12:13Z")
  = JS.Throw (JS.PlainError "Intl.RelativeTimeFormat is not supported in this environment")
  /\ formatRelativeInstantWith failingTotal (TestHost.mocked TestHost.now_2022_05_05) 0
       (Temporal.mkInstant Temporal.nsMaxInstant)
     = JS.Throw JS.RangeError.
Proof. split; reflexivity. Qed.

(** ** formatting: date ranges *)







(** ** Text: digits and fixed-width numbers *)

Lemma append_assoc (a b c : string) : ((a ++ b) ++ c = a ++ (b ++ c))%string.
Proof. induction a as [|x a IH]; [reflexivity|]. cbn [append]. rewrite IH. reflexivity. Qed.

Lemma append_nil_r (a : string) : (a ++ "")%string = a.
Proof. induction a as [|x a IH]; [reflexivity|]. cbn [append]. rewrite IH. reflexivity. Qed.

Lemma digit_cases (d : Z) :
  0 <= d <= 9 ->
  d = 0 \/ d = 1 \/ d = 2 \/ d = 3 \/ d = 4 \/ d = 5 \/ d = 6 \/ d = 7 \/ d = 8 \/ d = 9.
Proof. lia. Qed.

Lemma digitChar_isDigit (d : Z) : 0 <= d <= 9 -> Text.isDigit (Text.digitChar d) = true.
Proof.
  intro H. destruct (digit_cases d H) as [->|[->|[->|[->|[->|[->|[->|[->|[->| ->]]]]]]]]];
    reflexivity.
Qed.

Lemma digitValue_digitChar (d : Z) : 0 <= d <= 9 -> Text.digitValue (Text.digitChar d) = d.
Proof.
  intro H. destruct (digit_cases d H) as [->|[->|[->|[->|[->|[->|[->|[->|[->| ->]]]]]]]]];
    reflexivity.
Qed.

Lemma isDigit_range (c : ascii) :
  Text.isDigit c = true -> (48 <= nat_of_ascii c <= 57)%nat.
Proof.
  unfold Text.isDigit. intro H. apply andb_prop in H. destruct H as [H1 H2].
  apply Nat.leb_le in H1. apply Nat.leb_le in H2. lia.
Qed.


(** A digit is none of the punctuation marks of the grammar. *)
Lemma isDigit_not_mark (c mark : ascii) :
  Text.isDigit c = true -> (nat_of_ascii mark < 48 \/ 57 < nat_of_ascii mark)%nat ->
  Ascii.eqb c mark = false.
Proof.
  intros Hc Hmark. apply isDigit_range in Hc. apply Ascii.eqb_neq. intros ->. lia.
Qed.

Lemma pow10_pos (n : nat) : 0 < 10 ^ Z.of_nat n.
Proof. apply Z.pow_pos_nonneg; lia. Qed.

Lemma pow10_succ (n : nat) : 10 ^ Z.of_nat (S n) = 10 ^ Z.of_nat n * 10.
Proof. rewrite Nat2Z.inj_succ, Z.pow_succ_r by lia. lia. Qed.

Lemma readDigits_padDigits (n : nat) :
  forall (acc v : Z) (rest : string),
  0 <= v ->
  Text.readDigits n acc (Text.padDigits n v ++ rest)
  = Some (acc * 10 ^ Z.of_nat n + v mod 10 ^ Z.of_nat n, rest).
Proof.
  induction n as [|n IH]; intros acc v rest Hv.
  - cbn [Text.readDigits Text.padDigits append]. f_equal. f_equal.
    change (10 ^ Z.of_nat 0) with 1. rewrite Z.mod_1_r. lia.
  - cbn [Text.readDigits Text.padDigits append].
    pose proof (pow10_pos n) as Hp.
    assert (Hd : 0 <= v / 10 ^ Z.of_nat n mod 10 <= 9)
      by (pose proof (Z.mod_pos_bound (v / 10 ^ Z.of_nat n) 10 ltac:(lia)); lia).
    rewrite (digitChar_isDigit _ Hd), (digitValue_digitChar _ Hd), IH by exact Hv.
    f_equal. f_equal. rewrite pow10_succ.
    rewrite (Z.rem_mul_r v (10 ^ Z.of_nat n) 10) by lia. lia.
Qed.

Lemma readDigits_padDigits_exact (n : nat) (v : Z) (rest : string) :
  0 <= v < 10 ^ Z.of_nat n ->
  Text.readDigits n 0 (Text.padDigits n v ++ rest) = Some (v, rest).
Proof.
  intro Hv. rewrite readDigits_padDigits by lia. rewrite Z.mod_small by lia.
  reflexivity.
Qed.


Lemma readFraction_formatFraction (k : nat) :
  forall (v : Z) (rest : string),
  0 <= v < 10 ^ Z.of_nat k -> Text.startsWithDigit rest = false ->
  Text.readFraction k (Text.formatFraction k v ++ rest) = (v, rest).
Proof.
  induction k as [|k IH]; intros v rest Hv Hrest.
  - change (10 ^ Z.of_nat 0) with 1 in Hv. assert (v = 0) by lia. subst v. reflexivity.
  - cbn [Text.formatFraction]. destruct (Z.eqb_spec v 0) as [->|Hnz].
    + cbn [append Text.readFraction]. destruct rest as [|c rest]; [reflexivity|].
      cbn [Text.startsWithDigit] in Hrest. rewrite Hrest. reflexivity.
    + cbn [append Text.readFraction]. pose proof (pow10_pos k) as Hp.
      rewrite pow10_succ in Hv.
      assert (Hd : 0 <= v / 10 ^ Z.of_nat k <= 9).
      { split; [apply Z.div_pos; lia|].
        assert (v / 10 ^ Z.of_nat k < 10); [|lia].
        apply Z.div_lt_upper_bound; lia. }
      rewrite (digitChar_isDigit _ Hd), (digitValue_digitChar _ Hd).
      rewrite IH; [|apply Z.mod_pos_bound; lia|exact Hrest].
      f_equal. pose proof (Z.div_mod v (10 ^ Z.of_nat k) ltac:(lia)). lia.
Qed.


Lemma formatFraction_startsWithDigit (v : Z) (rest : string) :
  0 < v < 1000000000 ->
  Text.startsWithDigit (Text.formatFraction 9 v ++ rest) = true.
Proof.
  intro Hv. change 9%nat with (S 8). cbn [Text.formatFraction].
  destruct (Z.eqb_spec v 0); [lia|]. cbn [append Text.startsWithDigit].
  apply digitChar_isDigit. change (10 ^ Z.of_nat 8) with 100000000.
  split; [apply Z.div_pos; lia|].
  assert (v / 100000000 < 10); [apply Z.div_lt_upper_bound; lia|lia].
Qed.

(** ** ISO 8601 text: dates *)

Lemma expect_cons (c : ascii) (rest : string) : Text.expect c (String c rest) = Some rest.
Proof. cbn [Text.expect]. rewrite Ascii.eqb_refl. reflexivity. Qed.

Lemma padDigits_S (n : nat) (v : Z) :
  Text.padDigits (S n) v
  = String (Text.digitChar (v / 10 ^ Z.of_nat n mod 10)) (Text.padDigits n v).
Proof. reflexivity. Qed.

Lemma parseYear_digits (c : ascii) (s : string) :
  Text.isDigit c = true ->
  Temporal.parseYear (String c s) = Text.readDigits 4 0 (String c s).
Proof.
  intro Hc. unfold Temporal.parseYear.
  rewrite (isDigit_not_mark c "+" Hc), (isDigit_not_mark c "-" Hc); [reflexivity| |];
    left; cbn; lia.
Qed.

Lemma parseYear_formatYear (y : Z) (rest : string) :
  -999999 <= y <= 999999 ->
  Temporal.parseYear (Temporal.formatYear y ++ rest) = Some (y, rest).
Proof.
  intro Hy. unfold Temporal.formatYear.
  destruct (Z.leb_spec 0 y) as [H0|H0]; cbn [andb].
  - destruct (Z.leb_spec y 9999) as [H1|H1].
    + rewrite padDigits_S. cbn [append]. rewrite parseYear_digits.
      * change (String (Text.digitChar (y / 10 ^ Z.of_nat 3 mod 10))
                       (Text.padDigits 3 y ++ rest))
          with (Text.padDigits 4 y ++ rest)%string.
        apply readDigits_padDigits_exact. change (10 ^ Z.of_nat 4) with 10000. lia.
      * apply digitChar_isDigit.
        pose proof (Z.mod_pos_bound (y / 10 ^ Z.of_nat 3) 10 ltac:(lia)). lia.
    + destruct (Z.ltb_spec y 0) as [|_]; [lia|].
      cbn [append]. unfold Temporal.parseYear.
      change (Ascii.eqb "+" "+") with true. cbv iota.
      rewrite readDigits_padDigits_exact by (change (10 ^ Z.of_nat 6) with 1000000; lia).
      f_equal. f_equal. lia.
  - destruct (Z.ltb_spec y 0) as [_|]; [|lia].
    cbn [append]. unfold Temporal.parseYear.
    change (Ascii.eqb "-" "+") with false. change (Ascii.eqb "-" "-") with true. cbv iota.
    rewrite readDigits_padDigits_exact by (change (10 ^ Z.of_nat 6) with 1000000; lia).
    destruct (Z.eqb_spec (Z.abs y) 0); [lia|]. f_equal. f_equal. lia.
Qed.


Lemma ISODaysInMonth_le_31 (y m : Z) : Temporal.ISODaysInMonth y m <= 31.
Proof.
  unfold Temporal.ISODaysInMonth.
  destruct (m =? 2); [destruct (Temporal.isLeapYear y); lia|].
  destruct ((m =? 4) || (m =? 6) || (m =? 9) || (m =? 11)); lia.
Qed.

Lemma isValidISODate_fields (d : Temporal.PlainDate) :
  Temporal.isValidISODate d = true ->
  1 <= Temporal.month d <= 12 /\ 1 <= Temporal.day d <= 31.
Proof.
  unfold Temporal.isValidISODate. intro H.
  repeat (apply andb_prop in H; destruct H as [H ?]).
  pose proof (ISODaysInMonth_le_31 (Temporal.year d) (Temporal.month d)). lia.
Qed.

Lemma formatDateFields_rest (d : Temporal.PlainDate) (rest : string) :
  (Temporal.formatDateFields d ++ rest)%string
  = (Temporal.formatYear (Temporal.year d)
     ++ String "-" (Text.padDigits 2 (Temporal.month d)
     ++ String "-" (Text.padDigits 2 (Temporal.day d) ++ rest)))%string.
Proof.
  unfold Temporal.formatDateFields. rewrite !append_assoc. reflexivity.
Qed.

(** A valid date with a year of at most six digits is read back from its text. *)
Lemma parseDateFields_formatDateFields (d : Temporal.PlainDate) (rest : string) :
  Temporal.isValidISODate d = true -> -999999 <= Temporal.year d <= 999999 ->
  Temporal.parseDateFields (Temporal.formatDateFields d ++ rest) = Some (d, rest).
Proof.
  intros Hvalid Hyear. pose proof (isValidISODate_fields d Hvalid) as [Hm Hd].
  rewrite formatDateFields_rest. unfold Temporal.parseDateFields.
  rewrite parseYear_formatYear by exact Hyear. rewrite expect_cons.
  rewrite readDigits_padDigits_exact by (change (10 ^ Z.of_nat 2) with 100; lia).
  rewrite expect_cons.
  rewrite readDigits_padDigits_exact by (change (10 ^ Z.of_nat 2) with 100; lia).
  destruct d as [y m dd]. cbn [Temporal.year Temporal.month Temporal.day] in *.
  rewrite Hvalid. reflexivity.
Qed.


(** ** ISO 8601 text: times *)

Lemma isValidTime_fields (t : Temporal.PlainTime) :
  Temporal.isValidTime t = true ->
  0 <= Temporal.hour t <= 23 /\ 0 <= Temporal.minute t <= 59 /\
  0 <= Temporal.second t <= 59 /\ 0 <= Temporal.subsecond t < 1000000000.
Proof.
  unfold Temporal.isValidTime. intro H.
  repeat (apply andb_prop in H; destruct H as [H ?]). lia.
Qed.



(** A time to the minute is read back as that minute. *)
Lemma parseTimeFields_formatTimeToMinute (t : Temporal.PlainTime) :
  Temporal.isValidTime t = true ->
  Temporal.parseTimeFields (Temporal.formatTimeToMinute t)
  = Some (timeToMinute t, EmptyString).
Proof.
  intro Hvalid. destruct (isValidTime_fields t Hvalid) as (Hh & Hm & _ & _).
  unfold Temporal.formatTimeToMinute, Temporal.parseTimeFields.
  rewrite readDigits_padDigits_exact by (change (10 ^ Z.of_nat 2) with 100; lia).
  cbn [append]. rewrite expect_cons.
  rewrite <- (append_nil_r (Text.padDigits 2 (Temporal.minute t))).
  rewrite readDigits_padDigits_exact by (change (10 ^ Z.of_nat 2) with 100; lia).
  cbn [Temporal.parseSeconds].
  destruct (Z.leb_spec (Temporal.hour t) 23); [|lia].
  destruct (Z.leb_spec (Temporal.minute t) 59); [|lia].
  reflexivity.
Qed.

Lemma formatTimeFull_rest (t : Temporal.PlainTime) (rest : string) :
  (Temporal.formatTimeFull t ++ rest)%string
  = (Text.padDigits 2 (Temporal.hour t)
     ++ String ":" (Text.padDigits 2 (Temporal.minute t)
     ++ String ":" (Text.padDigits 2 (Temporal.second t)
     ++ ((if (Temporal.subsecond t =? 0)%Z then EmptyString
          else String "." (Text.formatFraction 9 (Temporal.subsecond t))) ++ rest))))%string.
Proof.
  unfold Temporal.formatTimeFull, Temporal.formatTimeToMinute.
  rewrite !append_assoc. reflexivity.
Qed.

(** A time with its seconds and fraction is read back whole. *)
Lemma parseTimeFields_formatTimeFull (t : Temporal.PlainTime) :
  Temporal.isValidTime t = true ->
  Temporal.parseTimeFields (Temporal.formatTimeFull t ++ "Z") = Some (t, "Z"%string).
Proof.
  intro Hvalid. destruct (isValidTime_fields t Hvalid) as (Hh & Hm & Hs & Hf).
  rewrite formatTimeFull_rest. unfold Temporal.parseTimeFields.
  rewrite readDigits_padDigits_exact by (change (10 ^ Z.of_nat 2) with 100; lia).
  rewrite expect_cons.
  rewrite readDigits_padDigits_exact by (change (10 ^ Z.of_nat 2) with 100; lia).
  assert (Hsec : Temporal.parseSeconds
            (String ":" (Text.padDigits 2 (Temporal.second t)
               ++ ((if (Temporal.subsecond t =? 0)%Z then EmptyString
                    else String "." (Text.formatFraction 9 (Temporal.subsecond t))) ++ "Z")))
          = Some (Temporal.second t, Temporal.subsecond t, "Z"%string)).
  { cbn [Temporal.parseSeconds].
    rewrite readDigits_padDigits_exact by (change (10 ^ Z.of_nat 2) with 100; lia).
    destruct (Z.ltb_spec 60 (Temporal.second t)); [lia|].
    destruct (Z.eqb_spec (Temporal.second t) 60); [lia|].
    destruct (Z.eqb_spec (Temporal.subsecond t) 0) as [H0|H0].
    - rewrite H0. reflexivity.
    - cbn [append].
      rewrite formatFraction_startsWithDigit by lia.
      rewrite readFraction_formatFraction;
        [reflexivity|change (10 ^ Z.of_nat 9) with 1000000000; lia|reflexivity]. }
  rewrite Hsec.
  destruct (Z.leb_spec (Temporal.hour t) 23); [|lia].
  destruct (Z.leb_spec (Temporal.minute t) 59); [|lia].
  destruct t. reflexivity.
Qed.


(** ** Round trips through the ISO 8601 text *)


Lemma parsePlainDate_formatPlainDate (d : Temporal.PlainDate) :
  Temporal.isValidISODate d = true -> -999999 <= Temporal.year d <= 999999 ->
  Temporal.isoDateWithinLimits d = true ->
  parsePlainDate (formatPlainDate d) = JS.Ok d.
Proof.
  intros Hv Hy Hl.
  unfold parsePlainDate, formatPlainDate, Temporal.PlainDate_from, Temporal.PlainDate_toString.
  rewrite <- (append_nil_r (Temporal.formatDateFields d)).
  rewrite parseDateFields_formatDateFields by assumption.
  cbv beta iota. rewrite Hl. reflexivity.
Qed.


Lemma parsePlainTime_formatPlainTime (t : Temporal.PlainTime) :
  Temporal.isValidTime t = true ->
  parsePlainTime (formatPlainTime t) = JS.Ok (timeToMinute t).
Proof.
  intro Hv.
  unfold parsePlainTime, formatPlainTime, Temporal.PlainTime_from,
    Temporal.PlainTime_toString_minute.
  rewrite parseTimeFields_formatTimeToMinute by exact Hv. reflexivity.
Qed.


Lemma parsePlainDateTime_formatPlainDateTime (dt : Temporal.PlainDateTime) :
  Temporal.isValidISODate (Temporal.date dt) = true ->
  -999999 <= Temporal.year (Temporal.date dt) <= 999999 ->
  Temporal.isoDateWithinLimits (Temporal.date dt) = true ->
  Temporal.isValidTime (Temporal.time dt) = true ->
  parsePlainDateTime (formatPlainDateTime dt)
  = Temporal.rejectDateTimeRange (dateTimeToMinute dt).
Proof.
  intros Hv Hy Hl Ht.
  unfold parsePlainDateTime, formatPlainDateTime, Temporal.PlainDateTime_from,
    Temporal.PlainDateTime_toString_minute.
  rewrite parseDateFields_formatDateFields by assumption.
  cbv beta iota. rewrite Hl. cbn [append].
  rewrite parseTimeFields_formatTimeToMinute by exact Ht. reflexivity.
Qed.

Lemma formatPlainTime_timeToMinute (t : Temporal.PlainTime) :
  formatPlainTime (timeToMinute t) = formatPlainTime t.
Proof. reflexivity. Qed.

Lemma formatPlainDateTime_dateTimeToMinute (dt : Temporal.PlainDateTime) :
  formatPlainDateTime (dateTimeToMinute dt) = formatPlainDateTime dt.
Proof. reflexivity. Qed.

(** *** Instants *)

Lemma nanosecondsToTime_valid (r : Z) :
  0 <= r < Temporal.nsPerDay -> Temporal.isValidTime (Temporal.nanosecondsToTime r) = true.
Proof.
  unfold Temporal.nsPerDay, Temporal.nsPerSecond. intro Hr.
  unfold Temporal.isValidTime, Temporal.nanosecondsToTime, Temporal.nsPerSecond.
  cbn [Temporal.hour Temporal.minute Temporal.second Temporal.subsecond].
  assert (Hsecs : 0 <= r / 1000000000 < 86400).
  { split; [apply Z.div_pos; lia|apply Z.div_lt_upper_bound; lia]. }
  set (secs := r / 1000000000) in *.
  assert (0 <= secs / 3600 <= 23).
  { split; [apply Z.div_pos; lia|].
    assert (secs / 3600 < 24); [apply Z.div_lt_upper_bound; lia|lia]. }
  pose proof (Z.mod_pos_bound (secs / 60) 60 ltac:(lia)).
  pose proof (Z.mod_pos_bound secs 60 ltac:(lia)).
  pose proof (Z.mod_pos_bound r 1000000000 ltac:(lia)).
  repeat (apply andb_true_intro; split); try apply Z.leb_le; try apply Z.ltb_lt; lia.
Qed.

Lemma timeToNanoseconds_nanosecondsToTime (r : Z) :
  0 <= r -> Temporal.timeToNanoseconds (Temporal.nanosecondsToTime r) = r.
Proof.
  intro Hr. unfold Temporal.timeToNanoseconds, Temporal.nanosecondsToTime, Temporal.nsPerSecond.
  cbn [Temporal.hour Temporal.minute Temporal.second Temporal.subsecond].
  set (secs := r / 1000000000).
  pose proof (Z.div_mod r 1000000000 ltac:(lia)) as H1. fold secs in H1.
  pose proof (Z.div_mod secs 60 ltac:(lia)) as H2.
  pose proof (Z.div_mod (secs / 60) 60 ltac:(lia)) as H3.
  assert (H4 : secs / 3600 = secs / 60 / 60) by (rewrite Z.div_div by lia; reflexivity).
  rewrite H4. lia.
Qed.

Lemma dateTimeToNanoseconds_nanosecondsToDateTime (ns : Z) :
  Temporal.dateTimeToNanoseconds (Temporal.nanosecondsToDateTime ns) = ns.
Proof.
  unfold Temporal.dateTimeToNanoseconds, Temporal.nanosecondsToDateTime.
  cbn [Temporal.date Temporal.time].
  rewrite isoDateToEpochDays_epochDaysToIsoDate.
  assert (Hpos : 0 < Temporal.nsPerDay) by reflexivity.
  rewrite timeToNanoseconds_nanosecondsToTime
    by (apply Z.mod_pos_bound; exact Hpos).
  pose proof (Z.div_mod ns Temporal.nsPerDay ltac:(lia)). lia.
Qed.

Lemma epochDaysToIsoDate_year_bounds (z : Z) :
  -100000001 <= z <= 100000001 ->
  -999999 <= Temporal.year (Temporal.epochDaysToIsoDate z) <= 999999.
Proof.
  intro Hz. pose proof (epochDaysToIsoDate_civil z) as E.
  pose proof (dayOfEraOk_holds ((z + 719468) mod 146097)
                (Z.mod_pos_bound _ 146097 eq_refl)) as Hok.
  unfold dayOfEraOk in Hok.
  destruct (civilOfDayOfEra ((z + 719468) mod 146097)) as [[yoe m] d].
  rewrite E. clear E. cbn [Temporal.year].
  repeat (apply andb_prop in Hok; destruct Hok as [Hok ?]).
  pose proof (Z.div_mod (z + 719468) 146097 ltac:(lia)) as Hdm.
  pose proof (Z.mod_pos_bound (z + 719468) 146097 ltac:(lia)) as Hmod.
  destruct (m <=? 2); lia.
Qed.

Lemma isValidEpochNanoseconds_days (ns : Z) :
  Temporal.isValidEpochNanoseconds ns = true ->
  -100000001 <= ns / Temporal.nsPerDay <= 100000001.
Proof.
  unfold Temporal.isValidEpochNanoseconds, Temporal.nsMaxInstant. intro H.
  apply andb_prop in H. destruct H as [H1 H2]. apply Z.leb_le in H1, H2.
  assert (Hpos : 0 < Temporal.nsPerDay) by reflexivity.
  pose proof (Z.div_mod ns Temporal.nsPerDay ltac:(lia)) as Hdm.
  pose proof (Z.mod_pos_bound ns Temporal.nsPerDay Hpos) as Hmod.
  nia.
Qed.


(** An instant in range is read back from its text. *)
Lemma parseInstant_formatInstant (i : Temporal.Instant) :
  Temporal.isValidEpochNanoseconds (Temporal.epochNanoseconds i) = true ->
  parseInstant (formatInstant i) = JS.Ok i.
Proof.
  intro Hvalid. destruct i as [ns]. cbn [Temporal.epochNanoseconds] in Hvalid.
  unfold parseInstant, formatInstant, Temporal.Instant_from, Temporal.Instant_toString.
  cbn [Temporal.epochNanoseconds].
  pose proof (dateTimeToNanoseconds_nanosecondsToDateTime ns) as Hback.
  assert (Hpos : 0 < Temporal.nsPerDay) by reflexivity.
  assert (Hdate : Temporal.isValidISODate (Temporal.date (Temporal.nanosecondsToDateTime ns))
                  = true) by apply epochDaysToIsoDate_valid.
  assert (Hyear : -999999 <= Temporal.year (Temporal.date (Temporal.nanosecondsToDateTime ns))
                  <= 999999).
  { apply epochDaysToIsoDate_year_bounds, isValidEpochNanoseconds_days, Hvalid. }
  assert (Htime : Temporal.isValidTime (Temporal.time (Temporal.nanosecondsToDateTime ns))
                  = true).
  { apply nanosecondsToTime_valid, Z.mod_pos_bound, Hpos. }
  destruct (Temporal.nanosecondsToDateTime ns) as [d t].
  cbn [Temporal.date Temporal.time] in *.
  rewrite parseDateFields_formatDateFields by assumption.
  cbn [append]. cbv beta iota.
  rewrite parseTimeFields_formatTimeFull by exact Htime.
  cbn [Temporal.parseOffset]. rewrite Z.sub_0_r, Hback, Hvalid. reflexivity.
Qed.

(** ** Further properties of comparison and calculations *)

Lemma dayOfWeek_range (d : Temporal.PlainDate) : 1 <= Temporal.dayOfWeek d <= 7.
Proof.
  unfold Temporal.dayOfWeek.
  pose proof (Z.mod_pos_bound (Temporal.isoDateToEpochDays d + 3) 7 eq_refl). lia.
Qed.

(** X1.  For a date [d] of the library's range, [startOfWeek(d)] is the Monday
    on or before [d], at most six days back; it is always in the range, whose
    first date is a Monday.  [endOfWeek(d)] is the Sunday on or after [d],
    at most six days ahead, when that Sunday is in the range; the range ends
    on a Saturday, and for its last six dates the [date.add] of [endOfWeek]
    throws a RangeError.  The examples of the suite are evaluated. *)
Theorem startOfWeek_endOfWeek_iso_week :
  (forall d : Temporal.PlainDate,
     Temporal.isoDateWithinLimits d = true ->
     Temporal.PlainDate_add d (- (Temporal.dayOfWeek d - 1)) = JS.Ok (startOfWeek d) /\
     Temporal.dayOfWeek (startOfWeek d) = 1 /\
     Temporal.isoDateToEpochDays (startOfWeek d)
     = Temporal.isoDateToEpochDays d - (Temporal.dayOfWeek d - 1))
  /\ (forall d : Temporal.PlainDate,
        Temporal.isoDateWithinLimits d = true ->
        Temporal.PlainDate_add d (7 - Temporal.dayOfWeek d)
        = (if Temporal.isoDateToEpochDays d <=? 99999994
           then JS.Ok (endOfWeek d) else JS.Throw JS.RangeError) /\
        (Temporal.isoDateToEpochDays d <= 99999994 ->
         Temporal.dayOfWeek (endOfWeek d) = 7 /\
         Temporal.isoDateToEpochDays (endOfWeek d)
         = Temporal.isoDateToEpochDays d + (7 - Temporal.dayOfWeek d)))
  /\ (forall d : Temporal.PlainDate, 1 <= Temporal.dayOfWeek d <= 7)
  /\ (Temporal.epochDaysToIsoDate (-100000001) = Temporal.mkPlainDate (-271821) 4 19 /\
      Temporal.dayOfWeek (Temporal.mkPlainDate (-271821) 4 19) = 1 /\
      Temporal.epochDaysToIsoDate 100000000 = Temporal.mkPlainDate 275760 9 13 /\
      Temporal.dayOfWeek (Temporal.mkPlainDate 275760 9 13) = 6 /\
      Temporal.epochDaysToIsoDate 99999994 = Temporal.mkPlainDate 275760 9 7)
  /\ startOfWeek (Temporal.mkPlainDate 2022 8 5) = Temporal.mkPlainDate 2022 8 1
  /\ startOfWeek (Temporal.mkPlainDate 2022 7 31) = Temporal.mkPlainDate 2022 7 25
  /\ endOfWeek (Temporal.mkPlainDate 2022 8 5) = Temporal.mkPlainDate 2022 8 7
  /\ endOfWeek (Temporal.mkPlainDate 2022 8 8) = Temporal.mkPlainDate 2022 8 14.
Proof.
  split; [|split; [|split; [exact dayOfWeek_range|]]].
  - intros d Hd. apply isoDateWithinLimits_days in Hd.
    pose proof (dayOfWeek_range d) as Hrange.
    assert (HE : Temporal.isoDateToEpochDays (startOfWeek d)
                 = Temporal.isoDateToEpochDays d - (Temporal.dayOfWeek d - 1)).
    { unfold startOfWeek, Temporal.subtractDays, Temporal.addDays.
      rewrite isoDateToEpochDays_epochDaysToIsoDate. lia. }
    split; [|split; [|exact HE]].
    + unfold Temporal.PlainDate_add.
      change (Temporal.addDays d (- (Temporal.dayOfWeek d - 1))) with (startOfWeek d).
      assert (Hin : Temporal.isoDateWithinLimits (startOfWeek d) = true).
      { apply isoDateWithinLimits_days. rewrite HE. unfold Temporal.dayOfWeek in *.
        set (e := Temporal.isoDateToEpochDays d) in *. Z.div_mod_to_equations. lia. }
      rewrite Hin. reflexivity.
    + unfold Temporal.dayOfWeek at 1. rewrite HE. unfold Temporal.dayOfWeek.
      set (e := Temporal.isoDateToEpochDays d). Z.div_mod_to_equations. lia.
  - intros d Hd. apply isoDateWithinLimits_days in Hd.
    pose proof (dayOfWeek_range d) as Hrange.
    assert (HE : Temporal.isoDateToEpochDays (endOfWeek d)
                 = Temporal.isoDateToEpochDays d + (7 - Temporal.dayOfWeek d)).
    { unfold endOfWeek, Temporal.addDays.
      rewrite isoDateToEpochDays_epochDaysToIsoDate. reflexivity. }
    split.
    + unfold Temporal.PlainDate_add.
      change (Temporal.addDays d (7 - Temporal.dayOfWeek d)) with (endOfWeek d).
      destruct (Z.leb_spec (Temporal.isoDateToEpochDays d) 99999994) as [Hle|Hgt].
      * assert (Hin : Temporal.isoDateWithinLimits (endOfWeek d) = true).
        { apply isoDateWithinLimits_days. rewrite HE. unfold Temporal.dayOfWeek in *.
          set (e := Temporal.isoDateToEpochDays d) in *. Z.div_mod_to_equations. lia. }
        rewrite Hin. reflexivity.
      * assert (Hout : Temporal.isoDateWithinLimits (endOfWeek d) = false).
        { apply isoDateWithinLimits_beyond. rewrite HE. unfold Temporal.dayOfWeek in *.
          set (e := Temporal.isoDateToEpochDays d) in *. Z.div_mod_to_equations. lia. }
        rewrite Hout. reflexivity.
    + intros _. split; [|exact HE].
      unfold Temporal.dayOfWeek at 1. rewrite HE. unfold Temporal.dayOfWeek.
      set (e := Temporal.isoDateToEpochDays d). Z.div_mod_to_equations. lia.
  - repeat split; vm_compute; reflexivity.
Qed.

Lemma comparePlainDate_refl (d : Temporal.PlainDate) : Temporal.comparePlainDate d d = 0.
Proof. apply comparePlainDate_eq. reflexivity. Qed.

(** X3.  The optional equality predicates: true when both operands are absent,
    false when exactly one is, and the plain predicate otherwise. *)
Theorem optional_equality_on_absent_operands :
  (forall a b : JS.Nullable Temporal.PlainDate,
     isOptionalDateEqual a b
     = match a, b with
       | JS.Val d, JS.Val c => isDateEqual d c
       | JS.Val _, _ | _, JS.Val _ => false
       | _, _ => true
       end)
  /\ (forall a b : JS.Nullable Temporal.Instant,
     isOptionalInstantEqual a b
     = match a, b with
       | JS.Val i, JS.Val c => isInstantEqual i c
       | JS.Val _, _ | _, JS.Val _ => false
       | _, _ => true
       end).
Proof. split; intros [| |a] [| |b]; reflexivity. Qed.

(** ** The calendar: dates and day numbers *)

Lemma monthDayOk_all : forallRange monthDayOk 0 372 = true.
Proof. vm_compute. reflexivity. Qed.

Lemma ISODaysInMonth_le_leap (y m : Z) :
  Temporal.ISODaysInMonth y m <= Temporal.ISODaysInMonth 4 m.
Proof.
  unfold Temporal.ISODaysInMonth. destruct (m =? 2); [|lia].
  change (Temporal.isLeapYear 4) with true. destruct (Temporal.isLeapYear y); lia.
Qed.

Lemma monthDayOk_holds (y m d : Z) :
  Temporal.isValidISODate (Temporal.mkPlainDate y m d) = true ->
  0 <= dayOfYearOfMonthDay m d <= 365 /\
  (dayOfYearOfMonthDay m d = 365 -> m = 2 /\ d = 29) /\
  monthDayOfDayOfYear (dayOfYearOfMonthDay m d) = (m, d).
Proof.
  intro Hv. pose proof (isValidISODate_fields _ Hv) as [Hm Hd].
  cbn [Temporal.month Temporal.day] in Hm, Hd.
  unfold Temporal.isValidISODate in Hv. cbn [Temporal.year Temporal.month Temporal.day] in Hv.
  apply andb_prop in Hv. destruct Hv as [_ Hdim]. apply Z.leb_le in Hdim.
  pose proof (ISODaysInMonth_le_leap y m) as Hleap.
  pose proof (forallRange_spec monthDayOk _ 0 monthDayOk_all (31 * (m - 1) + (d - 1))
                ltac:(lia)) as Hok.
  unfold monthDayOk in Hok.
  replace ((31 * (m - 1) + (d - 1)) / 31 + 1) with m in Hok
    by (Z.div_mod_to_equations; lia).
  replace ((31 * (m - 1) + (d - 1)) mod 31 + 1) with d in Hok
    by (Z.div_mod_to_equations; lia).
  destruct (Z.leb_spec d (Temporal.ISODaysInMonth 4 m)) as [_|]; [|lia].
  destruct (monthDayOfDayOfYear (dayOfYearOfMonthDay m d)) as [m' d'].
  apply andb_prop in Hok. destruct Hok as [Hok Heq].
  apply andb_prop in Hok. destruct Hok as [Hok H2].
  apply andb_prop in Hok. destruct Hok as [Hlo Hhi].
  apply andb_prop in Heq. destruct Heq as [Hm' Hd'].
  apply Z.leb_le in Hlo, Hhi. apply Z.eqb_eq in Hm', Hd'. subst m' d'.
  split; [lia|]. split; [|reflexivity].
  intro H365. apply orb_prop in H2. destruct H2 as [H2|H2].
  - apply Z.ltb_lt in H2. lia.
  - apply andb_prop in H2. destruct H2 as [H2 H3]. apply Z.eqb_eq in H2, H3. lia.
Qed.

Lemma lastDayOfYearOfEra_bounds (yoe : Z) :
  0 <= yoe < 400 -> lastDayOfYearOfEra yoe <= 146096.
Proof.
  intro H. unfold lastDayOfYearOfEra. destruct (Z.eqb_spec yoe 399); [lia|].
  pose proof (firstDayOfYearOfEra_bounds (yoe + 1) ltac:(lia)). lia.
Qed.

(** A valid calendar date survives the trip through its day number. *)
Lemma epochDaysToIsoDate_isoDateToEpochDays (d : Temporal.PlainDate) :
  Temporal.isValidISODate d = true ->
  Temporal.epochDaysToIsoDate (Temporal.isoDateToEpochDays d) = d.
Proof.
  intro Hv. destruct d as [y m dd].
  destruct (monthDayOk_holds y m dd Hv) as (Hdoy & H365 & Hmd).
  pose proof (isValidISODate_fields _ Hv) as [Hm _]. cbn [Temporal.month] in Hm.
  set (y' := if m <=? 2 then y - 1 else y).
  set (era := y' / 400). set (yoe := y' mod 400).
  assert (Hyoe : 0 <= yoe < 400) by (apply Z.mod_pos_bound; lia).
  assert (Hy' : y' = yoe + era * 400)
    by (pose proof (Z.div_mod y' 400 ltac:(lia)); unfold yoe, era; lia).
  destruct (yearOfEraOk_holds yoe Hyoe) as (Hfirst & Hlast & Hlen).
  pose proof (firstDayOfYearOfEra_bounds yoe Hyoe) as Hfb.
  pose proof (lastDayOfYearOfEra_bounds yoe Hyoe) as Hlb.
  set (doy := dayOfYearOfMonthDay m dd) in *.
  set (doe := firstDayOfYearOfEra yoe + doy).
  assert (Hleap : doy <= 364 + (if Temporal.isLeapYear (yoe + 1) then 1 else 0)).
  { destruct (Z.eq_dec doy 365) as [E|E]; [|destruct (Temporal.isLeapYear (yoe + 1)); lia].
    destruct (H365 E) as [-> ->].
    unfold Temporal.isValidISODate in Hv.
    cbn [Temporal.year Temporal.month Temporal.day] in Hv.
    apply andb_prop in Hv. destruct Hv as [_ Hdim]. apply Z.leb_le in Hdim.
    unfold Temporal.ISODaysInMonth in Hdim. change (2 =? 2) with true in Hdim.
    cbv iota in Hdim.
    assert (Hyy : yoe + 1 = y + (- era) * 400).
    { unfold y' in Hy'. change (2 <=? 2) with true in Hy'. cbv iota in Hy'. lia. }
    rewrite Hyy, isLeapYear_mod400. destruct (Temporal.isLeapYear y); lia. }
  assert (Hdoe : 0 <= doe <= lastDayOfYearOfEra yoe) by (unfold doe; lia).
  assert (Hz : Temporal.isoDateToEpochDays (Temporal.mkPlainDate y m dd)
               = era * 146097 + doe - 719468).
  { unfold Temporal.isoDateToEpochDays. cbn [Temporal.year Temporal.month Temporal.day].
    fold y'. fold era. fold yoe. unfold doe, doy, dayOfYearOfMonthDay, firstDayOfYearOfEra.
    lia. }
  rewrite Hz.
  pose proof (epochDaysToIsoDate_civil (era * 146097 + doe - 719468)) as E.
  replace (era * 146097 + doe - 719468 + 719468) with (doe + era * 146097) in E by lia.
  rewrite Z.mod_add, Z.div_add in E by lia.
  rewrite (Z.mod_small doe 146097), (Z.div_small doe 146097) in E by lia.
  assert (Hyear : yearOfEra doe = yoe).
  { pose proof (yearOfEra_mono (firstDayOfYearOfEra yoe) doe ltac:(unfold doe; lia) ltac:(lia)).
    pose proof (yearOfEra_mono doe (lastDayOfYearOfEra yoe) ltac:(lia) ltac:(lia)). lia. }
  rewrite civilOfDayOfEra_unfold, Hyear in E.
  replace (doe - firstDayOfYearOfEra yoe) with doy in E by (unfold doe; lia).
  rewrite Hmd in E. cbn [fst snd] in E. rewrite E.
  f_equal. unfold y' in Hy'. destruct (m <=? 2); lia.
Qed.

Lemma isoDateToEpochDays_day (y m d : Z) :
  Temporal.isoDateToEpochDays (Temporal.mkPlainDate y m d)
  = Temporal.isoDateToEpochDays (Temporal.mkPlainDate y m 1) + (d - 1).
Proof.
  unfold Temporal.isoDateToEpochDays.
  cbn [Temporal.year Temporal.month Temporal.day]. cbv zeta. lia.
Qed.

Lemma isValidISODate_first (y m d : Z) :
  Temporal.isValidISODate (Temporal.mkPlainDate y m d) = true ->
  Temporal.isValidISODate (Temporal.mkPlainDate y m 1) = true /\
  Temporal.isValidISODate
    (Temporal.mkPlainDate y m (Temporal.ISODaysInMonth y m)) = true /\
  1 <= d <= Temporal.ISODaysInMonth y m.
Proof.
  unfold Temporal.isValidISODate. cbn [Temporal.year Temporal.month Temporal.day].
  intro H. apply andb_prop in H. destruct H as [H Hd].
  apply andb_prop in H. destruct H as [H Hd1].
  apply andb_prop in H. destruct H as [Hm1 Hm2].
  rewrite Hm1, Hm2.
  apply Z.leb_le in Hd, Hd1.
  assert (28 <= Temporal.ISODaysInMonth y m).
  { unfold Temporal.ISODaysInMonth.
    destruct (m =? 2); [destruct (Temporal.isLeapYear y); lia|].
    destruct ((m =? 4) || (m =? 6) || (m =? 9) || (m =? 11)); lia. }
  split; [|split; [|lia]]; cbn [andb];
    apply andb_true_intro; split; apply Z.leb_le; lia.
Qed.



(** Days from the era's epoch to 1 March of a year. *)
Lemma marchFirst_closed (y : Z) :
  y / 400 * 146097 + (y mod 400 * 365 + y mod 400 / 4 - y mod 400 / 100)
  = 365 * y + y / 4 - y / 100 + y / 400.
Proof. Z.div_mod_to_equations. lia. Qed.

Lemma marchFirst_step (y : Z) :
  365 * y + y / 4 - y / 100 + y / 400 + 365
  <= 365 * (y + 1) + (y + 1) / 4 - (y + 1) / 100 + (y + 1) / 400
  /\ (Temporal.isLeapYear (y + 1) = true ->
      365 * y + y / 4 - y / 100 + y / 400 + 366
      = 365 * (y + 1) + (y + 1) / 4 - (y + 1) / 100 + (y + 1) / 400).
Proof.
  split.
  - Z.div_mod_to_equations. lia.
  - unfold Temporal.isLeapYear. intro H. apply andb_prop in H. destruct H as [H4 H].
    apply Z.eqb_eq in H4. apply orb_prop in H. destruct H as [H|H].
    + apply negb_true_iff, Z.eqb_neq in H. Z.div_mod_to_equations. lia.
    + apply Z.eqb_eq in H. Z.div_mod_to_equations. lia.
Qed.

Lemma monthStart_mono (a b : Z) : a <= b -> (153 * a + 2) / 5 <= (153 * b + 2) / 5.
Proof. intro H. apply Z.div_le_mono; lia. Qed.

(** Within one March-based year an earlier month ends before a later one
    starts. *)
Lemma dayOfYearOfMonthDay_month_lt (y m1 d1 m2 d2 : Z) :
  Temporal.isValidISODate (Temporal.mkPlainDate y m1 d1) = true ->
  1 <= m2 <= 12 -> 1 <= d2 ->
  (if 2 <? m1 then m1 - 3 else m1 + 9) < (if 2 <? m2 then m2 - 3 else m2 + 9) ->
  dayOfYearOfMonthDay m1 d1 < dayOfYearOfMonthDay m2 d2.
Proof.
  intros Hv Hm2 Hd2 Hlt.
  destruct (isValidISODate_fields _ Hv) as (Hm1 & Hd1 & _).
  cbn [Temporal.year Temporal.month Temporal.day] in Hm1, Hd1.
  destruct (isValidISODate_first _ _ _ Hv) as (_ & _ & Hdim).
  unfold dayOfYearOfMonthDay.
  set (mp2 := if 2 <? m2 then m2 - 3 else m2 + 9) in *.
  assert (Hcases : m1 = 1 \/ m1 = 2 \/ m1 = 3 \/ m1 = 4 \/ m1 = 5 \/ m1 = 6 \/ m1 = 7 \/
                   m1 = 8 \/ m1 = 9 \/ m1 = 10 \/ m1 = 11 \/ m1 = 12) by lia.
  assert (Hmp2 : mp2 <= 11) by (subst mp2; destruct (2 <? m2) eqn:E; lia).
  clearbody mp2.
  repeat (destruct Hcases as [->|Hcases]); try subst m1;
    cbv [Temporal.ISODaysInMonth Z.eqb Pos.eqb orb Z.ltb Z.compare Pos.compare
         Pos.compare_cont] in Hlt, Hdim |- *; cbv beta iota in Hlt, Hdim |- *;
    try lia;
    match type of Hlt with
    | ?k < _ => pose proof (monthStart_mono (k + 1) mp2 ltac:(lia)) as Hmono
    end;
    try (destruct (Temporal.isLeapYear y));
    Z.div_mod_to_equations; lia.
Qed.

Lemma marchFirst_mono (a b : Z) :
  a <= b ->
  365 * a + a / 4 - a / 100 + a / 400 <= 365 * b + b / 4 - b / 100 + b / 400.
Proof. intro H. Z.div_mod_to_equations. lia. Qed.

Lemma isoDateToEpochDays_march (d : Temporal.PlainDate) :
  Temporal.isoDateToEpochDays d
  = (let y := if Temporal.month d <=? 2 then Temporal.year d - 1 else Temporal.year d in
     365 * y + y / 4 - y / 100 + y / 400)
    + dayOfYearOfMonthDay (Temporal.month d) (Temporal.day d) - 719468.
Proof.
  unfold Temporal.isoDateToEpochDays, dayOfYearOfMonthDay. cbv zeta.
  rewrite <- marchFirst_closed. lia.
Qed.

(** A date of an earlier March-based year, or of the same one and earlier in
    it, has the smaller day number. *)
Lemma isoDateToEpochDays_lt (a b : Temporal.PlainDate) :
  Temporal.isValidISODate a = true -> Temporal.isValidISODate b = true ->
  Temporal.comparePlainDate a b = -1 ->
  Temporal.isoDateToEpochDays a < Temporal.isoDateToEpochDays b.
Proof.
  intros Ha Hb Hcmp. destruct a as [ya ma da], b as [yb mb db].
  destruct (isValidISODate_fields _ Ha) as (Hma & Hda & _).
  destruct (isValidISODate_fields _ Hb) as (Hmb & Hdb & _).
  destruct (monthDayOk_holds _ _ _ Ha) as (Hra & Hfa & _).
  destruct (monthDayOk_holds _ _ _ Hb) as (Hrb & _ & _).
  rewrite !isoDateToEpochDays_march.
  cbn [Temporal.year Temporal.month Temporal.day] in *. cbv zeta.
  set (ya' := if ma <=? 2 then ya - 1 else ya).
  set (yb' := if mb <=? 2 then yb - 1 else yb).
  set (mpa := if 2 <? ma then ma - 3 else ma + 9).
  set (mpb := if 2 <? mb then mb - 3 else mb + 9).
  assert (Hkey : ya' < yb' \/
                 (ya' = yb' /\ (mpa < mpb \/ (ma = mb /\ da < db)))).
  { unfold Temporal.comparePlainDate in Hcmp.
    cbn [Temporal.year Temporal.month Temporal.day] in Hcmp.
    subst ya' yb' mpa mpb.
    destruct (Z.ltb_spec ya yb);
      [|destruct (Z.ltb_spec yb ya); [discriminate|];
        destruct (Z.ltb_spec ma mb);
          [|destruct (Z.ltb_spec mb ma); [discriminate|];
            destruct (Z.ltb_spec da db);
              [|destruct (Z.ltb_spec db da); discriminate]]];
      destruct (Z.leb_spec ma 2), (Z.leb_spec mb 2),
               (Z.ltb_spec 2 ma), (Z.ltb_spec 2 mb); lia. }
  destruct Hkey as [Hy|[Hy [Hm|[Hm Hd]]]].
  - pose proof (marchFirst_mono (ya' + 1) yb' ltac:(lia)) as Hmono.
    destruct (marchFirst_step ya') as [Hstep Hleap].
    destruct (Z.eq_dec (dayOfYearOfMonthDay ma da) 365) as [H365|H365].
    + destruct (Hfa H365) as [-> ->].
      assert (Hl : Temporal.isLeapYear (ya' + 1) = true).
      { subst ya'. change (2 <=? 2) with true. cbv beta iota.
        replace (ya - 1 + 1) with ya by lia.
        unfold Temporal.isValidISODate, Temporal.ISODaysInMonth in Ha.
        cbn [Temporal.year Temporal.month Temporal.day] in Ha.
        change (2 =? 2) with true in Ha. cbv beta iota in Ha.
        destruct (Temporal.isLeapYear ya); [reflexivity|discriminate]. }
      specialize (Hleap Hl). lia.
    + lia.
  - rewrite Hy.
    pose proof (dayOfYearOfMonthDay_month_lt ya ma da mb db Ha ltac:(lia) ltac:(lia) Hm).
    lia.
  - rewrite Hy. subst mb. unfold dayOfYearOfMonthDay. lia.
Qed.

Lemma comparePlainDate_converse (a b : Temporal.PlainDate) :
  Temporal.comparePlainDate a b = - Temporal.comparePlainDate b a.
Proof.
  unfold Temporal.comparePlainDate.
  destruct (Z.ltb_spec (Temporal.year a) (Temporal.year b)),
           (Z.ltb_spec (Temporal.year b) (Temporal.year a)); try lia; try reflexivity.
  destruct (Z.ltb_spec (Temporal.month a) (Temporal.month b)),
           (Z.ltb_spec (Temporal.month b) (Temporal.month a)); try lia; try reflexivity.
  destruct (Z.ltb_spec (Temporal.day a) (Temporal.day b)),
           (Z.ltb_spec (Temporal.day b) (Temporal.day a)); try lia; reflexivity.
Qed.

Lemma comparePlainDate_cases (a b : Temporal.PlainDate) :
  Temporal.comparePlainDate a b = -1 \/ Temporal.comparePlainDate a b = 0 \/
  Temporal.comparePlainDate a b = 1.
Proof.
  unfold Temporal.comparePlainDate.
  repeat match goal with
         | |- context [if ?c then _ else _] => destruct c
         end; auto.
Qed.

(** [Temporal.PlainDate.compare] on dates that exist orders them as their
    day numbers. *)
Lemma comparePlainDate_days (a b : Temporal.PlainDate) :
  Temporal.isValidISODate a = true -> Temporal.isValidISODate b = true ->
  Temporal.comparePlainDate a b
  = Z.sgn (Temporal.isoDateToEpochDays a - Temporal.isoDateToEpochDays b).
Proof.
  intros Ha Hb. destruct (comparePlainDate_cases a b) as [H|[H|H]].
  - pose proof (isoDateToEpochDays_lt a b Ha Hb H). rewrite H. lia.
  - apply comparePlainDate_eq in H. subst b. rewrite comparePlainDate_refl. lia.
  - assert (H' : Temporal.comparePlainDate b a = -1)
      by (rewrite comparePlainDate_converse; lia).
    pose proof (isoDateToEpochDays_lt b a Hb Ha H'). rewrite H. lia.
Qed.

(** ** calculations: months, weeks and the order of dates *)

Lemma addDays_zero (d : Temporal.PlainDate) :
  Temporal.isValidISODate d = true -> Temporal.addDays d 0 = d.
Proof.
  intro Hv. unfold Temporal.addDays. rewrite Z.add_0_r.
  apply epochDaysToIsoDate_isoDateToEpochDays. exact Hv.
Qed.

Lemma addDays_valid (d : Temporal.PlainDate) (n : Z) :
  Temporal.isValidISODate (Temporal.addDays d n) = true.
Proof. apply epochDaysToIsoDate_valid. Qed.

Lemma isoDateToEpochDays_addDays (d : Temporal.PlainDate) (n : Z) :
  Temporal.isoDateToEpochDays (Temporal.addDays d n) = Temporal.isoDateToEpochDays d + n.
Proof. apply isoDateToEpochDays_epochDaysToIsoDate. Qed.

Lemma equalsPlainDate_eq (a b : Temporal.PlainDate) :
  Temporal.equalsPlainDate a b = true <-> a = b.
Proof.
  unfold Temporal.equalsPlainDate. destruct a as [ya ma da], b as [yb mb db].
  cbn [Temporal.year Temporal.month Temporal.day].
  rewrite !andb_true_iff, !Z.eqb_eq. split.
  - intros [[-> ->] ->]. reflexivity.
  - intros [= -> -> ->]. auto.
Qed.

Lemma equalsPlainDate_compare (a b : Temporal.PlainDate) :
  Temporal.equalsPlainDate a b = (Temporal.comparePlainDate a b =? 0).
Proof.
  destruct (Temporal.equalsPlainDate a b) eqn:He.
  - apply equalsPlainDate_eq in He. subst b. rewrite comparePlainDate_refl. reflexivity.
  - symmetry. apply Z.eqb_neq. intro Hc. apply comparePlainDate_eq in Hc.
    apply equalsPlainDate_eq in Hc. congruence.
Qed.

Lemma startOfMonth_start_and_end (y m x : Z) :
  Temporal.isValidISODate (Temporal.mkPlainDate y m x) = true ->
  startOfMonth (Temporal.mkPlainDate y m x) = Temporal.mkPlainDate y m 1 /\
  endOfMonth (Temporal.mkPlainDate y m x)
  = Temporal.mkPlainDate y m (Temporal.ISODaysInMonth y m).
Proof.
  intro Hx. destruct (isValidISODate_first y m x Hx) as (Hfirst & Hlast & _). split.
  - unfold startOfMonth, Temporal.subtractDays, Temporal.addDays.
    cbn [Temporal.day]. rewrite (isoDateToEpochDays_day y m x).
    replace (Temporal.isoDateToEpochDays (Temporal.mkPlainDate y m 1) + (x - 1) + - (x - 1))
      with (Temporal.isoDateToEpochDays (Temporal.mkPlainDate y m 1)) by lia.
    apply epochDaysToIsoDate_isoDateToEpochDays. exact Hfirst.
  - unfold endOfMonth, daysInMonth, Temporal.addDays.
    cbn [Temporal.year Temporal.month Temporal.day].
    rewrite (isoDateToEpochDays_day y m x).
    replace (Temporal.isoDateToEpochDays (Temporal.mkPlainDate y m 1) + (x - 1)
             + (Temporal.ISODaysInMonth y m - x))
      with (Temporal.isoDateToEpochDays (Temporal.mkPlainDate y m 1)
            + (Temporal.ISODaysInMonth y m - 1)) by lia.
    rewrite <- isoDateToEpochDays_day.
    apply epochDaysToIsoDate_isoDateToEpochDays. exact Hlast.
Qed.

(** X9.  [startOfMonth(d)] is the first and [endOfMonth(d)] the last day of the
    month of [d]: same year and month, day 1 and day [daysInMonth].  Both
    are fixed by a second application, and each leads to the other. *)
Theorem startOfMonth_endOfMonth_first_and_last_day (d : Temporal.PlainDate) :
  Temporal.isValidISODate d = true ->
  startOfMonth d = Temporal.mkPlainDate (Temporal.year d) (Temporal.month d) 1 /\
  endOfMonth d
  = Temporal.mkPlainDate (Temporal.year d) (Temporal.month d) (daysInMonth d) /\
  daysInMonth d
  = (if Temporal.month d =? 2
     then (if Temporal.isLeapYear (Temporal.year d) then 29 else 28)
     else if (Temporal.month d =? 4) || (Temporal.month d =? 6) ||
             (Temporal.month d =? 9) || (Temporal.month d =? 11) then 30 else 31) /\
  startOfMonth (startOfMonth d) = startOfMonth d /\
  endOfMonth (endOfMonth d) = endOfMonth d /\
  startOfMonth (endOfMonth d) = startOfMonth d /\
  endOfMonth (startOfMonth d) = endOfMonth d /\
  Temporal.isoDateToEpochDays (endOfMonth d) - Temporal.isoDateToEpochDays (startOfMonth d)
  = daysInMonth d - 1.
Proof.
  intro Hv. destruct d as [y m dd].
  destruct (isValidISODate_first y m dd Hv) as (Hfirst & Hlast & Hrange).
  assert (Hstart : forall x, Temporal.isValidISODate (Temporal.mkPlainDate y m x) = true ->
            startOfMonth (Temporal.mkPlainDate y m x) = Temporal.mkPlainDate y m 1)
    by (intros x Hx; apply startOfMonth_start_and_end; exact Hx).
  assert (Hend : forall x, Temporal.isValidISODate (Temporal.mkPlainDate y m x) = true ->
            endOfMonth (Temporal.mkPlainDate y m x)
            = Temporal.mkPlainDate y m (Temporal.ISODaysInMonth y m))
    by (intros x Hx; apply startOfMonth_start_and_end; exact Hx).
  rewrite (Hstart dd Hv), (Hend dd Hv).
  unfold daysInMonth. cbn [Temporal.year Temporal.month Temporal.day].
  split; [reflexivity|]. split; [reflexivity|]. split; [reflexivity|].
  split; [apply Hstart; exact Hfirst|]. split; [apply Hend; exact Hlast|].
  split; [apply Hstart; exact Hlast|]. split; [apply Hend; exact Hfirst|].
  rewrite (isoDateToEpochDays_day y m (Temporal.ISODaysInMonth y m)). lia.
Qed.

Lemma startOfMonth_endOfMonth_first_and_last_day_witness :
  startOfMonth (Temporal.mkPlainDate 2024 2 15) = Temporal.mkPlainDate 2024 2 1 /\
  endOfMonth (Temporal.mkPlainDate 2024 2 15) = Temporal.mkPlainDate 2024 2 29.
Proof.
  pose proof (startOfMonth_endOfMonth_first_and_last_day
                (Temporal.mkPlainDate 2024 2 15) eq_refl) as (H1 & H2 & _).
  split; [exact H1|exact H2].
Defined.

(** X10.  The week of a date: [startOfWeek] and [endOfWeek] are fixed by a second
    application, lie six days apart, each leads to the other, a Monday is
    its own start and a Sunday its own end, and the date compares neither
    before the start nor after the end of its week. *)
Theorem startOfWeek_endOfWeek_same_week (d : Temporal.PlainDate) :
  Temporal.isValidISODate d = true ->
  startOfWeek (startOfWeek d) = startOfWeek d /\
  endOfWeek (endOfWeek d) = endOfWeek d /\
  endOfWeek d = Temporal.addDays (startOfWeek d) 6 /\
  startOfWeek (endOfWeek d) = startOfWeek d /\
  endOfWeek (startOfWeek d) = endOfWeek d /\
  (Temporal.dayOfWeek d = 1 <-> startOfWeek d = d) /\
  (Temporal.dayOfWeek d = 7 <-> endOfWeek d = d) /\
  isDateBefore d (startOfWeek d) = false /\
  isDateAfter d (endOfWeek d) = false /\
  isDateAfter (startOfWeek d) (endOfWeek d) = false.
Proof.
  intro Hv. pose proof (dayOfWeek_range d) as Hrange.
  assert (Hs : startOfWeek d = Temporal.addDays d (- (Temporal.dayOfWeek d - 1)))
    by reflexivity.
  assert (He : endOfWeek d = Temporal.addDays d (7 - Temporal.dayOfWeek d))
    by reflexivity.
  assert (Hds : Temporal.dayOfWeek (startOfWeek d) = 1).
  { rewrite Hs, dayOfWeek_addDays. unfold Temporal.dayOfWeek in *.
    Z.div_mod_to_equations. lia. }
  assert (Hde : Temporal.dayOfWeek (endOfWeek d) = 7).
  { rewrite He, dayOfWeek_addDays. unfold Temporal.dayOfWeek in *.
    Z.div_mod_to_equations. lia. }
  assert (Hcmp : forall a b,
            Temporal.comparePlainDate (Temporal.addDays d a) (Temporal.addDays d b)
            = Z.sgn (a - b)).
  { intros a b. rewrite comparePlainDate_days by apply addDays_valid.
    rewrite !isoDateToEpochDays_addDays. f_equal. lia. }
  split.
  { unfold startOfWeek at 1. rewrite Hds. unfold Temporal.subtractDays.
    rewrite Hs, addDays_addDays. f_equal. lia. }
  split.
  { unfold endOfWeek at 1. rewrite Hde. rewrite He, addDays_addDays. f_equal. lia. }
  split.
  { rewrite He, Hs, addDays_addDays. f_equal. lia. }
  split.
  { unfold startOfWeek at 1. rewrite Hde. unfold Temporal.subtractDays.
    rewrite He, Hs, addDays_addDays. f_equal. lia. }
  split.
  { unfold endOfWeek at 1. rewrite Hds. rewrite He, Hs, addDays_addDays. f_equal. lia. }
  split.
  { split.
    - intro H1. rewrite Hs, H1. apply addDays_zero. exact Hv.
    - intro H1. rewrite <- H1. exact Hds. }
  split.
  { split.
    - intro H7. rewrite He, H7. apply addDays_zero. exact Hv.
    - intro H7. rewrite <- H7. exact Hde. }
  rewrite <- (addDays_zero d Hv) at 1 3.
  unfold isDateBefore, isDateAfter. rewrite Hs, He, !Hcmp.
  split; [apply Z.eqb_neq; lia|]. split; apply Z.eqb_neq; lia.
Qed.

Lemma startOfWeek_endOfWeek_same_week_witness :
  endOfWeek (Temporal.mkPlainDate 2022 8 5)
  = Temporal.addDays (startOfWeek (Temporal.mkPlainDate 2022 8 5)) 6.
Proof.
  pose proof (startOfWeek_endOfWeek_same_week (Temporal.mkPlainDate 2022 8 5) eq_refl)
    as (_ & _ & H & _).
  exact H.
Defined.

(** X11.  Comparing a date with the date [n] days later: before exactly when
    [n > 0], after exactly when [n < 0], equal exactly when [n = 0]. *)
Theorem date_comparisons_follow_added_days (d : Temporal.PlainDate) (n : Z) :
  Temporal.isValidISODate d = true ->
  isDateBefore d (Temporal.addDays d n) = (0 <? n) /\
  isDateAfter d (Temporal.addDays d n) = (n <? 0) /\
  isDateEqual d (Temporal.addDays d n) = (n =? 0) /\
  isDateAfter (Temporal.addDays d n) d = (0 <? n) /\
  isDateBefore (Temporal.subtractDays d n) d = (0 <? n).
Proof.
  intro Hv.
  assert (Hcmp : Temporal.comparePlainDate d (Temporal.addDays d n) = Z.sgn (- n)).
  { rewrite comparePlainDate_days by (try apply addDays_valid; exact Hv).
    rewrite isoDateToEpochDays_addDays. f_equal. lia. }
  assert (Hcmp' : forall k, Temporal.comparePlainDate (Temporal.addDays d k) d = Z.sgn k).
  { intro k. rewrite comparePlainDate_days by (try apply addDays_valid; exact Hv).
    rewrite isoDateToEpochDays_addDays. f_equal. lia. }
  unfold isDateBefore, isDateAfter, isDateEqual, Temporal.subtractDays.
  rewrite equalsPlainDate_compare, Hcmp, !Hcmp'.
  repeat split;
    repeat match goal with
           | |- context [?a =? ?b] => destruct (Z.eqb_spec a b)
           | |- context [?a <? ?b] => destruct (Z.ltb_spec a b)
           end; try reflexivity; lia.
Qed.

Lemma date_comparisons_follow_added_days_witness :
  isDateBefore (Temporal.mkPlainDate 2024 2 28)
               (Temporal.addDays (Temporal.mkPlainDate 2024 2 28) 2) = true.
Proof.
  pose proof (date_comparisons_follow_added_days (Temporal.mkPlainDate 2024 2 28) 2 eq_refl)
    as (H & _).
  exact H.
Defined.

(** ** comparison: the three orders *)

Lemma comparePlainDate_trans (a b c : Temporal.PlainDate) :
  Temporal.comparePlainDate a b = -1 -> Temporal.comparePlainDate b c = -1 ->
  Temporal.comparePlainDate a c = -1.
Proof.
  unfold Temporal.comparePlainDate.
  destruct a as [ya ma da], b as [yb mb db], c as [yc mc dc].
  cbn [Temporal.year Temporal.month Temporal.day].
  repeat match goal with
         | |- context [?x <? ?y] => destruct (Z.ltb_spec x y)
         end; intros; try reflexivity; try discriminate; lia.
Qed.

(** X2.  The three date comparisons form a strict total order: of [isDateBefore],
    [isDateEqual] and [isDateAfter] exactly one holds for any two dates,
    [isDateEqual] holds exactly for the same date, [isDateAfter(a, b)] is
    [isDateBefore(b, a)], and [isDateBefore] is transitive. *)
Theorem isDate_comparisons_strict_total_order :
  (forall a b : Temporal.PlainDate,
     (isDateEqual a b = true <-> a = b) /\
     isDateAfter a b = isDateBefore b a /\
     isDateEqual a b = isDateEqual b a /\
     isDateEqual a b = negb (isDateBefore a b) && negb (isDateAfter a b) /\
     (isDateBefore a b = true -> isDateAfter a b = false))
  /\ (forall a b c : Temporal.PlainDate,
        isDateBefore a b = true -> isDateBefore b c = true -> isDateBefore a c = true).
Proof.
  split.
  - intros a b. unfold isDateEqual, isDateAfter, isDateBefore.
    split; [apply equalsPlainDate_eq|].
    rewrite !equalsPlainDate_compare, (comparePlainDate_converse b a).
    destruct (comparePlainDate_cases a b) as [H|[H|H]]; rewrite H;
      (split; [reflexivity|split; [reflexivity|split; [reflexivity|]]]);
      intro X; (reflexivity || discriminate X).
  - intros a b c. unfold isDateBefore. rewrite !Z.eqb_eq. apply comparePlainDate_trans.
Qed.

Lemma comparePlainTime_cases (a b : Temporal.PlainTime) :
  comparePlainTime a b = -1 \/ comparePlainTime a b = 0 \/ comparePlainTime a b = 1.
Proof.
  unfold comparePlainTime.
  repeat match goal with
         | |- context [if ?c then _ else _] => destruct c
         end; auto.
Qed.

Lemma comparePlainTime_converse (a b : Temporal.PlainTime) :
  comparePlainTime a b = - comparePlainTime b a.
Proof.
  unfold comparePlainTime.
  destruct a as [ha ma sa fa], b as [hb mb sb fb].
  cbn [Temporal.hour Temporal.minute Temporal.second Temporal.subsecond].
  repeat match goal with
         | |- context [?x <? ?y] => destruct (Z.ltb_spec x y)
         end; try reflexivity; lia.
Qed.

Lemma comparePlainTime_eq (a b : Temporal.PlainTime) :
  comparePlainTime a b = 0 <-> a = b.
Proof.
  unfold comparePlainTime.
  destruct a as [ha ma sa fa], b as [hb mb sb fb].
  cbn [Temporal.hour Temporal.minute Temporal.second Temporal.subsecond].
  repeat match goal with
         | |- context [?x <? ?y] => destruct (Z.ltb_spec x y)
         end;
    (split; [try discriminate; intros _; f_equal; lia|intros [= -> -> -> ->]; try reflexivity; lia]).
Qed.

Lemma equalsPlainTime_eq (a b : Temporal.PlainTime) :
  equalsPlainTime a b = true <-> a = b.
Proof.
  unfold equalsPlainTime. destruct a as [ha ma sa fa], b as [hb mb sb fb].
  cbn [Temporal.hour Temporal.minute Temporal.second Temporal.subsecond].
  rewrite !andb_true_iff, !Z.eqb_eq. split.
  - intros [[[-> ->] ->] ->]. reflexivity.
  - intros [= -> -> -> ->]. auto.
Qed.

Lemma equalsPlainTime_compare (a b : Temporal.PlainTime) :
  equalsPlainTime a b = (comparePlainTime a b =? 0).
Proof.
  destruct (equalsPlainTime a b) eqn:He.
  - apply equalsPlainTime_eq in He. subst b. symmetry. apply Z.eqb_eq.
    apply comparePlainTime_eq. reflexivity.
  - symmetry. apply Z.eqb_neq. intro Hc. apply comparePlainTime_eq in Hc.
    apply equalsPlainTime_eq in Hc. congruence.
Qed.

(** On times of day, [Temporal.PlainTime.compare] is the order of the
    nanoseconds since midnight. *)
Lemma comparePlainTime_nanoseconds (a b : Temporal.PlainTime) :
  Temporal.isValidTime a = true -> Temporal.isValidTime b = true ->
  comparePlainTime a b
  = Z.sgn (Temporal.timeToNanoseconds a - Temporal.timeToNanoseconds b).
Proof.
  intros Ha Hb.
  destruct (isValidTime_fields a Ha) as (? & ? & ? & ?).
  destruct (isValidTime_fields b Hb) as (? & ? & ? & ?).
  unfold comparePlainTime, Temporal.timeToNanoseconds, Temporal.nsPerSecond.
  destruct a as [ha ma sa fa], b as [hb mb sb fb].
  cbn [Temporal.hour Temporal.minute Temporal.second Temporal.subsecond] in *.
  repeat match goal with
         | |- context [?x <? ?y] => destruct (Z.ltb_spec x y)
         end; lia.
Qed.

(** X4.  The three time comparisons form a strict total order, and on times of
    day it is the order of the clock: [isTimeBefore(a, b)] exactly when [a]
    is fewer nanoseconds after midnight than [b]. *)
Theorem isTime_comparisons_strict_total_order :
  (forall a b : Temporal.PlainTime,
     (isTimeEqual a b = true <-> a = b) /\
     isTimeAfter a b = isTimeBefore b a /\
     isTimeEqual a b = isTimeEqual b a /\
     isTimeEqual a b = negb (isTimeBefore a b) && negb (isTimeAfter a b) /\
     (isTimeBefore a b = true -> isTimeAfter a b = false))
  /\ (forall a b : Temporal.PlainTime,
        Temporal.isValidTime a = true -> Temporal.isValidTime b = true ->
        isTimeBefore a b
        = (Temporal.timeToNanoseconds a <? Temporal.timeToNanoseconds b))
  /\ (forall a b c : Temporal.PlainTime,
        Temporal.isValidTime a = true -> Temporal.isValidTime b = true ->
        Temporal.isValidTime c = true ->
        isTimeBefore a b = true -> isTimeBefore b c = true -> isTimeBefore a c = true).
Proof.
  assert (Hns : forall a b : Temporal.PlainTime,
            Temporal.isValidTime a = true -> Temporal.isValidTime b = true ->
            isTimeBefore a b
            = (Temporal.timeToNanoseconds a <? Temporal.timeToNanoseconds b)).
  { intros a b Ha Hb. unfold isTimeBefore.
    rewrite comparePlainTime_nanoseconds by assumption.
    destruct (Z.ltb_spec (Temporal.timeToNanoseconds a) (Temporal.timeToNanoseconds b));
      [apply Z.eqb_eq|apply Z.eqb_neq]; lia. }
  split; [|split; [exact Hns|]].
  - intros a b. unfold isTimeEqual, isTimeAfter, isTimeBefore.
    split; [apply equalsPlainTime_eq|].
    rewrite !equalsPlainTime_compare, (comparePlainTime_converse b a).
    destruct (comparePlainTime_cases a b) as [H|[H|H]]; rewrite H;
      (split; [reflexivity|split; [reflexivity|split; [reflexivity|]]]);
      intro X; (reflexivity || discriminate X).
  - intros a b c Ha Hb Hc. rewrite !Hns by assumption. rewrite !Z.ltb_lt. lia.
Qed.

(** X5.  The three instant comparisons form a strict total order, the order of
    the epoch nanoseconds. *)
Theorem isInstant_comparisons_strict_total_order :
  (forall a b : Temporal.Instant,
     (isInstantEqual a b = true <-> a = b) /\
     isInstantAfter a b = isInstantBefore b a /\
     isInstantEqual a b = isInstantEqual b a /\
     isInstantEqual a b = negb (isInstantBefore a b) && negb (isInstantAfter a b) /\
     isInstantBefore a b
     = (Temporal.epochNanoseconds a <? Temporal.epochNanoseconds b))
  /\ (forall a b c : Temporal.Instant,
        isInstantBefore a b = true -> isInstantBefore b c = true ->
        isInstantBefore a c = true).
Proof.
  split.
  - intros [a] [b].
    unfold isInstantEqual, isInstantAfter, isInstantBefore, Temporal.equalsInstant,
      Temporal.compareInstant.
    cbn [Temporal.epochNanoseconds].
    split.
    { rewrite Z.eqb_eq. split; [intros ->; reflexivity|intros [= ->]; reflexivity]. }
    destruct (Z.ltb_spec a b), (Z.ltb_spec b a), (Z.eqb_spec a b), (Z.eqb_spec b a);
      try lia; repeat split.
  - intros a b c. rewrite !compareInstant_before. lia.
Qed.

(** X6.  [areIntervalsOverlapping] does not depend on the order of its arguments;
    an interval overlaps itself exactly when its start is before its end;
    an interval that overlaps another also overlaps every interval that
    contains the other. *)
Theorem areIntervalsOverlapping_symmetric :
  (forall i1 i2 : Interval, areIntervalsOverlapping i1 i2 = areIntervalsOverlapping i2 i1)
  /\ (forall i : Interval, areIntervalsOverlapping i i = isInstantBefore (start i) (end_ i))
  /\ (forall i1 i2 i3 : Interval,
        areIntervalsOverlapping i1 i2 = true ->
        isInstantAfter (start i3) (start i2) = false ->
        isInstantBefore (end_ i3) (end_ i2) = false ->
        areIntervalsOverlapping i1 i3 = true).
Proof.
  assert (Hafter : forall a b, isInstantAfter a b = isInstantBefore b a).
  { intros [a] [b]. unfold isInstantAfter, isInstantBefore, Temporal.compareInstant.
    cbn [Temporal.epochNanoseconds].
    destruct (Z.ltb_spec a b), (Z.ltb_spec b a); try lia; reflexivity. }
  split; [|split].
  - intros i1 i2. unfold areIntervalsOverlapping. apply andb_comm.
  - intro i. unfold areIntervalsOverlapping. apply andb_diag.
  - intros i1 i2 i3 H Hs He. rewrite Hafter in Hs.
    apply not_true_iff_false in Hs, He. rewrite compareInstant_before in Hs, He.
    unfold areIntervalsOverlapping in *. rewrite andb_true_iff in *.
    rewrite !compareInstant_before in *. lia.
Qed.

Lemma zonedToPlainDate_valid (z : Temporal.ZonedDateTime) :
  Temporal.isValidISODate (Temporal.zonedToPlainDate z) = true.
Proof. apply epochDaysToIsoDate_valid. Qed.

Lemma todayLocal_valid (h : Host) (t : nat) (tz : string) (today : Temporal.PlainDate) :
  todayLocal h t tz = JS.Ok today -> Temporal.isValidISODate today = true.
Proof.
  unfold todayLocal. destruct (nowLocal h t tz) as [z|e]; [|discriminate].
  intros [= <-]. apply zonedToPlainDate_valid.
Qed.

(** X8.  With [today] the date [todayLocal(tz)] returns, and for a date [d]
    whose neighbours are dates of the library's range (so that the shift by a
    day does not throw): [isToday(d, tz)] holds exactly when [d] is [today],
    [isTomorrow(d, tz)] exactly when [d] is the day after and
    [isYesterday(d, tz)] exactly when [d] is the day before; so at most one
    of the three holds, and each holds of its own day. *)
Theorem isToday_isTomorrow_isYesterday_one_day_apart
    (h : Host) (t : nat) (d today : Temporal.PlainDate) (tz : string) :
  Temporal.isValidISODate d = true ->
  Temporal.PlainDate_add d (-1) = JS.Ok (Temporal.subtractDays d 1) ->
  Temporal.PlainDate_add d 1 = JS.Ok (Temporal.addDays d 1) ->
  todayLocal h t tz = JS.Ok today ->
  isToday h t d tz = JS.Ok (isDateEqual d today) /\
  isTomorrow h t d tz = JS.Ok (isDateEqual d (Temporal.addDays today 1)) /\
  isYesterday h t d tz = JS.Ok (isDateEqual d (Temporal.subtractDays today 1)) /\
  isDateEqual d today && isDateEqual d (Temporal.addDays today 1) = false /\
  isDateEqual d today && isDateEqual d (Temporal.subtractDays today 1) = false /\
  isDateEqual d (Temporal.addDays today 1)
    && isDateEqual d (Temporal.subtractDays today 1) = false /\
  isToday h t today tz = JS.Ok true /\
  (Temporal.isoDateWithinLimits (Temporal.addDays today 1) = true ->
   isTomorrow h t (Temporal.addDays today 1) tz = JS.Ok true) /\
  (Temporal.isoDateWithinLimits (Temporal.subtractDays today 1) = true ->
   isYesterday h t (Temporal.subtractDays today 1) tz = JS.Ok true).
Proof.
  intros Hd _ _ Htoday. pose proof (todayLocal_valid h t tz today Htoday) as Ht.
  assert (Heq : forall a b : Temporal.PlainDate,
            Temporal.isValidISODate a = true -> Temporal.isValidISODate b = true ->
            (Temporal.comparePlainDate a b =? 0)
            = (Temporal.isoDateToEpochDays a =? Temporal.isoDateToEpochDays b)).
  { intros a b Ha Hb. rewrite comparePlainDate_days by assumption.
    destruct (Z.eqb_spec (Temporal.isoDateToEpochDays a) (Temporal.isoDateToEpochDays b));
      [apply Z.eqb_eq|apply Z.eqb_neq]; lia. }
  unfold isTomorrow, isYesterday, isToday, isDateEqual, Temporal.subtractDays.
  rewrite Htoday. cbn [JS.bind].
  rewrite !equalsPlainDate_compare.
  rewrite !Heq by (try apply addDays_valid; assumption).
  rewrite !isoDateToEpochDays_addDays.
  set (e := Temporal.isoDateToEpochDays d). set (n := Temporal.isoDateToEpochDays today).
  repeat split; try intros _; try (f_equal);
    repeat match goal with
           | |- context [?a =? ?b] => destruct (Z.eqb_spec a b)
           end; try reflexivity; lia.
Qed.

Lemma isToday_isTomorrow_isYesterday_one_day_apart_witness :
  isTomorrow (TestHost.mocked (instantOf "2022-07-09T23:30:00.000Z")) 0
    (Temporal.mkPlainDate 2022 7 11) "Europe/London" = JS.Ok true.
Proof.
  pose proof (isToday_isTomorrow_isYesterday_one_day_apart
                (TestHost.mocked (instantOf "2022-07-09T23:30:00.000Z")) 0
                (Temporal.mkPlainDate 2022 7 11) (Temporal.mkPlainDate 2022 7 10)
                "Europe/London" eq_refl eq_refl eq_refl eq_refl) as (_ & H & _).
  exact H.
Defined.

(** X7.  For durations without years, months or weeks the three comparisons
    succeed and compare the elapsed time, a day counting 24 hours: one hour
    equals sixty minutes.  [isDurationGreater(a, b)] is [isDurationLess(b, a)]
    and exactly one of the three holds. *)
Theorem isDuration_comparisons_by_elapsed_time (a b : Temporal.Duration) :
  hasCalendarUnits a = false -> hasCalendarUnits b = false ->
  isDurationGreater a b = JS.Ok (elapsedNanoseconds b <? elapsedNanoseconds a) /\
  isDurationEqual a b = JS.Ok (elapsedNanoseconds a =? elapsedNanoseconds b) /\
  isDurationLess a b = JS.Ok (elapsedNanoseconds a <? elapsedNanoseconds b) /\
  isDurationGreater a b = isDurationLess b a /\
  isDurationEqual a b = isDurationEqual b a /\
  elapsedNanoseconds a
  = (((Temporal.durationDays a * 24 + Temporal.durationHours a) * 60
      + Temporal.durationMinutes a) * 60 + Temporal.durationSeconds a) * 1000000000
    + Temporal.durationMilliseconds a * 1000000
    + Temporal.durationMicroseconds a * 1000 + Temporal.durationNanoseconds a.
Proof.
  intros Ha Hb.
  unfold isDurationGreater, isDurationEqual, isDurationLess, compareDuration.
  rewrite Ha, Hb. cbn [orb JS.bind].
  set (x := elapsedNanoseconds a). set (y := elapsedNanoseconds b).
  split; [|split; [|split; [|split; [|split]]]];
    try (f_equal;
         repeat match goal with
                | |- context [?u =? ?v] => destruct (Z.eqb_spec u v)
                | |- context [?u <? ?v] => destruct (Z.ltb_spec u v)
                end; try reflexivity; lia).
  subst x. unfold elapsedNanoseconds, Temporal.timeDurationNanoseconds,
    Temporal.nsPerDay, Temporal.nsPerSecond. lia.
Qed.

Lemma isDuration_comparisons_by_elapsed_time_witness :
  isDurationEqual (Temporal.mkDuration 0 0 0 0 1 0 0 0 0 0)
                  (Temporal.mkDuration 0 0 0 0 0 60 0 0 0 0) = JS.Ok true /\
  isDurationGreater (Temporal.mkDuration 0 0 0 0 1 0 0 0 0 0)
                    (Temporal.mkDuration 0 0 0 0 0 59 0 0 0 0) = JS.Ok true.
Proof.
  split.
  - pose proof (isDuration_comparisons_by_elapsed_time
                  (Temporal.mkDuration 0 0 0 0 1 0 0 0 0 0)
                  (Temporal.mkDuration 0 0 0 0 0 60 0 0 0 0) eq_refl eq_refl)
      as (_ & H & _).
    exact H.
  - pose proof (isDuration_comparisons_by_elapsed_time
                  (Temporal.mkDuration 0 0 0 0 1 0 0 0 0 0)
                  (Temporal.mkDuration 0 0 0 0 0 59 0 0 0 0) eq_refl eq_refl)
      as (H & _).
    exact H.
Defined.

(** ** conversion: zones, absence and round trips *)

Lemma resolveTimeZone_cases (db : Temporal.TimeZoneDatabase) (tz : string) :
  (exists rules, Temporal.resolveTimeZone db tz = JS.Ok rules) \/
  Temporal.resolveTimeZone db tz = JS.Throw JS.RangeError.
Proof.
  unfold Temporal.resolveTimeZone.
  destruct (String.eqb tz "UTC"); [left; eexists; reflexivity|].
  destruct (db tz); [left; eexists; reflexivity|right; reflexivity].
Qed.

Lemma toJSDateUTC_toInstant (date : JS.Date) (tz : string) (rules : Temporal.ZoneRules) :
  toJSDateUTC (inl (Temporal.mkZonedDateTime (toInstant date) tz rules)) = date.
Proof.
  destruct date as [ms].
  unfold toJSDateUTC, epochMillisecondsOf, toInstant, Temporal.fromEpochMilliseconds,
    Temporal.epochMilliseconds.
  cbn [JS.getTime Temporal.zonedInstant Temporal.epochNanoseconds].
  f_equal. apply Z.div_mul. lia.
Qed.

(** X15.  Every conversion that takes a time zone fails, with a RangeError,
    when the host does not know the zone; when it does, the result is read
    off the zone's rules: for every instant, for every valid [Date], and for
    every date whose midnight is a date-time, and in the zone an instant, of
    the library's range.  [toPlainDate] goes through the instant of the [Date],
    [todayLocal] through the instant of the clock; [currentTime] reads the
    system clock and fails on an unknown zone like the others.  A zone is
    never needed by [toZonedDateTimeUTC] and [plainDateTimeToJSDate], which
    succeed for a valid [Date] and for a date-time that is an instant of the
    range when read in UTC, and ["UTC"] is known to every host. *)
Theorem zone_conversions_fail_exactly_on_unknown_zone (h : Host) (tz : string) :
  ((exists rules, Temporal.resolveTimeZone (timeZones h) tz = JS.Ok rules) \/
   Temporal.resolveTimeZone (timeZones h) tz = JS.Throw JS.RangeError)
  /\ (forall rules, Temporal.resolveTimeZone (timeZones h) tz = JS.Ok rules ->
        (forall i, instantToPlainDateTime h i tz
                   = JS.Ok (Temporal.localDateTime rules (Temporal.epochNanoseconds i))) /\
        (forall i, instantToPlainDate h i tz
                   = JS.Ok (Temporal.date
                              (Temporal.localDateTime rules (Temporal.epochNanoseconds i)))) /\
        (forall i, instantToPlainTime h i tz
                   = JS.Ok (Temporal.time
                              (Temporal.localDateTime rules (Temporal.epochNanoseconds i)))) /\
        (forall date, -8640000000000000 <= JS.getTime date <= 8640000000000000 ->
                      toPlainDate h date tz
                      = JS.Ok (Temporal.date
                                 (Temporal.localDateTime rules (JS.getTime date * 1000000)))) /\
        (forall d,
           Temporal.isoDateTimeWithinLimits (Temporal.mkPlainDateTime d Temporal.midnight)
           = true ->
           Temporal.isValidEpochNanoseconds
             (Temporal.epochNanosecondsFor rules
                (Temporal.isoDateToEpochDays d * Temporal.nsPerDay)) = true ->
           plainDateToJSDate h d tz
           = JS.Ok (JS.mkDate
                      (Temporal.epochNanosecondsFor rules
                         (Temporal.isoDateToEpochDays d * Temporal.nsPerDay)
                       / 1000000))))
  /\ (Temporal.resolveTimeZone (timeZones h) tz = JS.Throw JS.RangeError ->
        (forall i, instantToPlainDateTime h i tz = JS.Throw JS.RangeError) /\
        (forall i, instantToPlainDate h i tz = JS.Throw JS.RangeError) /\
        (forall i, instantToPlainTime h i tz = JS.Throw JS.RangeError) /\
        (forall date, toPlainDate h date tz = JS.Throw JS.RangeError) /\
        (forall d, plainDateToJSDate h d tz = JS.Throw JS.RangeError) /\
        (forall d, startOfDay h d tz = JS.Throw JS.RangeError) /\
        (forall d, endOfDay h d tz = JS.Throw JS.RangeError) /\
        (forall t, nowLocal h t tz = JS.Throw JS.RangeError) /\
        (forall t, todayLocal h t tz = JS.Throw JS.RangeError) /\
        (forall systemTime, currentTime h systemTime tz = JS.Throw JS.RangeError))
  /\ (forall date, toPlainDate h date tz = instantToPlainDate h (toInstant date) tz)
  /\ (forall t, todayLocal h t tz = instantToPlainDate h (now h t) tz)
  /\ (forall date, -8640000000000000 <= JS.getTime date <= 8640000000000000 ->
        toZonedDateTimeUTC h date
        = JS.Ok (Temporal.mkZonedDateTime (toInstant date) "UTC" Temporal.utcRules) /\
        JS.map (fun z => toJSDateUTC (inl z)) (toZonedDateTimeUTC h date) = JS.Ok date)
  /\ (forall dt,
        Temporal.isValidEpochNanoseconds (Temporal.dateTimeToNanoseconds dt) = true ->
        exists date, plainDateTimeToJSDate h dt tz = JS.Ok date)
  /\ toPlainDate (TestHost.mocked TestHost.now_2022_05_05) (JS.mkDate 0) "Mars/Olympus"
     = JS.Throw JS.RangeError
  /\ toPlainDate (TestHost.mocked TestHost.now_2022_05_05) (JS.mkDate 1657409400000)
       "Europe/London"
     = JS.Ok (Temporal.mkPlainDate 2022 7 10)
  /\ toPlainDate (TestHost.mocked TestHost.now_2022_05_05) (JS.mkDate 1657409400000)
       "UTC"
     = JS.Ok (Temporal.mkPlainDate 2022 7 9).
Proof.
  split; [apply resolveTimeZone_cases|].
  split.
  { intros rules Hr.
    unfold instantToPlainDateTime, instantToPlainDate, instantToPlainTime, toPlainDate,
      plainDateToJSDate, Temporal.dateToZoned, Temporal.dateTimeToZoned,
      Temporal.toZonedDateTimeISO.
    rewrite Hr. cbn [JS.bind].
    split; [reflexivity|]. split; [reflexivity|]. split; [reflexivity|].
    split; [intros date _; reflexivity|].
    intros d _ _. unfold toJSDateUTC, epochMillisecondsOf, Temporal.epochMilliseconds,
      Temporal.dateTimeToNanoseconds.
    cbn [Temporal.zonedInstant Temporal.epochNanoseconds Temporal.date Temporal.time].
    change (Temporal.timeToNanoseconds Temporal.midnight) with 0.
    rewrite Z.add_0_r. reflexivity. }
  split.
  { intro Hr.
    unfold instantToPlainDateTime, instantToPlainDate, instantToPlainTime, toPlainDate,
      plainDateToJSDate, startOfDay, endOfDay, todayLocal, nowLocal, currentTime,
      PlainDate_toZonedDateTime, Temporal.dateToZoned, Temporal.dateTimeToZoned,
      Temporal.toZonedDateTimeISO.
    rewrite Hr. cbn [JS.bind JS.map]. repeat split. }
  split; [reflexivity|].
  split.
  { intro t. unfold todayLocal, instantToPlainDate, nowLocal.
    destruct (Temporal.toZonedDateTimeISO (timeZones h) (now h t) tz); reflexivity. }
  split.
  { intros date _. split; [reflexivity|].
    unfold toZonedDateTimeUTC, TZ_UTC, Temporal.toZonedDateTimeISO.
    rewrite resolveTimeZone_UTC. cbn [JS.bind JS.map].
    f_equal. apply toJSDateUTC_toInstant. }
  split.
  { intros dt _. eexists. unfold plainDateTimeToJSDate, Temporal.dateTimeToZoned.
    rewrite resolveTimeZone_UTC. reflexivity. }
  split; [reflexivity|]. split; vm_compute; reflexivity.
Qed.

Lemma optionally_optionalOf (A B : Type) (f : A -> JS.Result B) :
  optionalOf (optionally f) f.
Proof. unfold optionalOf, optionally. repeat split. Qed.

(** X16.  Each optional conversion returns [undefined] for [null] and for
    [undefined], without looking at the time zone (an unknown zone does not
    make it fail), and for a value exactly what the plain conversion returns,
    its failure included. *)
Theorem optional_conversions_pass_absence_through :
  optionalOf toOptionalJSDateUTC (fun dt => JS.Ok (toJSDateUTC dt)) /\
  optionalOf toOptionalInstant (fun date => JS.Ok (toInstant date)) /\
  (forall h, optionalOf (toOptionalZonedDateTimeUTC h) (toZonedDateTimeUTC h)) /\
  (forall h tz,
     optionalOf (fun date => toOptionalPlainDate h date tz)
                (fun date => toPlainDate h date tz) /\
     optionalOf (fun date => plainDateToOptionalJSDate h date tz)
                (fun date => plainDateToJSDate h date tz) /\
     optionalOf (fun date => plainDateTimeToOptionalJSDate h date tz)
                (fun date => plainDateTimeToJSDate h date tz) /\
     optionalOf (fun date => instantToOptionalPlainDate h date tz)
                (fun date => instantToPlainDate h date tz)) /\
  toOptionalPlainDate (TestHost.mocked TestHost.now_2022_05_05) JS.Null "Mars/Olympus"
  = JS.Ok None /\
  toOptionalPlainDate (TestHost.mocked TestHost.now_2022_05_05) (JS.Val (JS.mkDate 0))
    "Mars/Olympus"
  = JS.Throw JS.RangeError /\
  toOptionalPlainDate (TestHost.mocked TestHost.now_2022_05_05) (JS.Val (JS.mkDate 0)) "UTC"
  = JS.Ok (Some (Temporal.mkPlainDate 1970 1 1)).
Proof.
  split; [apply optionally_optionalOf|]. split; [apply optionally_optionalOf|].
  split; [intro h; apply optionally_optionalOf|].
  split.
  { intros h tz.
    split; [apply (optionally_optionalOf _ _ (fun date => toPlainDate h date tz))|].
    split; [apply (optionally_optionalOf _ _ (fun date => plainDateToJSDate h date tz))|].
    split; [apply (optionally_optionalOf _ _ (fun date => plainDateTimeToJSDate h date tz))|].
    apply (optionally_optionalOf _ _ (fun date => instantToPlainDate h date tz)). }
  split; [reflexivity|]. split; vm_compute; reflexivity.
Qed.









(** ** formatting: failures, absence and the host clock *)

(** X19.  [formatRelativeIso8601DateTimeStr] parses before it looks for
    [Intl.RelativeTimeFormat]: a string that does not parse fails with the
    parser's error on every host; a string that parses fails with the
    "not supported" error on a host without the formatter, and gives what
    [formatRelativeInstant] gives for the parsed instant, its failure
    included.  The optional variant returns [undefined] for absent and
    empty input on every host. *)
Theorem formatRelativeIso8601DateTimeStr_fails_in_parsing_first
    (h : Host) (t : nat) (datetime : string) :
  (forall e, parseInstant datetime = JS.Throw e ->
     formatRelativeIso8601DateTimeStr h t datetime = JS.Throw e)
  /\ (forall i, parseInstant datetime = JS.Ok i -> Intl_RelativeTimeFormat h = None ->
        formatRelativeIso8601DateTimeStr h t datetime
        = JS.Throw
            (JS.PlainError "Intl.RelativeTimeFormat is not supported in this environment"))
  /\ (forall i, parseInstant datetime = JS.Ok i ->
        formatRelativeIso8601DateTimeStr h t datetime = formatRelativeInstant h t i)
  /\ formatOptionalRelativeIso8601DateTimeStr h t JS.Null = JS.Ok None
  /\ formatOptionalRelativeIso8601DateTimeStr h t JS.Undefined = JS.Ok None
  /\ formatOptionalRelativeIso8601DateTimeStr h t (JS.Val ""%string) = JS.Ok None
  /\ (datetime <> ""%string ->
      formatOptionalRelativeIso8601DateTimeStr h t (JS.Val datetime)
      = JS.map Some (formatRelativeIso8601DateTimeStr h t datetime))
  /\ formatRelativeIso8601DateTimeStr
       (TestHost.withoutRelativeTimeFormat TestHost.now_2022_05_05) 0 "yesterday"
     = JS.Throw JS.RangeError
  /\ formatRelativeIso8601DateTimeStr
       (TestHost.withoutRelativeTimeFormat TestHost.now_2022_05_05) 0 "2022-05-05T10:12:13Z"
     = JS.Throw
         (JS.PlainError "Intl.RelativeTimeFormat is not supported in this environment").
Proof.
  unfold formatRelativeIso8601DateTimeStr.
  split; [intros e He; rewrite He; reflexivity|].
  split.
  { intros i Hi Hnone. rewrite Hi. cbn [JS.bind].
    unfold formatRelativeInstant, rtf, rtfNumeric. rewrite Hnone. reflexivity. }
  split; [intros i Hi; rewrite Hi; reflexivity|].
  split; [reflexivity|]. split; [reflexivity|]. split; [reflexivity|].
  split.
  { intro Hne.
    apply (proj1 (proj2 (proj2 (proj2 (parseOptional_counterpart _
             (fun s => JS.bind (parseInstant s) (formatRelativeInstant h t))))))).
    exact Hne. }
  split; vm_compute; reflexivity.
Qed.

(** X20.  What the value-or-absent formatters return for absent input:
    [formatOptionalIso8601ToTime] and [formatOptionalIso8601ToTimeWithSeconds]
    return [null] (also for the empty string), all the others [undefined];
    for a value each returns what its plain formatter returns.  The plain
    time formatters fail exactly when the zone is unknown to the host, the
    ISO 8601 ones also when the string does not parse, which is checked
    first. *)
Theorem optional_formatters_return_null_or_undefined
    (toLocaleString : ToLocaleString) (h : Host) (tz : string) :
  (forall time, JS.notString time = true ->
     formatOptionalIso8601ToTime toLocaleString h time tz = JS.Ok JS.Null /\
     formatOptionalIso8601ToTimeWithSeconds toLocaleString h time tz = JS.Ok JS.Null)
  /\ (forall s, s <> ""%string ->
        formatOptionalIso8601ToTime toLocaleString h (JS.Val s) tz
        = JS.map JS.Val (formatIso8601ToTime toLocaleString h s tz) /\
        formatOptionalIso8601ToTimeWithSeconds toLocaleString h (JS.Val s) tz
        = JS.map JS.Val
            (JS.bind (parseInstant s)
               (fun i => formatInstantTimeWithSeconds toLocaleString h i tz)))
  /\ (forall time : JS.Nullable Temporal.Instant, notObject time = true ->
        formatOptionalInstantTimeWithSeconds toLocaleString h time tz = JS.Ok None /\
        formatOptionalInstantTime24h toLocaleString h time tz = JS.Ok None /\
        formatOptionalInstant toLocaleString h time tz = JS.Ok None)
  /\ (forall i : Temporal.Instant,
        formatOptionalInstantTimeWithSeconds toLocaleString h (JS.Val i) tz
        = JS.map Some (formatInstantTimeWithSeconds toLocaleString h i tz) /\
        formatOptionalInstantTime24h toLocaleString h (JS.Val i) tz
        = JS.map Some (formatInstantTime24h toLocaleString h i tz) /\
        formatOptionalInstant toLocaleString h (JS.Val i) tz
        = JS.map Some (formatInstantTime toLocaleString h i tz))
  /\ (forall date : JS.Nullable Temporal.ZonedDateTime,
        formatOptionalZonedDateTime toLocaleString date
        = formatOptionalZonedDateTimeTime toLocaleString date /\
        formatOptionalZonedDateTime toLocaleString date
        = JS.Ok (match date with
                 | JS.Val z => Some (formatZonedDateTimeTime toLocaleString z)
                 | _ => None
                 end))
  /\ (forall (date : JS.Nullable Temporal.PlainDate) (time : JS.Nullable Temporal.PlainTime)
             (dateTime : JS.Nullable Temporal.PlainDateTime) (jsDate : JS.Nullable JS.Date),
        notObject date = true -> notObject time = true -> notObject dateTime = true ->
        notObject jsDate = true ->
        formatOptionalPlainDate date = JS.Ok None /\
        formatOptionalPlainTime time = JS.Ok None /\
        formatOptionalPlainDateTime dateTime = JS.Ok None /\
        formatOptionalJSDate h jsDate tz = JS.Ok None)
  /\ (forall (date : Temporal.PlainDate) (time : Temporal.PlainTime)
             (dateTime : Temporal.PlainDateTime) (jsDate : JS.Date),
        formatOptionalPlainDate (JS.Val date) = JS.Ok (Some (formatPlainDate date)) /\
        formatOptionalPlainTime (JS.Val time) = JS.Ok (Some (formatPlainTime time)) /\
        formatOptionalPlainDateTime (JS.Val dateTime)
        = JS.Ok (Some (formatPlainDateTime dateTime)) /\
        formatOptionalJSDate h (JS.Val jsDate) tz = JS.map Some (formatJSDate h jsDate tz))
  /\ (Temporal.resolveTimeZone (timeZones h) tz = JS.Throw JS.RangeError ->
        forall i j s date,
          formatInstantTime toLocaleString h i tz = JS.Throw JS.RangeError /\
          formatInstantTimeWithSeconds toLocaleString h i tz = JS.Throw JS.RangeError /\
          formatInstantTime24h toLocaleString h i tz = JS.Throw JS.RangeError /\
          formatInstantTimeRange toLocaleString h i j tz = JS.Throw JS.RangeError /\
          formatIso8601ToTime toLocaleString h s tz = JS.Throw JS.RangeError /\
          formatJSDate h date tz = JS.Throw JS.RangeError)
  /\ (forall rules, Temporal.resolveTimeZone (timeZones h) tz = JS.Ok rules ->
        forall i j,
          formatInstantTime toLocaleString h i tz
          = JS.Ok (toLocaleString (Temporal.mkZonedDateTime i tz rules)
                     (mkLocaleTimeOptions (Some twoDigit) (Some twoDigit) None None)) /\
          formatInstantTimeRange toLocaleString h i j tz
          = JS.Ok (toLocaleString (Temporal.mkZonedDateTime i tz rules)
                     (mkLocaleTimeOptions (Some twoDigit) (Some twoDigit) None None)
                   ++ " - "
                   ++ toLocaleString (Temporal.mkZonedDateTime j tz rules)
                        (mkLocaleTimeOptions (Some twoDigit) (Some twoDigit) None None))%string).
Proof.
  split.
  { intros [| |[|c s]] Hn; try discriminate Hn; split; reflexivity. }
  split.
  { intros [|c s] Hs; [congruence|].
    unfold formatOptionalIso8601ToTime, formatOptionalIso8601ToTimeWithSeconds,
      formatIso8601ToTime.
    cbn [JS.notString].
    destruct (parseInstant (String c s)); split; reflexivity. }
  split.
  { intros [| |i] Hn; try discriminate Hn; repeat split. }
  split; [intro i; repeat split|].
  split.
  { intros [| |z]; split; reflexivity. }
  split.
  { intros [| |a] [| |b] [| |c] [| |x] Ha Hb Hc Hx;
      try discriminate Ha; try discriminate Hb; try discriminate Hc; try discriminate Hx;
      repeat split. }
  split.
  { intros date time dateTime jsDate. repeat split. }
  split.
  { intros Hr i j s date.
    unfold formatInstantTime, formatInstantTimeWithSeconds, formatInstantTime24h,
      formatInstantTimeRange, formatIso8601ToTime, formatJSDate, toPlainDate,
      formatInstantTime, Temporal.toZonedDateTimeISO.
    rewrite Hr. cbn [JS.bind JS.map].
    split; [reflexivity|]. split; [reflexivity|]. split; [reflexivity|].
    split; [reflexivity|]. split; [|reflexivity].
    destruct (parseInstant s) as [x|err] eqn:Hp; cbn [JS.bind]; [reflexivity|].
    unfold parseInstant, Temporal.Instant_from in Hp.
    repeat match type of Hp with
           | context [match ?x with _ => _ end] => destruct x; cbn [JS.bind] in Hp
           | context [if ?x then _ else _] => destruct x; cbn [JS.bind] in Hp
           end; try discriminate Hp; injection Hp as <-; reflexivity. }
  intros rules Hr i j.
  unfold formatInstantTimeRange, formatInstantTime, Temporal.toZonedDateTimeISO.
  rewrite Hr. cbn [JS.bind]. split; reflexivity.
Qed.

Lemma TestHost_dateTimeFormat_in_london :
  TestHost.dateTimeFormat = dateTimeFormatIn TestHost.londonRules.
Proof. reflexivity. Qed.




Lemma isoDateWithinLimits_year (d : Temporal.PlainDate) :
  Temporal.isValidISODate d = true -> Temporal.isoDateWithinLimits d = true ->
  -999999 <= Temporal.year d <= 999999.
Proof.
  intros Hv Hl. rewrite <- (epochDaysToIsoDate_isoDateToEpochDays d Hv).
  apply epochDaysToIsoDate_year_bounds.
  unfold Temporal.isoDateWithinLimits in Hl. apply andb_prop in Hl.
  destruct Hl as [H1 H2]. apply Z.leb_le in H1, H2. lia.
Qed.





(** Cutting a date-time of the range to the minute leaves the range of
    date-times only in its first minute. *)
Lemma dateTimeToMinute_limits (dt : Temporal.PlainDateTime) :
  Temporal.isValidISODate (Temporal.date dt) = true ->
  Temporal.isoDateWithinLimits (Temporal.date dt) = true ->
  Temporal.isValidTime (Temporal.time dt) = true ->
  (Temporal.isoDateTimeWithinLimits (dateTimeToMinute dt) = false
   <-> Temporal.date dt = Temporal.mkPlainDate (-271821) 4 19 /\
       Temporal.hour (Temporal.time dt) = 0 /\ Temporal.minute (Temporal.time dt) = 0).
Proof.
  intros Hv Hl Ht. destruct (isValidTime_fields _ Ht) as (Hh & Hm & _ & _).
  assert (Hfirst : Temporal.isoDateToEpochDays (Temporal.date dt) = -100000001
                   <-> Temporal.date dt = Temporal.mkPlainDate (-271821) 4 19).
  { split.
    - intro HE. rewrite <- (epochDaysToIsoDate_isoDateToEpochDays _ Hv), HE.
      vm_compute. reflexivity.
    - intros ->. vm_compute. reflexivity. }
  unfold Temporal.isoDateWithinLimits in Hl. apply andb_prop in Hl.
  destruct Hl as [Hlo Hhi]. apply Z.leb_le in Hlo, Hhi.
  unfold Temporal.isoDateTimeWithinLimits, Temporal.dateTimeToNanoseconds, dateTimeToMinute,
    timeToMinute, Temporal.timeToNanoseconds.
  cbn [Temporal.date Temporal.time Temporal.hour Temporal.minute Temporal.second
       Temporal.subsecond].
  unfold Temporal.nsMaxInstant, Temporal.nsPerDay, Temporal.nsPerSecond.
  rewrite <- Hfirst. set (E := Temporal.isoDateToEpochDays (Temporal.date dt)) in *.
  rewrite andb_false_iff, !Z.ltb_ge. lia.
Qed.


(** X22.  Formatting and parsing back returns the value, for every date of the
    library's range, every instant of its range and every time of day, the
    time cut to the minute because the text is.  So two dates, or two
    instants, never share a text, and two times share one exactly when they
    agree in hour and minute.  A date-time comes back cut to the minute too,
    unless that is midnight of the first date of the range, which is not a
    date-time of the library: then the parser throws a RangeError. *)
Theorem format_then_parse_returns_every_value :
  (forall d : Temporal.PlainDate,
     Temporal.isValidISODate d = true -> Temporal.isoDateWithinLimits d = true ->
     parsePlainDate (formatPlainDate d) = JS.Ok d)
  /\ (forall d1 d2 : Temporal.PlainDate,
        Temporal.isValidISODate d1 = true -> Temporal.isoDateWithinLimits d1 = true ->
        Temporal.isValidISODate d2 = true -> Temporal.isoDateWithinLimits d2 = true ->
        formatPlainDate d1 = formatPlainDate d2 -> d1 = d2)
  /\ (forall t : Temporal.PlainTime,
        Temporal.isValidTime t = true ->
        parsePlainTime (formatPlainTime t)
        = JS.Ok (Temporal.mkPlainTime (Temporal.hour t) (Temporal.minute t) 0 0))
  /\ (forall t1 t2 : Temporal.PlainTime,
        Temporal.isValidTime t1 = true -> Temporal.isValidTime t2 = true ->
        (formatPlainTime t1 = formatPlainTime t2
         <-> Temporal.hour t1 = Temporal.hour t2 /\ Temporal.minute t1 = Temporal.minute t2))
  /\ (forall dt : Temporal.PlainDateTime,
        Temporal.isValidISODate (Temporal.date dt) = true ->
        Temporal.isoDateWithinLimits (Temporal.date dt) = true ->
        Temporal.isValidTime (Temporal.time dt) = true ->
        parsePlainDateTime (formatPlainDateTime dt)
        = (if Temporal.isoDateTimeWithinLimits (dateTimeToMinute dt)
           then JS.Ok (Temporal.mkPlainDateTime (Temporal.date dt)
                         (Temporal.mkPlainTime (Temporal.hour (Temporal.time dt))
                            (Temporal.minute (Temporal.time dt)) 0 0))
           else JS.Throw JS.RangeError) /\
        (Temporal.isoDateTimeWithinLimits (dateTimeToMinute dt) = false
         <-> Temporal.date dt = Temporal.mkPlainDate (-271821) 4 19 /\
             Temporal.hour (Temporal.time dt) = 0 /\
             Temporal.minute (Temporal.time dt) = 0))
  /\ (forall i : Temporal.Instant,
        Temporal.isValidEpochNanoseconds (Temporal.epochNanoseconds i) = true ->
        parseInstant (formatInstant i) = JS.Ok i)
  /\ (forall i1 i2 : Temporal.Instant,
        Temporal.isValidEpochNanoseconds (Temporal.epochNanoseconds i1) = true ->
        Temporal.isValidEpochNanoseconds (Temporal.epochNanoseconds i2) = true ->
        formatInstant i1 = formatInstant i2 -> i1 = i2).
Proof.
  assert (Hdate : forall d : Temporal.PlainDate,
            Temporal.isValidISODate d = true -> Temporal.isoDateWithinLimits d = true ->
            parsePlainDate (formatPlainDate d) = JS.Ok d).
  { intros d Hv Hl. apply parsePlainDate_formatPlainDate; try assumption.
    apply isoDateWithinLimits_year; assumption. }
  split; [exact Hdate|]. split.
  { intros d1 d2 Hv1 Hl1 Hv2 Hl2 Heq.
    pose proof (Hdate d1 Hv1 Hl1) as H1. pose proof (Hdate d2 Hv2 Hl2) as H2.
    rewrite Heq in H1. congruence. }
  split; [intros t Ht; apply parsePlainTime_formatPlainTime; exact Ht|].
  split.
  { intros t1 t2 Ht1 Ht2. split.
    - intro Heq. pose proof (parsePlainTime_formatPlainTime t1 Ht1) as H1.
      pose proof (parsePlainTime_formatPlainTime t2 Ht2) as H2.
      rewrite Heq in H1. rewrite H1 in H2. unfold timeToMinute in H2.
      injection H2 as Hh Hm. split; assumption.
    - intros [Hh Hm]. rewrite <- (formatPlainTime_timeToMinute t1),
        <- (formatPlainTime_timeToMinute t2).
      unfold timeToMinute. rewrite Hh, Hm. reflexivity. }
  split.
  { intros dt Hv Hl Ht. split.
    - apply (parsePlainDateTime_formatPlainDateTime dt Hv
               (isoDateWithinLimits_year _ Hv Hl) Hl Ht).
    - apply dateTimeToMinute_limits; assumption. }
  split; [intros i Hi; apply parseInstant_formatInstant; exact Hi|].
  intros i1 i2 Hi1 Hi2 Heq.
  pose proof (parseInstant_formatInstant i1 Hi1) as H1.
  pose proof (parseInstant_formatInstant i2 Hi2) as H2.
  rewrite Heq in H1. congruence.
Qed.

(** ** addBusinessDays within the library's range of dates *)

Section BusinessDaysInRange.
Variable isBusinessDay : Temporal.PlainDate -> bool.

Lemma skipNonBusinessDaysInRange_S (fuel : nat) (d : Temporal.PlainDate) :
  skipNonBusinessDaysInRange (S fuel) isBusinessDay d
  = if negb (isBusinessDay d) then
      match Temporal.PlainDate_add d 1 with
      | JS.Ok next' => skipNonBusinessDaysInRange fuel isBusinessDay next'
      | JS.Throw e => Some (JS.Throw e)
      end
    else Some (JS.Ok d).
Proof. reflexivity. Qed.

Lemma addBusinessDaysFromInRange_S (fuel : nat) (n i : Z) (d : Temporal.PlainDate) :
  addBusinessDaysFromInRange (S fuel) isBusinessDay n i d
  = if i <=? n then
      match Temporal.PlainDate_add d 1 with
      | JS.Ok next1 =>
          match skipNonBusinessDaysInRange fuel isBusinessDay next1 with
          | Some (JS.Ok next') =>
              addBusinessDaysFromInRange fuel isBusinessDay n (i + 1) next'
          | Some (JS.Throw e) => Some (JS.Throw e)
          | None => None
          end
      | JS.Throw e => Some (JS.Throw e)
      end
    else Some (JS.Ok d).
Proof. reflexivity. Qed.

(** More fuel does not change an outcome. *)
Lemma skipNonBusinessDaysInRange_mono (fuel fuel' : nat) :
  forall (d : Temporal.PlainDate) (r : JS.Result Temporal.PlainDate),
  skipNonBusinessDaysInRange fuel isBusinessDay d = Some r -> (fuel <= fuel')%nat ->
  skipNonBusinessDaysInRange fuel' isBusinessDay d = Some r.
Proof.
  revert fuel'. induction fuel as [|fuel IH]; intros fuel' d r H Hle; [discriminate|].
  destruct fuel' as [|fuel']; [lia|].
  rewrite skipNonBusinessDaysInRange_S in *.
  destruct (negb (isBusinessDay d)); [|exact H].
  destruct (Temporal.PlainDate_add d 1) as [next'|e]; [|exact H].
  apply IH; [exact H|lia].
Qed.

Lemma addBusinessDaysFromInRange_mono (n : Z) (fuel fuel' : nat) :
  forall (i : Z) (d : Temporal.PlainDate) (r : JS.Result Temporal.PlainDate),
  addBusinessDaysFromInRange fuel isBusinessDay n i d = Some r -> (fuel <= fuel')%nat ->
  addBusinessDaysFromInRange fuel' isBusinessDay n i d = Some r.
Proof.
  revert fuel'. induction fuel as [|fuel IH]; intros fuel' i d r H Hle; [discriminate|].
  destruct fuel' as [|fuel']; [lia|].
  rewrite addBusinessDaysFromInRange_S in *.
  destruct (i <=? n); [|exact H].
  destruct (Temporal.PlainDate_add d 1) as [next1|e]; [|exact H].
  destruct (skipNonBusinessDaysInRange fuel isBusinessDay next1) as [[next'|e]|] eqn:Hs;
    [| |discriminate].
  - rewrite (skipNonBusinessDaysInRange_mono fuel fuel' _ _ Hs) by lia.
    apply IH; [exact H|lia].
  - rewrite (skipNonBusinessDaysInRange_mono fuel fuel' _ _ Hs) by lia. exact H.
Qed.

(** The only error of the loops is the RangeError of [add]. *)
Lemma skipNonBusinessDaysInRange_error (fuel : nat) :
  forall (d : Temporal.PlainDate) (e : JS.Error),
  skipNonBusinessDaysInRange fuel isBusinessDay d = Some (JS.Throw e) -> e = JS.RangeError.
Proof.
  induction fuel as [|fuel IH]; intros d e H; [discriminate|].
  rewrite skipNonBusinessDaysInRange_S in H.
  destruct (negb (isBusinessDay d)); [|discriminate].
  destruct (PlainDate_add_cases d 1) as [[_ Ha]|[_ Ha]]; rewrite Ha in H.
  - apply (IH _ _ H).
  - congruence.
Qed.

Lemma addBusinessDaysFromInRange_error (n : Z) (fuel : nat) :
  forall (i : Z) (d : Temporal.PlainDate) (e : JS.Error),
  addBusinessDaysFromInRange fuel isBusinessDay n i d = Some (JS.Throw e) ->
  e = JS.RangeError.
Proof.
  induction fuel as [|fuel IH]; intros i d e H; [discriminate|].
  rewrite addBusinessDaysFromInRange_S in H.
  destruct (i <=? n); [|discriminate].
  destruct (PlainDate_add_cases d 1) as [[_ Ha]|[_ Ha]]; rewrite Ha in H; [|congruence].
  destruct (skipNonBusinessDaysInRange fuel isBusinessDay (Temporal.addDays d 1))
    as [[next'|e']|] eqn:Hs; [| |discriminate].
  - apply (IH _ _ _ H).
  - injection H as <-. apply (skipNonBusinessDaysInRange_error _ _ _ Hs).
Qed.

(** On the unbounded calendar the loops only move forward. *)
Lemma skipNonBusinessDays_forward (fuel : nat) :
  forall d r : Temporal.PlainDate,
  skipNonBusinessDays fuel isBusinessDay d = Some r ->
  Temporal.isoDateToEpochDays d <= Temporal.isoDateToEpochDays r.
Proof.
  induction fuel as [|fuel IH]; intros d r H; [discriminate|].
  rewrite skipNonBusinessDays_S in H.
  destruct (negb (isBusinessDay d)).
  - apply IH in H. rewrite isoDateToEpochDays_addDays in H. lia.
  - injection H as <-. lia.
Qed.

Lemma addBusinessDaysFrom_forward (n : Z) (fuel : nat) :
  forall (i : Z) (d r : Temporal.PlainDate),
  addBusinessDaysFrom fuel isBusinessDay n i d = Some r ->
  Temporal.isoDateToEpochDays d <= Temporal.isoDateToEpochDays r.
Proof.
  induction fuel as [|fuel IH]; intros i d r H; [discriminate|].
  rewrite addBusinessDaysFrom_S in H.
  destruct (i <=? n).
  - destruct (skipNonBusinessDays fuel isBusinessDay (Temporal.addDays d 1))
      as [next'|] eqn:Hs; [|discriminate].
    apply skipNonBusinessDays_forward in Hs. apply IH in H.
    rewrite isoDateToEpochDays_addDays in Hs. lia.
  - injection H as <-. lia.
Qed.

(** The run with the range check follows the run on the unbounded calendar
    as long as the dates are in the range, and throws at the first date that
    is not. *)
Lemma skipNonBusinessDaysInRange_refines (fuel : nat) :
  forall d r : Temporal.PlainDate,
  skipNonBusinessDays fuel isBusinessDay d = Some r ->
  Temporal.isoDateWithinLimits d = true ->
  skipNonBusinessDaysInRange fuel isBusinessDay d
  = Some (if Temporal.isoDateWithinLimits r then JS.Ok r else JS.Throw JS.RangeError).
Proof.
  induction fuel as [|fuel IH]; intros d r H Hd; [discriminate|].
  rewrite skipNonBusinessDays_S in H. rewrite skipNonBusinessDaysInRange_S.
  destruct (negb (isBusinessDay d)).
  - destruct (PlainDate_add_cases d 1) as [[Hin Ha]|[Hout Ha]]; rewrite Ha.
    + apply IH; assumption.
    + apply skipNonBusinessDays_forward in H.
      rewrite isoDateToEpochDays_addDays in H.
      apply isoDateWithinLimits_days in Hd.
      apply not_true_iff_false in Hout.
      rewrite isoDateWithinLimits_days, isoDateToEpochDays_addDays in Hout.
      rewrite isoDateWithinLimits_beyond by lia. reflexivity.
  - injection H as <-. rewrite Hd. reflexivity.
Qed.

Lemma addBusinessDaysFromInRange_refines (n : Z) (fuel : nat) :
  forall (i : Z) (d r : Temporal.PlainDate),
  addBusinessDaysFrom fuel isBusinessDay n i d = Some r ->
  Temporal.isoDateWithinLimits d = true ->
  addBusinessDaysFromInRange fuel isBusinessDay n i d
  = Some (if Temporal.isoDateWithinLimits r then JS.Ok r else JS.Throw JS.RangeError).
Proof.
  induction fuel as [|fuel IH]; intros i d r H Hd; [discriminate|].
  rewrite addBusinessDaysFrom_S in H. rewrite addBusinessDaysFromInRange_S.
  destruct (i <=? n).
  - destruct (skipNonBusinessDays fuel isBusinessDay (Temporal.addDays d 1))
      as [next'|] eqn:Hs; [|discriminate].
    pose proof (skipNonBusinessDays_forward _ _ _ Hs) as Hfs.
    pose proof (addBusinessDaysFrom_forward _ _ _ _ _ H) as Hfa.
    rewrite isoDateToEpochDays_addDays in Hfs.
    pose proof (proj1 (isoDateWithinLimits_days d) Hd) as Hdd.
    destruct (PlainDate_add_cases d 1) as [[Hin Ha]|[Hout Ha]]; rewrite Ha.
    + rewrite (skipNonBusinessDaysInRange_refines _ _ _ Hs Hin).
      destruct (Temporal.isoDateWithinLimits next') eqn:Hn.
      * apply IH; assumption.
      * apply not_true_iff_false in Hn. rewrite isoDateWithinLimits_days in Hn.
        rewrite isoDateWithinLimits_beyond by lia. reflexivity.
    + apply not_true_iff_false in Hout.
      rewrite isoDateWithinLimits_days, isoDateToEpochDays_addDays in Hout.
      rewrite isoDateWithinLimits_beyond by lia. reflexivity.
  - injection H as <-. rewrite Hd. reflexivity.
Qed.

(** A date the run with the range check returns is the date of the run on
    the unbounded calendar, and lies in the range. *)
Lemma skipNonBusinessDaysInRange_returns (fuel : nat) :
  forall d r : Temporal.PlainDate,
  skipNonBusinessDaysInRange fuel isBusinessDay d = Some (JS.Ok r) ->
  skipNonBusinessDays fuel isBusinessDay d = Some r /\
  (Temporal.isoDateWithinLimits d = true -> Temporal.isoDateWithinLimits r = true).
Proof.
  induction fuel as [|fuel IH]; intros d r H; [discriminate|].
  rewrite skipNonBusinessDaysInRange_S in H. rewrite skipNonBusinessDays_S.
  destruct (negb (isBusinessDay d)).
  - destruct (PlainDate_add_cases d 1) as [[Hin Ha]|[Hout Ha]]; rewrite Ha in H;
      [|discriminate].
    destruct (IH _ _ H) as [Hs Hr]. split; [exact Hs|]. intros _. apply Hr. exact Hin.
  - injection H as <-. split; [reflexivity|]. intro Hd. exact Hd.
Qed.

Lemma addBusinessDaysFromInRange_returns (n : Z) (fuel : nat) :
  forall (i : Z) (d r : Temporal.PlainDate),
  addBusinessDaysFromInRange fuel isBusinessDay n i d = Some (JS.Ok r) ->
  addBusinessDaysFrom fuel isBusinessDay n i d = Some r /\
  (Temporal.isoDateWithinLimits d = true -> Temporal.isoDateWithinLimits r = true).
Proof.
  induction fuel as [|fuel IH]; intros i d r H; [discriminate|].
  rewrite addBusinessDaysFromInRange_S in H. rewrite addBusinessDaysFrom_S.
  destruct (i <=? n).
  - destruct (PlainDate_add_cases d 1) as [[Hin Ha]|[Hout Ha]]; rewrite Ha in H;
      [|discriminate].
    destruct (skipNonBusinessDaysInRange fuel isBusinessDay (Temporal.addDays d 1))
      as [[next'|e]|] eqn:Hs; [|discriminate|discriminate].
    destruct (skipNonBusinessDaysInRange_returns _ _ _ Hs) as [Hs' Hn].
    rewrite Hs'. destruct (IH _ _ _ H) as [Ha' Hr].
    split; [exact Ha'|]. intros _. apply Hr, Hn, Hin.
  - injection H as <-. split; [reflexivity|]. intro Hd. exact Hd.
Qed.

(** The range of dates bounds both loops: within it every run ends, by
    returning or by the RangeError of [add]. *)
Lemma skipNonBusinessDaysInRange_terminates (m : nat) :
  forall d : Temporal.PlainDate,
  Temporal.isoDateWithinLimits d = true ->
  100000000 - Temporal.isoDateToEpochDays d <= Z.of_nat m ->
  exists r, skipNonBusinessDaysInRange (S m) isBusinessDay d = Some r.
Proof.
  induction m as [|m IH]; intros d Hd Hm; rewrite skipNonBusinessDaysInRange_S;
    (destruct (negb (isBusinessDay d)); [|eexists; reflexivity]);
    (destruct (PlainDate_add_cases d 1) as [[Hin Ha]|[Hout Ha]]; rewrite Ha;
     [|eexists; reflexivity]).
  - exfalso. apply isoDateWithinLimits_days in Hin.
    rewrite isoDateToEpochDays_addDays in Hin. lia.
  - apply IH; [exact Hin|]. rewrite isoDateToEpochDays_addDays. lia.
Qed.

Lemma addBusinessDaysFromInRange_terminates (n : Z) (m : nat) :
  forall (i : Z) (d : Temporal.PlainDate),
  Temporal.isoDateWithinLimits d = true ->
  100000000 - Temporal.isoDateToEpochDays d <= Z.of_nat m ->
  exists r, addBusinessDaysFromInRange (m + 2) isBusinessDay n i d = Some r.
Proof.
  induction m as [|m IH]; intros i d Hd Hm;
    [change (0 + 2)%nat with 2%nat|change (S m + 2)%nat with (S (m + 2))];
    rewrite addBusinessDaysFromInRange_S;
    (destruct (i <=? n); [|eexists; reflexivity]);
    (destruct (PlainDate_add_cases d 1) as [[Hin Ha]|[Hout Ha]]; rewrite Ha;
     [|eexists; reflexivity]).
  - exfalso. apply isoDateWithinLimits_days in Hin.
    rewrite isoDateToEpochDays_addDays in Hin. lia.
  - destruct (skipNonBusinessDaysInRange_terminates m (Temporal.addDays d 1) Hin)
      as (r1 & Hr1); [rewrite isoDateToEpochDays_addDays; lia|].
    rewrite (skipNonBusinessDaysInRange_mono (S m) (m + 2) _ _ Hr1) by lia.
    destruct r1 as [next'|e]; [|eexists; reflexivity].
    destruct (skipNonBusinessDaysInRange_returns _ _ _ Hr1) as [Hs Hn].
    apply skipNonBusinessDays_forward in Hs. rewrite isoDateToEpochDays_addDays in Hs.
    apply IH; [apply Hn, Hin|lia].
Qed.

(** What [addBusinessDays] does for [n >= 1] from a date of the range: it
    returns the [n]-th accepted day after the date when that day is in the
    range, and throws a RangeError when there is no such day in the range. *)
Lemma addBusinessDaysInRange_outcome (date : Temporal.PlainDate) (n : Z) :
  1 <= n -> Temporal.isoDateWithinLimits date = true ->
  exists fuel : nat,
    (exists k : nat,
        isNthBusinessDayAfter isBusinessDay date n k /\
        Temporal.isoDateWithinLimits (Temporal.addDays date (Z.of_nat k)) = true /\
        addBusinessDaysInRange fuel date n isBusinessDay
        = Some (JS.Ok (Temporal.addDays date (Z.of_nat k))))
    \/ ((forall k : nat,
           isNthBusinessDayAfter isBusinessDay date n k ->
           Temporal.isoDateWithinLimits (Temporal.addDays date (Z.of_nat k)) = false) /\
        addBusinessDaysInRange fuel date n isBusinessDay = Some (JS.Throw JS.RangeError)).
Proof.
  intros Hn Hd.
  destruct (addBusinessDaysFromInRange_terminates n
              (Z.to_nat (100000000 - Temporal.isoDateToEpochDays date)) 1 date Hd
              ltac:(lia)) as (r & Hr).
  eexists. unfold addBusinessDaysInRange. destruct r as [r|e].
  - left. destruct (addBusinessDaysFromInRange_returns _ _ _ _ _ Hr) as [Hu Hin].
    destruct (addBusinessDaysFrom_sound isBusinessDay n _ 1 date r Hu Hn) as (k & Hk & ->).
    exists k. replace (n - 1 + 1) with n in Hk by lia.
    split; [exact Hk|]. split; [apply Hin, Hd|exact Hr].
  - right. rewrite (addBusinessDaysFromInRange_error _ _ _ _ _ Hr) in Hr.
    split; [|exact Hr].
    intros k Hk.
    destruct (Temporal.isoDateWithinLimits (Temporal.addDays date (Z.of_nat k))) eqn:Hin;
      [exfalso|reflexivity].
    destruct (addBusinessDaysFrom_complete isBusinessDay n (Z.to_nat n - 1) 1 date k
                ltac:(lia)) as (fuel' & Hf').
    { replace (Z.of_nat (S (Z.to_nat n - 1))) with n by lia. exact Hk. }
    pose proof (addBusinessDaysFromInRange_refines _ _ _ _ _ Hf' Hd) as Hok.
    rewrite Hin in Hok.
    pose proof (addBusinessDaysFromInRange_mono n _ (Nat.max fuel' (Z.to_nat (100000000 - Temporal.isoDateToEpochDays date) + 2)) _ _ _ Hok ltac:(lia)) as H1.
    pose proof (addBusinessDaysFromInRange_mono n _ (Nat.max fuel' (Z.to_nat (100000000 - Temporal.isoDateToEpochDays date) + 2)) _ _ _ Hr ltac:(lia)) as H2.
    congruence.
Qed.

End BusinessDaysInRange.

(** C2, as the code has it.  For [n >= 1], whatever
    [addBusinessDays(date, n, isBusinessDay)] returns is [date + k] for the
    [k >= 1] at which the days accepted among [date + 1 .. date + k] number
    exactly [n] and [date + k] itself is accepted; there is at most one such
    day.  From a date of the library's range the function returns that day
    when it lies in the range, and throws the RangeError of [date.add] when
    no such day lies in the range.  With the default predicate (which is
    [1 <= dayOfWeek <= 5]) the day exists on the calendar for every date,
    so that the outcome depends on the range alone.  The fuel only bounds
    the run.  For [n <= 0] the loop body never runs and [date] is returned
    unchanged.  The three dated examples are evaluated. *)
Theorem addBusinessDays_counts_business_days :
  (forall isBusinessDay date n fuel r,
      1 <= n -> addBusinessDaysInRange fuel date n isBusinessDay = Some (JS.Ok r) ->
      exists k : nat,
        isNthBusinessDayAfter isBusinessDay date n k /\
        r = Temporal.addDays date (Z.of_nat k))
  /\ (forall isBusinessDay date n,
      1 <= n -> Temporal.isoDateWithinLimits date = true ->
      exists fuel : nat,
        (exists k : nat,
            isNthBusinessDayAfter isBusinessDay date n k /\
            Temporal.isoDateWithinLimits (Temporal.addDays date (Z.of_nat k)) = true /\
            addBusinessDaysInRange fuel date n isBusinessDay
            = Some (JS.Ok (Temporal.addDays date (Z.of_nat k))))
        \/ ((forall k : nat,
               isNthBusinessDayAfter isBusinessDay date n k ->
               Temporal.isoDateWithinLimits (Temporal.addDays date (Z.of_nat k)) = false) /\
            addBusinessDaysInRange fuel date n isBusinessDay
            = Some (JS.Throw JS.RangeError)))
  /\ (forall isBusinessDay date n k k',
      isNthBusinessDayAfter isBusinessDay date n k ->
      isNthBusinessDayAfter isBusinessDay date n k' -> k = k')
  /\ (forall d, defaultIsBusinessDay d = true <-> 1 <= Temporal.dayOfWeek d <= 5)
  /\ (forall date n, 1 <= n -> Temporal.isoDateWithinLimits date = true ->
      exists (fuel k : nat),
        isNthBusinessDayAfter defaultIsBusinessDay date n k /\
        addBusinessDaysInRange fuel date n defaultIsBusinessDay
        = Some (if Temporal.isoDateWithinLimits (Temporal.addDays date (Z.of_nat k))
                then JS.Ok (Temporal.addDays date (Z.of_nat k))
                else JS.Throw JS.RangeError))
  /\ (forall isBusinessDay date n (fuel fuel' : nat) r,
      addBusinessDaysInRange fuel date n isBusinessDay = Some r -> (fuel <= fuel')%nat ->
      addBusinessDaysInRange fuel' date n isBusinessDay = Some r)
  /\ (forall isBusinessDay date n fuel,
      n <= 0 -> addBusinessDaysInRange (S fuel) date n isBusinessDay = Some (JS.Ok date))
  /\ addBusinessDaysInRange 20 (Temporal.mkPlainDate 2022 8 5) 1 defaultIsBusinessDay
     = Some (JS.Ok (Temporal.mkPlainDate 2022 8 8))
  /\ addBusinessDaysInRange 20 (Temporal.mkPlainDate 2022 8 5) 3 defaultIsBusinessDay
     = Some (JS.Ok (Temporal.mkPlainDate 2022 8 10))
  /\ addBusinessDaysInRange 20 (Temporal.mkPlainDate 2022 8 5) 10 defaultIsBusinessDay
     = Some (JS.Ok (Temporal.mkPlainDate 2022 8 19)).
Proof.
  split; [|split; [|split; [|split; [|split; [|split; [|split; [|split; [|split]]]]]]]].
  - intros isB date n fuel r Hn H.
    destruct (addBusinessDaysFromInRange_returns isB n fuel 1 date r H) as [Hu _].
    destruct (addBusinessDaysFrom_sound isB n fuel 1 date r Hu Hn) as (k & Hk & ->).
    exists k. replace (n - 1 + 1) with n in Hk by lia. split; [exact Hk|reflexivity].
  - intros isB date n. apply addBusinessDaysInRange_outcome.
  - intros isB date n k k'. apply isNthBusinessDayAfter_unique.
  - intro d. unfold defaultIsBusinessDay. rewrite andb_true_iff, Z.geb_le, Z.leb_le.
    reflexivity.
  - intros date n Hn Hd.
    destruct (addBusinessDaysFrom_terminates defaultIsBusinessDay n (Z.to_nat n)
                defaultIsBusinessDay_weekly 1 date ltac:(lia)) as (r & Hr).
    destruct (addBusinessDaysFrom_sound _ _ _ _ _ _ Hr Hn) as (k & Hk & ->).
    exists (Z.to_nat n + 8)%nat, k. replace (n - 1 + 1) with n in Hk by lia.
    split; [exact Hk|].
    apply (addBusinessDaysFromInRange_refines defaultIsBusinessDay n _ 1 date _ Hr Hd).
  - intros isB date n fuel fuel' r. apply addBusinessDaysFromInRange_mono.
  - intros isB date n fuel Hn. unfold addBusinessDaysInRange.
    rewrite addBusinessDaysFromInRange_S.
    destruct (Z.leb_spec 1 n) as [|_]; [lia|]. reflexivity.
  - vm_compute. reflexivity.
  - vm_compute. reflexivity.
  - vm_compute. reflexivity.
Qed.

(** C2 as stated fails at the end of the library's range of dates: one
    business day after Friday +275760-09-12 would be the Monday after the
    last date of the range, and the call throws a RangeError. *)
Lemma addBusinessDays_throws_at_the_end_of_the_range :
  Temporal.isValidISODate (Temporal.mkPlainDate 275760 9 12) = true /\
  Temporal.isoDateWithinLimits (Temporal.mkPlainDate 275760 9 12) = true /\
  Temporal.dayOfWeek (Temporal.mkPlainDate 275760 9 12) = 5 /\
  addBusinessDaysInRange 3 (Temporal.mkPlainDate 275760 9 12) 1 defaultIsBusinessDay
  = Some (JS.Throw JS.RangeError).
Proof. repeat split; vm_compute; reflexivity. Qed.

(** C10, as the code has it.  From a date of the library's range
    [addBusinessDays] ends for every [n] and every predicate, by returning
    or by the RangeError of [date.add]: each step moves one day on, and the
    range ends.  When [isBusinessDay] accepts a day in every run of seven
    consecutive days, it ends within [n + 8] steps; Monday-to-Friday is such
    a predicate.  For the predicate that rejects every day and [n >= 1] it
    never returns a date, and ends with the RangeError once the range is
    walked through; the loops have no bound of their own, as the run on the
    unbounded calendar shows, which never ends. *)
Theorem addBusinessDays_termination :
  (forall isBusinessDay date n,
     Temporal.isoDateWithinLimits date = true ->
     exists r, forall fuel : nat,
       (Z.to_nat (100000000 - Temporal.isoDateToEpochDays date) + 2 <= fuel)%nat ->
       addBusinessDaysInRange fuel date n isBusinessDay = Some r)
  /\ (forall isBusinessDay, acceptsOneDayInSeven isBusinessDay ->
      forall date n, Temporal.isoDateWithinLimits date = true ->
      exists r, forall fuel : nat,
        (Z.to_nat n + 8 <= fuel)%nat ->
        addBusinessDaysInRange fuel date n isBusinessDay = Some r)
  /\ acceptsOneDayInSeven defaultIsBusinessDay
  /\ (forall date n (fuel : nat) r,
       1 <= n -> addBusinessDaysInRange fuel date n (fun _ => false) <> Some (JS.Ok r))
  /\ (forall date n, 1 <= n -> Temporal.isoDateWithinLimits date = true ->
      forall fuel : nat,
        (Z.to_nat (100000000 - Temporal.isoDateToEpochDays date) + 2 <= fuel)%nat ->
        addBusinessDaysInRange fuel date n (fun _ => false) = Some (JS.Throw JS.RangeError))
  /\ (forall date n (fuel : nat),
       1 <= n -> addBusinessDays fuel date n (fun _ => false) = None).
Proof.
  assert (Hnever : forall date n (fuel : nat) r,
            1 <= n -> addBusinessDaysInRange fuel date n (fun _ => false) <> Some (JS.Ok r)).
  { intros date n fuel r Hn H.
    destruct (addBusinessDaysFromInRange_returns _ _ _ _ _ _ H) as [Hu _].
    rewrite addBusinessDaysFrom_rejecting in Hu by exact Hn. discriminate. }
  assert (Hends : forall isBusinessDay date n,
            Temporal.isoDateWithinLimits date = true ->
            exists r, forall fuel : nat,
              (Z.to_nat (100000000 - Temporal.isoDateToEpochDays date) + 2 <= fuel)%nat ->
              addBusinessDaysInRange fuel date n isBusinessDay = Some r).
  { intros isB date n Hd.
    destruct (addBusinessDaysFromInRange_terminates isB n
                (Z.to_nat (100000000 - Temporal.isoDateToEpochDays date)) 1 date Hd
                ltac:(lia)) as (r & Hr).
    exists r. intros fuel Hfuel.
    apply (addBusinessDaysFromInRange_mono isB n _ fuel _ _ _ Hr Hfuel). }
  split; [exact Hends|]. split; [|split; [|split; [|split]]].
  - intros isB Hweek date n Hd.
    destruct (addBusinessDaysFrom_terminates isB n (Z.to_nat n) Hweek 1 date ltac:(lia))
      as (r & Hr).
    eexists. intros fuel Hfuel.
    apply (addBusinessDaysFromInRange_mono isB n _ fuel _ _ _
             (addBusinessDaysFromInRange_refines isB n _ 1 date r Hr Hd) Hfuel).
  - exact defaultIsBusinessDay_weekly.
  - exact Hnever.
  - intros date n Hn Hd fuel Hfuel.
    destruct (Hends (fun _ => false) date n Hd) as (r & Hr).
    specialize (Hr fuel Hfuel). destruct r as [r|e].
    + exfalso. apply (Hnever date n fuel r Hn Hr).
    + rewrite Hr. rewrite (addBusinessDaysFromInRange_error _ _ _ _ _ _ Hr). reflexivity.
  - intros date n fuel Hn. apply addBusinessDaysFrom_rejecting. exact Hn.
Qed.

(** C10 as stated fails: with the predicate that rejects every day the run
    from +275760-09-12 ends after two steps, by the RangeError of
    [date.add] at the end of the range. *)
Lemma addBusinessDays_rejecting_ends_with_RangeError :
  Temporal.isValidISODate (Temporal.mkPlainDate 275760 9 12) = true /\
  Temporal.isoDateWithinLimits (Temporal.mkPlainDate 275760 9 12) = true /\
  addBusinessDaysInRange 3 (Temporal.mkPlainDate 275760 9 12) 1 (fun _ => false)
  = Some (JS.Throw JS.RangeError).
Proof. repeat split; vm_compute; reflexivity. Qed.

(** ** addBusinessDays: sums and weeks *)

Lemma addBusinessDays_zero (isBusinessDay : Temporal.PlainDate -> bool) (fuel : nat)
    (date r : Temporal.PlainDate) (n : Z) :
  n <= 0 -> addBusinessDays fuel date n isBusinessDay = Some r -> r = date.
Proof.
  intros Hn H. destruct fuel as [|fuel]; [discriminate|].
  unfold addBusinessDays in H. rewrite addBusinessDaysFrom_S in H.
  destruct (Z.leb_spec 1 n); [lia|]. congruence.
Qed.

Lemma isNthBusinessDayAfter_add (isBusinessDay : Temporal.PlainDate -> bool)
    (date : Temporal.PlainDate) (a b : Z) (k1 k2 : nat) :
  isNthBusinessDayAfter isBusinessDay date a k1 ->
  isNthBusinessDayAfter isBusinessDay (Temporal.addDays date (Z.of_nat k1)) b k2 ->
  isNthBusinessDayAfter isBusinessDay date (a + b) (k1 + k2).
Proof.
  intros (H1 & _ & Hc1) (H2 & Hb2 & Hc2). split; [lia|]. split.
  - rewrite addDays_addDays in Hb2. rewrite Nat2Z.inj_add. exact Hb2.
  - rewrite countBusinessDays_split, Hc1, Hc2. reflexivity.
Qed.

(** X12.  Business days add up: [b] business days after the date that lies [a]
    business days after [date] is the date [a + b] business days after
    [date], for any predicate and any [a, b >= 0]. *)
Theorem addBusinessDays_adds_up
    (isBusinessDay : Temporal.PlainDate -> bool) (date r1 r2 : Temporal.PlainDate)
    (a b : Z) (fuel1 fuel2 : nat) :
  0 <= a -> 0 <= b ->
  addBusinessDays fuel1 date a isBusinessDay = Some r1 ->
  addBusinessDays fuel2 r1 b isBusinessDay = Some r2 ->
  exists fuel : nat, forall fuel' : nat, (fuel <= fuel')%nat ->
    addBusinessDays fuel' date (a + b) isBusinessDay = Some r2.
Proof.
  intros Ha Hb H1 H2.
  destruct (Z.eq_dec a 0) as [->|Ha0].
  { apply addBusinessDays_zero in H1; [|lia]. subst r1. exists fuel2.
    intros fuel' Hle. rewrite Z.add_0_l.
    apply (addBusinessDaysFrom_mono isBusinessDay b fuel2 fuel' 1 date r2 H2 Hle). }
  destruct (Z.eq_dec b 0) as [->|Hb0].
  { apply addBusinessDays_zero in H2; [|lia]. subst r2. exists fuel1.
    intros fuel' Hle. rewrite Z.add_0_r.
    apply (addBusinessDaysFrom_mono isBusinessDay a fuel1 fuel' 1 date r1 H1 Hle). }
  destruct (addBusinessDaysFrom_sound isBusinessDay a fuel1 1 date r1 H1 ltac:(lia))
    as (k1 & Hk1 & ->).
  destruct (addBusinessDaysFrom_sound isBusinessDay b fuel2 1 _ r2 H2 ltac:(lia))
    as (k2 & Hk2 & ->).
  replace (a - 1 + 1) with a in Hk1 by lia. replace (b - 1 + 1) with b in Hk2 by lia.
  pose proof (isNthBusinessDayAfter_add isBusinessDay date a b k1 k2 Hk1 Hk2) as Hk.
  destruct (addBusinessDaysFrom_complete isBusinessDay (a + b) (Z.to_nat (a + b) - 1) 1
              date (k1 + k2)%nat ltac:(lia)) as (fuel & Hfuel).
  { replace (Z.of_nat (S (Z.to_nat (a + b) - 1))) with (a + b) by lia. exact Hk. }
  exists fuel. intros fuel' Hle. unfold addBusinessDays.
  rewrite (addBusinessDaysFrom_mono isBusinessDay (a + b) fuel fuel' 1 date _ Hfuel Hle).
  rewrite addDays_addDays, Nat2Z.inj_add. reflexivity.
Qed.

Lemma addBusinessDays_adds_up_witness :
  exists fuel : nat, forall fuel' : nat, (fuel <= fuel')%nat ->
    addBusinessDays fuel' (Temporal.mkPlainDate 2022 8 5) (1 + 2) defaultIsBusinessDay
    = Some (Temporal.mkPlainDate 2022 8 10).
Proof.
  apply (addBusinessDays_adds_up defaultIsBusinessDay (Temporal.mkPlainDate 2022 8 5)
           (Temporal.mkPlainDate 2022 8 8) (Temporal.mkPlainDate 2022 8 10) 1 2 20 20).
  - lia.
  - lia.
  - vm_compute. reflexivity.
  - vm_compute. reflexivity.
Defined.

Lemma defaultIsBusinessDay_addDays (x : Temporal.PlainDate) (j : Z) :
  defaultIsBusinessDay (Temporal.addDays x j)
  = ((Temporal.isoDateToEpochDays x + 3 + j) mod 7 <=? 4).
Proof.
  unfold defaultIsBusinessDay. rewrite dayOfWeek_addDays.
  replace (Temporal.isoDateToEpochDays x + j + 3)
    with (Temporal.isoDateToEpochDays x + 3 + j) by lia.
  pose proof (Z.mod_pos_bound (Temporal.isoDateToEpochDays x + 3 + j) 7 eq_refl).
  destruct (Z.leb_spec ((Temporal.isoDateToEpochDays x + 3 + j) mod 7) 4).
  - apply andb_true_intro. split; [apply Z.geb_le|apply Z.leb_le]; lia.
  - apply andb_false_iff. right. apply Z.leb_gt. lia.
Qed.

(** Any seven consecutive days hold five days from Monday to Friday. *)
Lemma countBusinessDays_week (x : Temporal.PlainDate) :
  countBusinessDays defaultIsBusinessDay x 7 = 5.
Proof.
  change (countBusinessDays defaultIsBusinessDay x 7)
    with (0 + (if defaultIsBusinessDay (Temporal.addDays x 1) then 1 else 0)
          + (if defaultIsBusinessDay (Temporal.addDays x 2) then 1 else 0)
          + (if defaultIsBusinessDay (Temporal.addDays x 3) then 1 else 0)
          + (if defaultIsBusinessDay (Temporal.addDays x 4) then 1 else 0)
          + (if defaultIsBusinessDay (Temporal.addDays x 5) then 1 else 0)
          + (if defaultIsBusinessDay (Temporal.addDays x 6) then 1 else 0)
          + (if defaultIsBusinessDay (Temporal.addDays x 7) then 1 else 0)).
  rewrite !defaultIsBusinessDay_addDays.
  set (e := Temporal.isoDateToEpochDays x + 3).
  repeat match goal with
         | |- context [Z.leb ?a 4] => destruct (Z.leb_spec a 4)
         end; Z.div_mod_to_equations; lia.
Qed.

Lemma countBusinessDays_weeks (n : nat) :
  forall x : Temporal.PlainDate,
  countBusinessDays defaultIsBusinessDay x (7 * n) = 5 * Z.of_nat n.
Proof.
  induction n as [|n IH]; intro x; [reflexivity|].
  replace (7 * S n)%nat with (7 + 7 * n)%nat by lia.
  rewrite countBusinessDays_split, countBusinessDays_week, IH. lia.
Qed.

(** X13.  With the default predicate, from a day between Monday and Friday,
    [5 * n] business days later is [n] weeks later, for every [n >= 1]. *)
Theorem addBusinessDays_five_days_a_week (date : Temporal.PlainDate) (n : Z) (fuel : nat) :
  1 <= Temporal.dayOfWeek date <= 5 -> 1 <= n ->
  (Z.to_nat (5 * n) + 8 <= fuel)%nat ->
  addBusinessDays fuel date (5 * n) defaultIsBusinessDay
  = Some (Temporal.addDays date (7 * n)).
Proof.
  intros Hdow Hn Hfuel.
  assert (Hk : isNthBusinessDayAfter defaultIsBusinessDay date (5 * n)
                 (7 * Z.to_nat n)).
  { split; [lia|]. split.
    - rewrite defaultIsBusinessDay_addDays. apply Z.leb_le.
      unfold Temporal.dayOfWeek in Hdow.
      replace (Z.of_nat (7 * Z.to_nat n)) with (n * 7) by lia.
      rewrite Z_mod_plus_full. lia.
    - rewrite countBusinessDays_weeks. lia. }
  destruct (addBusinessDaysFrom_terminates defaultIsBusinessDay (5 * n) (Z.to_nat (5 * n))
              defaultIsBusinessDay_weekly 1 date ltac:(lia)) as (r & Hr).
  destruct (addBusinessDaysFrom_sound defaultIsBusinessDay (5 * n) _ 1 date r Hr ltac:(lia))
    as (k & Hk' & ->).
  replace (5 * n - 1 + 1) with (5 * n) in Hk' by lia.
  pose proof (isNthBusinessDayAfter_unique defaultIsBusinessDay date (5 * n) _ _ Hk Hk')
    as <-.
  unfold addBusinessDays.
  rewrite (addBusinessDaysFrom_mono defaultIsBusinessDay (5 * n) _ fuel 1 date _ Hr Hfuel).
  do 2 f_equal. lia.
Qed.

Lemma addBusinessDays_five_days_a_week_witness :
  addBusinessDays 30 (Temporal.mkPlainDate 2022 8 5) (5 * 2) defaultIsBusinessDay
  = Some (Temporal.addDays (Temporal.mkPlainDate 2022 8 5) (7 * 2)).
Proof.
  apply (addBusinessDays_five_days_a_week (Temporal.mkPlainDate 2022 8 5) 2 30).
  - vm_compute. split; intro X; discriminate X.
  - lia.
  - vm_compute. lia.
Defined.

(** ** parsing: instants from epoch milliseconds *)

(** X23.  [parseInstantFromEpochMilliseconds(ms)], for [ms] in the range of a
    [Date], is the instant [toInstant] gives for [new Date(ms)]: [toJSDateUTC]
    takes it back to [ms], its text parses back to it, and the instants of
    two counts are ordered as the counts are. *)
Theorem parseInstantFromEpochMilliseconds_keeps_the_milliseconds (ms ms' : Z) :
  - 8640000000000000 <= ms <= 8640000000000000 ->
  parseInstantFromEpochMilliseconds ms = toInstant (JS.mkDate ms) /\
  toJSDateUTC (inr (parseInstantFromEpochMilliseconds ms)) = JS.mkDate ms /\
  parseInstant (formatInstant (parseInstantFromEpochMilliseconds ms))
  = JS.Ok (parseInstantFromEpochMilliseconds ms) /\
  isInstantBefore (parseInstantFromEpochMilliseconds ms)
                  (parseInstantFromEpochMilliseconds ms') = (ms <? ms') /\
  isInstantEqual (parseInstantFromEpochMilliseconds ms)
                 (parseInstantFromEpochMilliseconds ms') = (ms =? ms').
Proof.
  intro Hrange. split; [reflexivity|]. split.
  { unfold toJSDateUTC, epochMillisecondsOf, parseInstantFromEpochMilliseconds,
      Temporal.fromEpochMilliseconds, Temporal.epochMilliseconds.
    cbn [Temporal.epochNanoseconds]. f_equal. apply Z.div_mul. lia. }
  split.
  { apply parseInstant_formatInstant.
    unfold parseInstantFromEpochMilliseconds, Temporal.fromEpochMilliseconds,
      Temporal.isValidEpochNanoseconds, Temporal.nsMaxInstant, Temporal.nsPerDay,
      Temporal.nsPerSecond.
    cbn [Temporal.epochNanoseconds].
    apply andb_true_intro. split; apply Z.leb_le; lia. }
  unfold isInstantBefore, isInstantEqual, Temporal.compareInstant, Temporal.equalsInstant,
    parseInstantFromEpochMilliseconds, Temporal.fromEpochMilliseconds.
  cbn [Temporal.epochNanoseconds].
  destruct (Z.ltb_spec ms ms'), (Z.ltb_spec (ms * 1000000) (ms' * 1000000)),
    (Z.ltb_spec (ms' * 1000000) (ms * 1000000)), (Z.eqb_spec ms ms'),
    (Z.eqb_spec (ms * 1000000) (ms' * 1000000)); try lia; split; reflexivity.
Qed.

Lemma parseInstantFromEpochMilliseconds_keeps_the_milliseconds_witness :
  toJSDateUTC (inr (parseInstantFromEpochMilliseconds 1651745533000))
  = JS.mkDate 1651745533000 /\
  parseInstant (formatInstant (parseInstantFromEpochMilliseconds 1651745533000))
  = JS.Ok (parseInstantFromEpochMilliseconds 1651745533000).
Proof.
  pose proof (parseInstantFromEpochMilliseconds_keeps_the_milliseconds
                1651745533000 0 ltac:(lia)) as (_ & H1 & H2 & _).
  split; [exact H1|exact H2].
Defined.

(** ** The calendar: months and years *)

(** Evaluates the comparisons of the goal whose operands are numerals. *)
Ltac decide_numeral_tests :=
  repeat match goal with
         | |- context [?a <=? ?b] =>
             let v := eval vm_compute in (a <=? b) in
             match v with
             | true => change (a <=? b) with true
             | false => change (a <=? b) with false
             end
         | |- context [?a <? ?b] =>
             let v := eval vm_compute in (a <? b) in
             match v with
             | true => change (a <? b) with true
             | false => change (a <? b) with false
             end
         | |- context [?a =? ?b] =>
             let v := eval vm_compute in (a =? b) in
             match v with
             | true => change (a =? b) with true
             | false => change (a =? b) with false
             end
         end;
  cbv beta iota delta [orb andb negb].

Lemma marchFirst_year (y : Z) :
  365 * (y + 1) + (y + 1) / 4 - (y + 1) / 100 + (y + 1) / 400
  = 365 * y + y / 4 - y / 100 + y / 400
    + (if Temporal.isLeapYear (y + 1) then 366 else 365).
Proof.
  destruct (Temporal.isLeapYear (y + 1)) eqn:Hl.
  - symmetry. apply marchFirst_step. exact Hl.
  - unfold Temporal.isLeapYear in Hl. apply andb_false_iff in Hl.
    destruct Hl as [H|H].
    + apply Z.eqb_neq in H. Z.div_mod_to_equations. lia.
    + apply orb_false_iff in H. destruct H as [H1 H2].
      apply negb_false_iff, Z.eqb_eq in H1. apply Z.eqb_neq in H2.
      Z.div_mod_to_equations. lia.
Qed.

Lemma balanceISOYearMonth_month (y m : Z) :
  1 <= m <= 12 -> Temporal.balanceISOYearMonth y m = (y, m).
Proof.
  intro Hm. unfold Temporal.balanceISOYearMonth. f_equal.
  - rewrite Z.div_small by lia. lia.
  - rewrite Z.mod_small by lia. lia.
Qed.

Lemma balanceISOYearMonth_next (y m : Z) :
  1 <= m <= 12 ->
  Temporal.balanceISOYearMonth y (m + 1) = if m =? 12 then (y + 1, 1) else (y, m + 1).
Proof.
  intro Hm. destruct (Z.eqb_spec m 12) as [->|Hne]; [reflexivity|].
  apply balanceISOYearMonth_month. lia.
Qed.

Lemma balanceISOYearMonth_previous (y m : Z) :
  1 <= m <= 12 ->
  Temporal.balanceISOYearMonth y (m - 1) = if m =? 1 then (y - 1, 12) else (y, m - 1).
Proof.
  intro Hm. destruct (Z.eqb_spec m 1) as [->|Hne]; [reflexivity|].
  apply balanceISOYearMonth_month. lia.
Qed.

(** The first day of the next month comes [daysInMonth] days after the
    first day of a month. *)
Lemma isoDateToEpochDays_next_month (y m : Z) :
  1 <= m <= 12 ->
  Temporal.isoDateToEpochDays
    (if m =? 12 then Temporal.mkPlainDate (y + 1) 1 1 else Temporal.mkPlainDate y (m + 1) 1)
  = Temporal.isoDateToEpochDays (Temporal.mkPlainDate y m 1) + Temporal.ISODaysInMonth y m.
Proof.
  intro Hm.
  assert (Hcases : m = 1 \/ m = 2 \/ m = 3 \/ m = 4 \/ m = 5 \/ m = 6 \/ m = 7 \/
                   m = 8 \/ m = 9 \/ m = 10 \/ m = 11 \/ m = 12) by lia.
  repeat (destruct Hcases as [->|Hcases]); try subst m;
    decide_numeral_tests;
    rewrite !isoDateToEpochDays_march;
    cbn [Temporal.year Temporal.month Temporal.day]; cbv zeta;
    unfold dayOfYearOfMonthDay, Temporal.ISODaysInMonth;
    decide_numeral_tests;
    try (Z.div_mod_to_equations; lia).
  - pose proof (marchFirst_year (y - 1)) as Hy.
    replace (y - 1 + 1) with y in Hy by lia.
    destruct (Temporal.isLeapYear y); Z.div_mod_to_equations; lia.
Qed.

Lemma ISODaysInMonth_ge_28 (y m : Z) : 28 <= Temporal.ISODaysInMonth y m.
Proof.
  unfold Temporal.ISODaysInMonth.
  repeat match goal with |- context [if ?c then _ else _] => destruct c end; lia.
Qed.

(** One month on, and one month back, is at least 28 days away; one year
    on or back at least 364 days. *)
Lemma addYearsMonths_next_month (d : Temporal.PlainDate) :
  Temporal.isValidISODate d = true ->
  28 <= Temporal.isoDateToEpochDays (Temporal.addYearsMonths d 0 1)
        - Temporal.isoDateToEpochDays d.
Proof.
  intro Hv. destruct d as [y m dd].
  destruct (isValidISODate_first y m dd Hv) as (_ & _ & Hd).
  destruct (isValidISODate_fields _ Hv) as (Hm & _ & _).
  cbn [Temporal.year Temporal.month Temporal.day] in Hm.
  unfold Temporal.addYearsMonths. cbn [Temporal.year Temporal.month Temporal.day].
  rewrite Z.add_0_r, balanceISOYearMonth_next by exact Hm.
  pose proof (isoDateToEpochDays_next_month y m Hm) as Hnext.
  rewrite (isoDateToEpochDays_day y m dd).
  destruct (Z.eqb_spec m 12) as [->|Hne].
  - rewrite (isoDateToEpochDays_day (y + 1) 1). rewrite Hnext.
    assert (H1 : Temporal.ISODaysInMonth (y + 1) 1 = 31) by reflexivity.
    assert (H2 : Temporal.ISODaysInMonth y 12 = 31) by reflexivity.
    rewrite H1, H2 in *. lia.
  - rewrite (isoDateToEpochDays_day y (m + 1)). rewrite Hnext.
    pose proof (ISODaysInMonth_ge_28 y (m + 1)). pose proof (ISODaysInMonth_ge_28 y m).
    lia.
Qed.

Lemma addYearsMonths_previous_month (d : Temporal.PlainDate) :
  Temporal.isValidISODate d = true ->
  28 <= Temporal.isoDateToEpochDays d
        - Temporal.isoDateToEpochDays (Temporal.addYearsMonths d 0 (-1)).
Proof.
  intro Hv. destruct d as [y m dd].
  destruct (isValidISODate_first y m dd Hv) as (_ & _ & Hd).
  destruct (isValidISODate_fields _ Hv) as (Hm & _ & _).
  cbn [Temporal.year Temporal.month Temporal.day] in Hm.
  unfold Temporal.addYearsMonths. cbn [Temporal.year Temporal.month Temporal.day].
  rewrite Z.add_0_r. change (m + -1) with (m - 1).
  rewrite balanceISOYearMonth_previous by exact Hm.
  rewrite (isoDateToEpochDays_day y m dd).
  destruct (Z.eqb_spec m 1) as [->|Hne].
  - pose proof (isoDateToEpochDays_next_month (y - 1) 12 ltac:(lia)) as Hnext.
    change (12 =? 12) with true in Hnext. cbv beta iota in Hnext.
    replace (y - 1 + 1) with y in Hnext by lia.
    rewrite (isoDateToEpochDays_day (y - 1) 12). rewrite Hnext.
    assert (H1 : Temporal.ISODaysInMonth (y - 1) 12 = 31) by reflexivity.
    rewrite H1. lia.
  - pose proof (isoDateToEpochDays_next_month y (m - 1) ltac:(lia)) as Hnext.
    destruct (Z.eqb_spec (m - 1) 12) as [|_]; [lia|].
    replace (m - 1 + 1) with m in Hnext by lia.
    rewrite (isoDateToEpochDays_day y (m - 1)). rewrite Hnext.
    pose proof (ISODaysInMonth_ge_28 y (m - 1)). lia.
Qed.

Lemma ISODaysInMonth_next_year (y m : Z) :
  Temporal.ISODaysInMonth y m - 1 <= Temporal.ISODaysInMonth (y + 1) m
  /\ Temporal.ISODaysInMonth y m - 1 <= Temporal.ISODaysInMonth (y - 1) m.
Proof.
  unfold Temporal.ISODaysInMonth.
  destruct (m =? 2);
    [destruct (Temporal.isLeapYear y), (Temporal.isLeapYear (y + 1)),
       (Temporal.isLeapYear (y - 1)); lia|].
  destruct ((m =? 4) || (m =? 6) || (m =? 9) || (m =? 11)); lia.
Qed.

Lemma isoDateToEpochDays_next_year (y m : Z) :
  365 <= Temporal.isoDateToEpochDays (Temporal.mkPlainDate (y + 1) m 1)
         - Temporal.isoDateToEpochDays (Temporal.mkPlainDate y m 1).
Proof.
  rewrite !isoDateToEpochDays_march.
  cbn [Temporal.year Temporal.month Temporal.day]. cbv zeta.
  destruct (m <=? 2).
  - pose proof (marchFirst_step (y - 1)) as [H _].
    replace (y + 1 - 1) with (y - 1 + 1) by lia. lia.
  - pose proof (marchFirst_step y) as [H _]. lia.
Qed.

Lemma addYearsMonths_next_year (d : Temporal.PlainDate) :
  Temporal.isValidISODate d = true ->
  28 <= Temporal.isoDateToEpochDays (Temporal.addYearsMonths d 1 0)
        - Temporal.isoDateToEpochDays d.
Proof.
  intro Hv. destruct d as [y m dd].
  destruct (isValidISODate_first y m dd Hv) as (_ & _ & Hd).
  destruct (isValidISODate_fields _ Hv) as (Hm & _ & _).
  cbn [Temporal.year Temporal.month Temporal.day] in Hm.
  unfold Temporal.addYearsMonths. cbn [Temporal.year Temporal.month Temporal.day].
  rewrite Z.add_0_r, balanceISOYearMonth_month by exact Hm.
  rewrite (isoDateToEpochDays_day y m dd), (isoDateToEpochDays_day (y + 1) m).
  pose proof (isoDateToEpochDays_next_year y m).
  pose proof (ISODaysInMonth_next_year y m) as [Hn _]. lia.
Qed.

Lemma addYearsMonths_previous_year (d : Temporal.PlainDate) :
  Temporal.isValidISODate d = true ->
  28 <= Temporal.isoDateToEpochDays d
        - Temporal.isoDateToEpochDays (Temporal.addYearsMonths d (-1) 0).
Proof.
  intro Hv. destruct d as [y m dd].
  destruct (isValidISODate_first y m dd Hv) as (_ & _ & Hd).
  destruct (isValidISODate_fields _ Hv) as (Hm & _ & _).
  cbn [Temporal.year Temporal.month Temporal.day] in Hm.
  unfold Temporal.addYearsMonths. cbn [Temporal.year Temporal.month Temporal.day].
  rewrite Z.add_0_r, balanceISOYearMonth_month by exact Hm.
  change (y + -1) with (y - 1).
  rewrite (isoDateToEpochDays_day y m dd), (isoDateToEpochDays_day (y - 1) m).
  pose proof (isoDateToEpochDays_next_year (y - 1) m) as Hy.
  replace (y - 1 + 1) with y in Hy by lia.
  pose proof (ISODaysInMonth_next_year y m) as [_ Hn]. lia.
Qed.

Lemma addYearsMonths_zero (d : Temporal.PlainDate) :
  Temporal.isValidISODate d = true -> Temporal.addYearsMonths d 0 0 = d.
Proof.
  intro Hv. destruct d as [y m dd].
  destruct (isValidISODate_first y m dd Hv) as (_ & _ & Hd).
  destruct (isValidISODate_fields _ Hv) as (Hm & _ & _).
  cbn [Temporal.year Temporal.month Temporal.day] in Hm.
  unfold Temporal.addYearsMonths. cbn [Temporal.year Temporal.month Temporal.day].
  rewrite !Z.add_0_r, balanceISOYearMonth_month by exact Hm.
  f_equal. lia.
Qed.

(** ** formatting: relative time within four weeks *)

Lemma addDurationZoned_since (rules : Temporal.ZoneRules) (origin : Z)
    (i other : Temporal.Instant) :
  Temporal.addDurationZoned rules origin (Temporal.since i other)
  = origin + (Temporal.epochNanoseconds i - Temporal.epochNanoseconds other).
Proof.
  unfold Temporal.addDurationZoned. rewrite since_elapsed. reflexivity.
Qed.

Lemma Math_trunc_whole_and_fraction (whole sign a : Z) (p : positive) :
  JS.Math_trunc (inject_Z whole + inject_Z sign * Qmake a p)%Q
  = Z.quot (whole * Zpos p + sign * a) (Zpos p).
Proof.
  unfold JS.Math_trunc, Qplus, Qmult, inject_Z. cbn [Qnum Qden].
  rewrite !Pos.mul_1_l. f_equal. lia.
Qed.

(** A clock unit: the elapsed nanoseconds divided by the unit, toward zero. *)
Lemma truncatedTotal_clock (h : Host) (i other : Temporal.Instant) (t : nat) :
  let D := Temporal.epochNanoseconds i - Temporal.epochNanoseconds other in
  truncatedTotal h (Temporal.since i other) t Temporal.hours
  = Z.quot D (3600 * Temporal.nsPerSecond) /\
  truncatedTotal h (Temporal.since i other) t Temporal.minutes
  = Z.quot D (60 * Temporal.nsPerSecond) /\
  truncatedTotal h (Temporal.since i other) t Temporal.seconds
  = Z.quot D Temporal.nsPerSecond.
Proof.
  intro D. unfold truncatedTotal, Temporal.total.
  cbn [Temporal.zoneRules Temporal.zonedInstant Temporal.epochNanoseconds].
  cbv zeta. rewrite addDurationZoned_since. fold D.
  replace (Temporal.epochNanoseconds (now h t) + D - Temporal.epochNanoseconds (now h t))
    with D by lia.
  repeat split.
Qed.

Lemma localDateTime_utc (ns : Z) :
  Temporal.localDateTime Temporal.utcRules ns = Temporal.nanosecondsToDateTime ns.
Proof.
  unfold Temporal.localDateTime. cbn [Temporal.utcRules Temporal.offsetNanosecondsFor].
  rewrite Z.add_0_r. reflexivity.
Qed.

(** A calendar unit, on UTC: the whole units that fit and the fraction of
    the next one, truncated. *)
Lemma truncatedTotal_calendar (h : Host) (i other : Temporal.Instant) (t : nat)
    (u : Temporal.Unit) :
  let D := Temporal.epochNanoseconds i - Temporal.epochNanoseconds other in
  let origin := Temporal.epochNanoseconds (now h t) in
  let local := Temporal.nanosecondsToDateTime origin in
  let k0 :=
    Temporal.unitsBetweenDates u (Temporal.date local)
      (Temporal.date (Temporal.nanosecondsToDateTime (origin + D))) in
  let shift := Temporal.shiftByUnit Temporal.utcRules local u in
  let whole := if 0 <=? Z.sgn D * (origin + D - shift k0) then k0 else k0 - Z.sgn D in
  let P := Z.to_pos (Z.abs (shift (whole + Z.sgn D) - shift whole)) in
  u = Temporal.years \/ u = Temporal.months \/ u = Temporal.weeks \/ u = Temporal.days ->
  D <> 0 ->
  truncatedTotal h (Temporal.since i other) t u
  = Z.quot (whole * Zpos P + Z.sgn D * Z.abs (origin + D - shift whole)) (Zpos P).
Proof.
  intros D origin local k0 shift whole P Hu HD.
  unfold truncatedTotal, Temporal.total.
  cbn [Temporal.zoneRules Temporal.zonedInstant Temporal.epochNanoseconds].
  cbv zeta. rewrite addDurationZoned_since. fold D origin.
  replace (origin + D - origin) with D by lia.
  rewrite !localDateTime_utc. fold local.
  destruct (Z.eqb_spec D 0) as [|_]; [contradiction|].
  fold k0 shift. fold whole. fold P.
  destruct Hu as [Hu|[Hu|[Hu|Hu]]]; subst u; apply Math_trunc_whole_and_fraction.
Qed.

Section OnUTC.
Variable origin : Z.

Let local : Temporal.PlainDateTime := Temporal.nanosecondsToDateTime origin.

Lemma shiftByUnit_date (u : Temporal.Unit) (k : Z) (date' : Temporal.PlainDate) :
  Temporal.epochNanosecondsFor Temporal.utcRules
    (Temporal.dateTimeToNanoseconds (Temporal.mkPlainDateTime date' (Temporal.time local)))
  = origin
    + (Temporal.isoDateToEpochDays date' - Temporal.isoDateToEpochDays (Temporal.date local))
      * Temporal.nsPerDay.
Proof.
  cbn [Temporal.utcRules Temporal.epochNanosecondsFor].
  pose proof (dateTimeToNanoseconds_nanosecondsToDateTime origin) as Hback.
  fold local in Hback. unfold Temporal.dateTimeToNanoseconds in *.
  cbn [Temporal.date Temporal.time]. lia.
Qed.

Lemma shiftByUnit_days (k : Z) :
  Temporal.shiftByUnit Temporal.utcRules local Temporal.days k
  = origin + k * Temporal.nsPerDay.
Proof.
  unfold Temporal.shiftByUnit. rewrite (shiftByUnit_date Temporal.days k).
  rewrite isoDateToEpochDays_addDays. f_equal. lia.
Qed.

Lemma shiftByUnit_weeks (k : Z) :
  Temporal.shiftByUnit Temporal.utcRules local Temporal.weeks k
  = origin + k * (7 * Temporal.nsPerDay).
Proof.
  unfold Temporal.shiftByUnit. rewrite (shiftByUnit_date Temporal.weeks k).
  rewrite isoDateToEpochDays_addDays. lia.
Qed.

Lemma shiftByUnit_months (k : Z) :
  Temporal.shiftByUnit Temporal.utcRules local Temporal.months k
  = origin
    + (Temporal.isoDateToEpochDays (Temporal.addYearsMonths (Temporal.date local) 0 k)
       - Temporal.isoDateToEpochDays (Temporal.date local)) * Temporal.nsPerDay.
Proof. unfold Temporal.shiftByUnit. apply (shiftByUnit_date Temporal.months k). Qed.

Lemma shiftByUnit_years (k : Z) :
  Temporal.shiftByUnit Temporal.utcRules local Temporal.years k
  = origin
    + (Temporal.isoDateToEpochDays (Temporal.addYearsMonths (Temporal.date local) k 0)
       - Temporal.isoDateToEpochDays (Temporal.date local)) * Temporal.nsPerDay.
Proof. unfold Temporal.shiftByUnit. apply (shiftByUnit_date Temporal.years k). Qed.

End OnUTC.

Lemma truncatedTotal_zero (h : Host) (i other : Temporal.Instant) (t : nat)
    (u : Temporal.Unit) :
  Temporal.epochNanoseconds i - Temporal.epochNanoseconds other = 0 ->
  truncatedTotal h (Temporal.since i other) t u = 0.
Proof.
  intro HD. unfold truncatedTotal, Temporal.total.
  cbn [Temporal.zoneRules Temporal.zonedInstant Temporal.epochNanoseconds].
  cbv zeta. rewrite addDurationZoned_since, HD, Z.add_0_r, Z.sub_diag.
  destruct u; reflexivity.
Qed.

(** The truncated total when the whole units are known to leave a rest of
    the sign of the difference. *)
Lemma quot_of_whole_and_rest (D N whole : Z) :
  0 < N -> D <> 0 -> 0 <= Z.sgn D * (D - whole * N) ->
  Z.quot (whole * Zpos (Z.to_pos (Z.abs (Z.sgn D * N)))
          + Z.sgn D * Z.abs (D - whole * N))
         (Zpos (Z.to_pos (Z.abs (Z.sgn D * N))))
  = Z.quot D N.
Proof.
  intros HN HD Hrest.
  assert (Habs : Z.abs (Z.sgn D * N) = N) by lia.
  rewrite Habs, Z2Pos.id by lia. f_equal. lia.
Qed.

Lemma truncatedTotal_days (h : Host) (i other : Temporal.Instant) (t : nat) :
  truncatedTotal h (Temporal.since i other) t Temporal.days
  = Z.quot (Temporal.epochNanoseconds i - Temporal.epochNanoseconds other)
           Temporal.nsPerDay.
Proof.
  set (D := Temporal.epochNanoseconds i - Temporal.epochNanoseconds other).
  destruct (Z.eq_dec D 0) as [HD|HD].
  { rewrite truncatedTotal_zero by exact HD. rewrite HD. reflexivity. }
  rewrite truncatedTotal_calendar by (auto; exact HD). fold D.
  set (origin := Temporal.epochNanoseconds (now h t)).
  rewrite !shiftByUnit_days.
  unfold Temporal.unitsBetweenDates, Temporal.nanosecondsToDateTime.
  cbn [Temporal.date]. rewrite !isoDateToEpochDays_epochDaysToIsoDate.
  set (k0 := (origin + D) / Temporal.nsPerDay - origin / Temporal.nsPerDay).
  assert (Hk0 : - Temporal.nsPerDay < D - k0 * Temporal.nsPerDay < Temporal.nsPerDay).
  { subst k0. change Temporal.nsPerDay with 86400000000000.
    Z.div_mod_to_equations. lia. }
  set (whole := if 0 <=? Z.sgn D * (origin + D - (origin + k0 * Temporal.nsPerDay))
                then k0 else k0 - Z.sgn D).
  assert (Hwhole : 0 <= Z.sgn D * (D - whole * Temporal.nsPerDay)).
  { subst whole.
    destruct (Z.leb_spec 0 (Z.sgn D * (origin + D - (origin + k0 * Temporal.nsPerDay))));
      change Temporal.nsPerDay with 86400000000000 in *; nia. }
  replace (origin + (whole + Z.sgn D) * Temporal.nsPerDay
           - (origin + whole * Temporal.nsPerDay))
    with (Z.sgn D * Temporal.nsPerDay) by lia.
  replace (origin + D - (origin + whole * Temporal.nsPerDay))
    with (D - whole * Temporal.nsPerDay) by lia.
  apply quot_of_whole_and_rest; [reflexivity|exact HD|exact Hwhole].
Qed.

Lemma truncatedTotal_weeks (h : Host) (i other : Temporal.Instant) (t : nat) :
  truncatedTotal h (Temporal.since i other) t Temporal.weeks
  = Z.quot (Temporal.epochNanoseconds i - Temporal.epochNanoseconds other)
           (7 * Temporal.nsPerDay).
Proof.
  set (D := Temporal.epochNanoseconds i - Temporal.epochNanoseconds other).
  destruct (Z.eq_dec D 0) as [HD|HD].
  { rewrite truncatedTotal_zero by exact HD. rewrite HD. reflexivity. }
  rewrite truncatedTotal_calendar by (auto; exact HD). fold D.
  set (origin := Temporal.epochNanoseconds (now h t)).
  rewrite !shiftByUnit_weeks.
  unfold Temporal.unitsBetweenDates, Temporal.nanosecondsToDateTime.
  cbn [Temporal.date]. rewrite !isoDateToEpochDays_epochDaysToIsoDate.
  set (delta := (origin + D) / Temporal.nsPerDay - origin / Temporal.nsPerDay).
  assert (Hdelta : - Temporal.nsPerDay < D - delta * Temporal.nsPerDay < Temporal.nsPerDay).
  { subst delta. change Temporal.nsPerDay with 86400000000000.
    Z.div_mod_to_equations. lia. }
  set (k0 := Z.quot delta 7).
  assert (Hk0 : - (7 * Temporal.nsPerDay) <= Z.sgn D * (D - k0 * (7 * Temporal.nsPerDay))).
  { subst k0. change Temporal.nsPerDay with 86400000000000 in *.
    Z.quot_rem_to_equations. lia. }
  set (N := 7 * Temporal.nsPerDay) in *.
  set (whole := if 0 <=? Z.sgn D * (origin + D - (origin + k0 * N))
                then k0 else k0 - Z.sgn D).
  assert (Hwhole : 0 <= Z.sgn D * (D - whole * N)).
  { subst whole.
    destruct (Z.leb_spec 0 (Z.sgn D * (origin + D - (origin + k0 * N)))); nia. }
  replace (origin + (whole + Z.sgn D) * N - (origin + whole * N))
    with (Z.sgn D * N) by lia.
  replace (origin + D - (origin + whole * N)) with (D - whole * N) by lia.
  apply quot_of_whole_and_rest; [reflexivity|exact HD|exact Hwhole].
Qed.

Lemma comparePlainDate_le_days (a b : Temporal.PlainDate) :
  Temporal.isValidISODate a = true -> Temporal.isValidISODate b = true ->
  Temporal.comparePlainDate a b <> 1 ->
  Temporal.isoDateToEpochDays a <= Temporal.isoDateToEpochDays b.
Proof.
  intros Ha Hb H. rewrite comparePlainDate_days in H by assumption. lia.
Qed.

Lemma days_le_comparePlainDate (a b : Temporal.PlainDate) :
  Temporal.isValidISODate a = true -> Temporal.isValidISODate b = true ->
  Temporal.isoDateToEpochDays a <= Temporal.isoDateToEpochDays b ->
  Temporal.comparePlainDate a b <> 1.
Proof.
  intros Ha Hb H. rewrite comparePlainDate_days by assumption. lia.
Qed.

(** Two dates at most 28 days apart lie in the same or in consecutive
    months, and in the same or in consecutive years. *)
Lemma unitsBetweenDates_near (a b : Temporal.PlainDate) :
  Temporal.isValidISODate a = true -> Temporal.isValidISODate b = true ->
  0 <= Temporal.isoDateToEpochDays b - Temporal.isoDateToEpochDays a <= 28 ->
  0 <= Temporal.unitsBetweenDates Temporal.months a b <= 1 /\
  0 <= Temporal.unitsBetweenDates Temporal.years a b <= 1.
Proof.
  intros Ha Hb Hnear.
  pose proof (days_le_comparePlainDate a b Ha Hb ltac:(lia)) as Hcmp.
  destruct a as [ya ma da], b as [yb mb db].
  destruct (isValidISODate_fields _ Ha) as (Hma & Hda & _).
  destruct (isValidISODate_fields _ Hb) as (Hmb & Hdb & _).
  destruct (isValidISODate_first _ _ _ Ha) as (Ha1 & _ & Hda').
  cbn [Temporal.year Temporal.month Temporal.day] in *.
  unfold Temporal.unitsBetweenDates. cbn [Temporal.year Temporal.month Temporal.day].
  assert (Hlex : ya < yb \/ (ya = yb /\ ma <= mb)).
  { unfold Temporal.comparePlainDate in Hcmp.
    cbn [Temporal.year Temporal.month Temporal.day] in Hcmp.
    destruct (Z.ltb_spec ya yb); [lia|].
    destruct (Z.ltb_spec yb ya); [congruence|].
    destruct (Z.ltb_spec ma mb); [lia|].
    destruct (Z.ltb_spec mb ma); [congruence|]. lia. }
  (* the first day of the month after [a] *)
  pose proof (isoDateToEpochDays_next_month ya ma Hma) as Hnext.
  pose proof (isoDateToEpochDays_day ya ma da) as Hday.
  set (c := if ma =? 12 then Temporal.mkPlainDate (ya + 1) 1 1
            else Temporal.mkPlainDate ya (ma + 1) 1) in *.
  assert (Hc : Temporal.isValidISODate c = true /\
               12 * Temporal.year c + Temporal.month c = 12 * ya + ma + 1 /\
               1 <= Temporal.month c <= 12 /\ Temporal.day c = 1).
  { subst c. destruct (Z.eqb_spec ma 12).
    - split; [reflexivity|]. cbn [Temporal.year Temporal.month Temporal.day]. lia.
    - split.
      + unfold Temporal.isValidISODate. cbn [Temporal.year Temporal.month Temporal.day].
        pose proof (ISODaysInMonth_ge_28 ya (ma + 1)).
        repeat (apply andb_true_intro; split); apply Z.leb_le; lia.
      + cbn [Temporal.year Temporal.month Temporal.day]. lia. }
  destruct Hc as (Hcv & Hcidx & Hcm & Hcd).
  assert (Hac : Temporal.isoDateToEpochDays (Temporal.mkPlainDate ya ma da)
                < Temporal.isoDateToEpochDays c) by lia.
  split.
  - split; [lia|].
    destruct (Z.le_gt_cases (12 * (yb - ya) + (mb - ma)) 1) as [|Hfar]; [assumption|].
    exfalso.
    (* the first day of the month after [c] is not after [b] *)
    pose proof (isoDateToEpochDays_next_month (Temporal.year c) (Temporal.month c) Hcm)
      as Hnext2.
    set (c' := if Temporal.month c =? 12
               then Temporal.mkPlainDate (Temporal.year c + 1) 1 1
               else Temporal.mkPlainDate (Temporal.year c)
                      (Temporal.month c + 1) 1) in *.
    assert (Hc' : Temporal.isValidISODate c' = true /\
                  12 * Temporal.year c' + Temporal.month c' = 12 * ya + ma + 2 /\
                  1 <= Temporal.month c' <= 12 /\ Temporal.day c' = 1).
    { subst c'. destruct (Z.eqb_spec (Temporal.month c) 12).
      - split; [reflexivity|]. cbn [Temporal.year Temporal.month Temporal.day]. lia.
      - split.
        + unfold Temporal.isValidISODate. cbn [Temporal.year Temporal.month Temporal.day].
          pose proof (ISODaysInMonth_ge_28 (Temporal.year c) (Temporal.month c + 1)).
          repeat (apply andb_true_intro; split); apply Z.leb_le; lia.
        + cbn [Temporal.year Temporal.month Temporal.day]. lia. }
    destruct Hc' as (Hc'v & Hc'idx & Hc'm & Hc'd).
    assert (Hc'b : Temporal.comparePlainDate c' (Temporal.mkPlainDate yb mb db) <> 1).
    { unfold Temporal.comparePlainDate.
      cbn [Temporal.year Temporal.month Temporal.day]. rewrite Hc'd.
      destruct (Z.ltb_spec (Temporal.year c') yb); [lia|].
      destruct (Z.ltb_spec yb (Temporal.year c')); [lia|].
      destruct (Z.ltb_spec (Temporal.month c') mb); [lia|].
      destruct (Z.ltb_spec mb (Temporal.month c')); [lia|].
      destruct (Z.ltb_spec 1 db); [lia|].
      destruct (Z.ltb_spec db 1); lia. }
    pose proof (comparePlainDate_le_days c' _ Hc'v Hb Hc'b) as Hle.
    pose proof (ISODaysInMonth_ge_28 (Temporal.year c) (Temporal.month c)).
    assert (Hc1 : c = Temporal.mkPlainDate (Temporal.year c) (Temporal.month c) 1)
      by (destruct c; cbn in Hcd |- *; subst; reflexivity).
    rewrite <- Hc1 in Hnext2. lia.
  - split; [lia|].
    destruct (Z.le_gt_cases (yb - ya) 1) as [|Hfar]; [assumption|].
    exfalso.
    assert (H1 : Temporal.comparePlainDate (Temporal.mkPlainDate ya ma da)
                   (Temporal.mkPlainDate (ya + 1) 1 1) <> 1).
    { unfold Temporal.comparePlainDate.
      cbn [Temporal.year Temporal.month Temporal.day].
      destruct (Z.ltb_spec ya (ya + 1)); lia. }
    assert (H2 : Temporal.comparePlainDate (Temporal.mkPlainDate (ya + 2) 1 1)
                   (Temporal.mkPlainDate yb mb db) <> 1).
    { unfold Temporal.comparePlainDate.
      cbn [Temporal.year Temporal.month Temporal.day].
      destruct (Z.ltb_spec (ya + 2) yb); [lia|].
      destruct (Z.ltb_spec yb (ya + 2)); [lia|].
      destruct (Z.ltb_spec 1 mb); [lia|].
      destruct (Z.ltb_spec mb 1); [lia|].
      destruct (Z.ltb_spec 1 db); [lia|].
      destruct (Z.ltb_spec db 1); lia. }
    pose proof (comparePlainDate_le_days _ (Temporal.mkPlainDate (ya + 1) 1 1)
                  Ha eq_refl H1) as Hle1.
    pose proof (comparePlainDate_le_days (Temporal.mkPlainDate (ya + 2) 1 1) _
                  eq_refl Hb H2) as Hle2.
    pose proof (isoDateToEpochDays_next_year (ya + 1) 1) as Hyear.
    replace (ya + 1 + 1) with (ya + 2) in Hyear by lia. lia.
Qed.

Lemma quot_small_abs (D P : Z) : Z.abs D < P -> Z.quot D P = 0.
Proof.
  intro H. destruct (Z.le_gt_cases 0 D).
  - apply Z.quot_small. lia.
  - rewrite <- (Z.opp_involutive D), Z.quot_opp_l by lia.
    rewrite Z.quot_small by lia. reflexivity.
Qed.

Lemma near_zero_total (origin D N k0 : Z) (F : Z -> Z) :
  0 < N -> D <> 0 -> Z.abs D < 28 * N ->
  F 0 = 0 -> 28 <= F 1 -> F (-1) <= -28 ->
  (0 < D -> 0 <= k0 <= 1) -> (D < 0 -> -1 <= k0 <= 0) ->
  let whole :=
    if 0 <=? Z.sgn D * (origin + D - (origin + F k0 * N)) then k0 else k0 - Z.sgn D in
  Z.quot (whole * Zpos (Z.to_pos (Z.abs (origin + F (whole + Z.sgn D) * N
                                         - (origin + F whole * N))))
          + Z.sgn D * Z.abs (origin + D - (origin + F whole * N)))
         (Zpos (Z.to_pos (Z.abs (origin + F (whole + Z.sgn D) * N
                                 - (origin + F whole * N)))))
  = 0.
Proof.
  intros HN HD Hnear H0 H1 Hm1 Hpos Hneg whole.
  assert (Hwhole : whole = 0).
  { subst whole. assert (0 < D \/ D < 0) as [Hs|Hs] by lia.
    - specialize (Hpos Hs). assert (k0 = 0 \/ k0 = 1) as [->| ->] by lia.
      + rewrite H0. destruct (Z.leb_spec 0 (Z.sgn D * (origin + D - (origin + 0 * N))));
          [reflexivity|lia].
      + destruct (Z.leb_spec 0 (Z.sgn D * (origin + D - (origin + F 1 * N)))); nia.
    - specialize (Hneg Hs). assert (k0 = 0 \/ k0 = -1) as [->| ->] by lia.
      + rewrite H0. destruct (Z.leb_spec 0 (Z.sgn D * (origin + D - (origin + 0 * N))));
          [reflexivity|lia].
      + destruct (Z.leb_spec 0 (Z.sgn D * (origin + D - (origin + F (-1) * N)))); nia. }
  rewrite Hwhole, H0. apply quot_small_abs.
  assert (Hstep : 28 * N <= Z.abs (origin + F (0 + Z.sgn D) * N - (origin + 0 * N))).
  { assert (0 < D \/ D < 0) as [Hs|Hs] by lia.
    - replace (Z.sgn D) with 1 by lia. change (0 + 1) with 1. nia.
    - replace (Z.sgn D) with (-1) by lia. change (0 + -1) with (-1). nia. }
  rewrite Z2Pos.id by lia. lia.
Qed.

(** Less than 28 days from now no whole month and no whole year fits. *)
Lemma truncatedTotal_months_years_near (h : Host) (i other : Temporal.Instant) (t : nat)
    (u : Temporal.Unit) :
  u = Temporal.months \/ u = Temporal.years ->
  Z.abs (Temporal.epochNanoseconds i - Temporal.epochNanoseconds other)
  < 28 * Temporal.nsPerDay ->
  truncatedTotal h (Temporal.since i other) t u = 0.
Proof.
  intros Hu Hnear.
  set (D := Temporal.epochNanoseconds i - Temporal.epochNanoseconds other) in *.
  destruct (Z.eq_dec D 0) as [HD|HD].
  { apply truncatedTotal_zero. exact HD. }
  rewrite truncatedTotal_calendar by (try exact HD; destruct Hu; auto). fold D.
  set (origin := Temporal.epochNanoseconds (now h t)).
  set (a := Temporal.date (Temporal.nanosecondsToDateTime origin)).
  set (b := Temporal.date (Temporal.nanosecondsToDateTime (origin + D))).
  assert (Ha : Temporal.isValidISODate a = true) by apply epochDaysToIsoDate_valid.
  assert (Hb : Temporal.isValidISODate b = true) by apply epochDaysToIsoDate_valid.
  assert (Hab : Temporal.isoDateToEpochDays b - Temporal.isoDateToEpochDays a
                = (origin + D) / Temporal.nsPerDay - origin / Temporal.nsPerDay).
  { subst a b. unfold Temporal.nanosecondsToDateTime. cbn [Temporal.date].
    rewrite !isoDateToEpochDays_epochDaysToIsoDate. reflexivity. }
  assert (Hdelta : (0 < D -> 0 <= Temporal.isoDateToEpochDays b
                                  - Temporal.isoDateToEpochDays a <= 28) /\
                   (D < 0 -> 0 <= Temporal.isoDateToEpochDays a
                                  - Temporal.isoDateToEpochDays b <= 28)).
  { rewrite Hab. change Temporal.nsPerDay with 86400000000000 in *.
    split; intro; Z.div_mod_to_equations; lia. }
  destruct Hdelta as [Hdpos Hdneg].
  assert (Hk0 : forall v, v = Temporal.months \/ v = Temporal.years ->
            (0 < D -> 0 <= Temporal.unitsBetweenDates v a b <= 1) /\
            (D < 0 -> -1 <= Temporal.unitsBetweenDates v a b <= 0)).
  { intros v Hv. split; intro Hs.
    - destruct (unitsBetweenDates_near a b Ha Hb (Hdpos Hs)) as [Hm Hy].
      destruct Hv as [->| ->]; assumption.
    - destruct (unitsBetweenDates_near b a Hb Ha (Hdneg Hs)) as [Hm Hy].
      unfold Temporal.unitsBetweenDates in *. destruct Hv as [->| ->]; lia. }
  destruct Hu as [Hu|Hu]; subst u.
  - rewrite !shiftByUnit_months. fold a.
    apply (near_zero_total origin D Temporal.nsPerDay
             (Temporal.unitsBetweenDates Temporal.months a b)
             (fun k => Temporal.isoDateToEpochDays (Temporal.addYearsMonths a 0 k)
                       - Temporal.isoDateToEpochDays a));
      try (apply Hk0; auto); try assumption; try reflexivity.
    + rewrite addYearsMonths_zero by exact Ha. lia.
    + apply addYearsMonths_next_month. exact Ha.
    + pose proof (addYearsMonths_previous_month a Ha). lia.
  - rewrite !shiftByUnit_years. fold a.
    apply (near_zero_total origin D Temporal.nsPerDay
             (Temporal.unitsBetweenDates Temporal.years a b)
             (fun k => Temporal.isoDateToEpochDays (Temporal.addYearsMonths a k 0)
                       - Temporal.isoDateToEpochDays a));
      try (apply Hk0; auto); try assumption; try reflexivity.
    + rewrite addYearsMonths_zero by exact Ha. lia.
    + apply addYearsMonths_next_year. exact Ha.
    + pose proof (addYearsMonths_previous_year a Ha). lia.
Qed.

(** X24.  Within four weeks of now [formatRelativeInstant] tells the difference
    in the largest of weeks, days, hours, minutes and seconds of which a
    whole one fits, counted toward zero, and says the zero-seconds phrase
    ("now") below one second; the later readings of the clock do not
    matter. *)
Theorem formatRelativeInstant_within_four_weeks
    (h : Host) (t : nat) (i : Temporal.Instant)
    (make : option string -> Intl.Numeric -> Intl.RelativeTimeFormat) :
  Intl_RelativeTimeFormat h = Some make ->
  Z.abs (Temporal.epochNanoseconds i - Temporal.epochNanoseconds (now h t))
  < 28 * Temporal.nsPerDay ->
  formatRelativeInstant h t i
  = JS.Ok (match relativeWithinFourWeeks
                   (Temporal.epochNanoseconds i - Temporal.epochNanoseconds (now h t)) with
           | Some (n, unit) => make None Intl.always n unit
           | None => make None Intl.auto 0 Temporal.seconds
           end).
Proof.
  intros Hmake Hnear.
  unfold formatRelativeInstant, rtf, rtfNumeric. rewrite Hmake. cbn [option_map].
  unfold units. cbn [formatRelativeUnits]. rewrite !nowLocal_UTC. cbn [JS.bind].
  repeat match goal with
         | |- context [JS.Math_trunc
                         (Temporal.total ?d ?u
                            (Temporal.mkZonedDateTime (now h ?k) "UTC" Temporal.utcRules))] =>
             change (JS.Math_trunc
                       (Temporal.total d u
                          (Temporal.mkZonedDateTime (now h k) "UTC" Temporal.utcRules)))
               with (truncatedTotal h d k u)
         end.
  rewrite !(truncatedTotal_months_years_near h i (now h t) _ Temporal.years)
    by (auto; exact Hnear).
  rewrite !(truncatedTotal_months_years_near h i (now h t) _ Temporal.months)
    by (auto; exact Hnear).
  rewrite !truncatedTotal_weeks, !truncatedTotal_days.
  rewrite !(proj1 (truncatedTotal_clock h i (now h t) _)).
  rewrite !(proj1 (proj2 (truncatedTotal_clock h i (now h t) _))).
  rewrite !(proj2 (proj2 (truncatedTotal_clock h i (now h t) _))).
  change (negb (0 =? 0)) with false. cbv beta iota.
  unfold relativeWithinFourWeeks.
  repeat match goal with
         | |- context [negb (?a =? 0)] => destruct (negb (a =? 0))
         end; reflexivity.
Qed.

Lemma formatRelativeInstant_within_four_weeks_witness :
  formatRelativeInstant (TestHost.mocked TestHost.now_2022_05_05) 0
    (instantOf "2022-05-03T10:12:13Z")
  = JS.Ok "2 days ago"%string.
Proof.
  refine (eq_trans
            (formatRelativeInstant_within_four_weeks
               (TestHost.mocked TestHost.now_2022_05_05) 0
               (instantOf "2022-05-03T10:12:13Z") TestHost.relativeTimeFormat eq_refl _) _).
  - vm_compute. reflexivity.
  - vm_compute. reflexivity.
Defined.

(** ** now and calculations: the day that holds now *)



(** ** formatting: date ranges on the host clock *)



(** ** calculations and comparison: days and months as intervals *)



(** X28.  The day after [endOfMonth(d)] is the first day of the next month
    (of January of the next year after December), which is its own
    [startOfMonth]; and by the library's comparisons [d] is not before
    [startOfMonth(d)], not after [endOfMonth(d)], and before the first day of
    the next month. *)
Theorem endOfMonth_is_followed_by_the_next_month (d : Temporal.PlainDate) :
  Temporal.isValidISODate d = true ->
  let next :=
    if Temporal.month d =? 12 then Temporal.mkPlainDate (Temporal.year d + 1) 1 1
    else Temporal.mkPlainDate (Temporal.year d) (Temporal.month d + 1) 1 in
  Temporal.addDays (endOfMonth d) 1 = next /\
  startOfMonth next = next /\
  isDateBefore d (startOfMonth d) = false /\
  isDateAfter d (endOfMonth d) = false /\
  isDateBefore d next = true /\
  isDateBefore (endOfMonth d) next = true.
Proof.
  intros Hv next. destruct d as [y m dd].
  destruct (isValidISODate_first y m dd Hv) as (Hfirst & Hlast & Hrange).
  destruct (isValidISODate_fields _ Hv) as (Hm & _ & _).
  destruct (startOfMonth_start_and_end y m dd Hv) as [Hstart Hend].
  cbn [Temporal.year Temporal.month Temporal.day] in *.
  assert (Hnv : Temporal.isValidISODate next = true).
  { subst next. destruct (Z.eqb_spec m 12); [reflexivity|].
    unfold Temporal.isValidISODate. cbn [Temporal.year Temporal.month Temporal.day].
    pose proof (ISODaysInMonth_ge_28 y (m + 1)).
    repeat (apply andb_true_intro; split); apply Z.leb_le; lia. }
  assert (Hne : Temporal.isoDateToEpochDays next
                = Temporal.isoDateToEpochDays (Temporal.mkPlainDate y m 1)
                  + Temporal.ISODaysInMonth y m).
  { subst next. apply isoDateToEpochDays_next_month. exact Hm. }
  pose proof (isoDateToEpochDays_day y m dd) as Hd.
  pose proof (isoDateToEpochDays_day y m (Temporal.ISODaysInMonth y m)) as Hl.
  assert (Hafter : Temporal.addDays (endOfMonth (Temporal.mkPlainDate y m dd)) 1 = next).
  { rewrite Hend. unfold Temporal.addDays.
    replace (Temporal.isoDateToEpochDays
               (Temporal.mkPlainDate y m (Temporal.ISODaysInMonth y m)) + 1)
      with (Temporal.isoDateToEpochDays next) by lia.
    apply epochDaysToIsoDate_isoDateToEpochDays. exact Hnv. }
  split; [exact Hafter|]. split.
  { subst next. destruct (Z.eqb_spec m 12);
      apply (startOfMonth_start_and_end _ _ 1); assumption. }
  unfold isDateBefore, isDateAfter. rewrite Hstart, Hend.
  rewrite !comparePlainDate_days by assumption.
  repeat split; try apply Z.eqb_neq; try apply Z.eqb_eq; lia.
Qed.

Lemma endOfMonth_is_followed_by_the_next_month_witness :
  Temporal.addDays (endOfMonth (Temporal.mkPlainDate 2023 12 15)) 1
  = Temporal.mkPlainDate 2024 1 1.
Proof.
  pose proof (endOfMonth_is_followed_by_the_next_month
                (Temporal.mkPlainDate 2023 12 15) eq_refl) as (H & _).
  exact H.
Defined.

(** ** formatting: the friendly formatters and the time zone *)

(** X29.  [formatInstantFriendlyDate(time, timezone)] does not format in
    [timezone]: it makes a zoned date-time of the instant and hands
    [formatFriendlyDateTime] the [Date] of it, and the formatter there is
    built without a time zone; so for any two zones the host knows the text
    is the same, the one [formatFriendlyDateTime] gives for any zoned
    date-time of that instant.  The zone only decides whether the call
    fails.  [formatFriendlyInstant] passes its zone on to the formatter. *)
Theorem formatInstantFriendlyDate_ignores_timezone
    (DateTimeFormat : FriendlyDateTimeFormat) (h : Host) (i : Temporal.Instant)
    (tz1 tz2 : string) (rules1 rules2 : Temporal.ZoneRules) :
  Temporal.resolveTimeZone (timeZones h) tz1 = JS.Ok rules1 ->
  Temporal.resolveTimeZone (timeZones h) tz2 = JS.Ok rules2 ->
  formatInstantFriendlyDate DateTimeFormat h i tz1
  = formatInstantFriendlyDate DateTimeFormat h i tz2 /\
  (forall z : Temporal.ZonedDateTime,
     Temporal.zonedInstant z = i ->
     formatFriendlyDateTime DateTimeFormat z
     = formatInstantFriendlyDate DateTimeFormat h i tz1) /\
  formatInstantFriendlyDate DateTimeFormat h i tz1
  = JS.map (fun formatter => ordinalFormatForDay (formatter (toJSDateUTC (inr i))))
      (DateTimeFormat
         (mkFriendlyFormatOptions (Some Intl.numeric) (Some Intl.numeric)
            (Some weekdayLong) (Some Intl.numeric) (Some Intl.long)
            (Some Intl.numeric) None)) /\
  formatFriendlyInstant DateTimeFormat i tz1
  = JS.map (fun formatter => ordinalFormatForDay (formatter (toJSDateUTC (inr i))))
      (DateTimeFormat
         (mkFriendlyFormatOptions (Some Intl.numeric) (Some Intl.numeric)
            (Some weekdayLong) (Some Intl.numeric) (Some Intl.long)
            (Some Intl.numeric) (Some tz1))) /\
  (forall tz, Temporal.resolveTimeZone (timeZones h) tz = JS.Throw JS.RangeError ->
     formatInstantFriendlyDate DateTimeFormat h i tz = JS.Throw JS.RangeError).
Proof.
  intros H1 H2.
  unfold formatInstantFriendlyDate, formatFriendlyDateTime, formatFriendlyInstant,
    Temporal.toZonedDateTimeISO.
  rewrite H1, H2. cbn [JS.bind].
  split; [reflexivity|]. split.
  { intros z Hz. unfold toJSDateUTC, epochMillisecondsOf.
    cbn [Temporal.zonedInstant]. rewrite Hz. reflexivity. }
  split.
  { destruct (DateTimeFormat _); reflexivity. }
  split.
  { destruct (DateTimeFormat _); reflexivity. }
  intros tz Hr. rewrite Hr. reflexivity.
Qed.

Lemma formatInstantFriendlyDate_ignores_timezone_witness :
  formatInstantFriendlyDate
    (fun options => JS.Ok (TestHost.dateTimeFormat None
       (Intl.mkDateTimeFormatOptions (monthField options) (dayField options)
          (yearField options))))
    (TestHost.mocked TestHost.now_2022_05_05)
    (Temporal.mkInstant 1657409400000000000) "UTC"
  = formatInstantFriendlyDate
      (fun options => JS.Ok (TestHost.dateTimeFormat None
         (Intl.mkDateTimeFormatOptions (monthField options) (dayField options)
            (yearField options))))
      (TestHost.mocked TestHost.now_2022_05_05)
      (Temporal.mkInstant 1657409400000000000) "Europe/London".
Proof.
  apply (formatInstantFriendlyDate_ignores_timezone
           (fun options => JS.Ok (TestHost.dateTimeFormat None
              (Intl.mkDateTimeFormatOptions (monthField options) (dayField options)
                 (yearField options))))
           (TestHost.mocked TestHost.now_2022_05_05)
           (Temporal.mkInstant 1657409400000000000) "UTC" "Europe/London"
           Temporal.utcRules TestHost.londonRules eq_refl eq_refl).
Defined.

